(** * NotiSync notification classifier: a shallow embedding

    The development follows [src/services/ml/classifier.py]: the keyword
    rule table, the learned pattern store kept in [self.learned_patterns],
    the Redis cache behind it, and the four public methods of
    [NotificationClassifier]; and the handlers of the HTTP service in
    [src/services/ml/main.py], which work on one such object.

    Conventions of the embedding.
    - A Python [float] is an IEEE-754 binary64 number: [spec_float] with
      precision 53 and maximal exponent 1024, rounded to nearest even.
    - A Python [str] is a [string] of Latin-1 characters: the embedding
      covers text of code points below 256, a character being its code
      point, on which [str.lower], [str.upper], [str.strip] and the classes
      of [re] are the functions of module [PyStr].  The arrow U+2192 of the
      reasoning texts, which no input is compared with, is written as its
      UTF-8 bytes.
    - A Python [dict] is an association list in insertion order.
    - A raised exception is the constructor [Raise] of [exn].
    - Methods take [self] and give back the object after the call. *)

From Stdlib Require Import ZArith Bool List String Ascii Lia PeanoNat.
From Stdlib Require Import Permutation Sorted.
From Stdlib Require Import SpecFloat.
Import ListNotations.
Open Scope list_scope.
Open Scope string_scope.

(* ================================================================== *)
(** * Part I.  The embedding                                           *)
(* ================================================================== *)

(** ** Exceptions *)

Inductive exn (A : Type) : Type :=
| Ok (a : A)
| Raise (e : string).
Arguments Ok {A} a.
Arguments Raise {A} e.

Definition bind {A B : Type} (m : exn A) (k : A -> exn B) : exn B :=
  match m with
  | Ok a => k a
  | Raise e => Raise e
  end.

Notation "'let?' x ':=' m 'in' k" := (bind m (fun x => k))
  (at level 10, x name, m at level 100, k at level 200).
Notation "'let?' ' p ':=' m 'in' k" :=
  (bind m (fun x => match x with p => k end))
  (at level 10, p pattern, m at level 100, k at level 200).

Fixpoint fold_exn {A B : Type} (f : A -> B -> exn A) (l : list B) (a : A)
  : exn A :=
  match l with
  | [] => Ok a
  | b :: l' => let? a' := f a b in fold_exn f l' a'
  end.

Fixpoint map_exn {A B : Type} (f : A -> exn B) (l : list A) : exn (list B) :=
  match l with
  | [] => Ok []
  | a :: l' => let? b := f a in let? bs := map_exn f l' in Ok (b :: bs)
  end.

(** [l.append(a)] *)
Definition append {A : Type} (l : list A) (a : A) : list A := (l ++ [a])%list.

(** ** Python floats *)

Module PyFloat.

Definition float : Type := spec_float.

Definition prec : Z := 53.
Definition emax : Z := 1024.

Definition fadd : float -> float -> float := SFadd prec emax.
Definition fsub : float -> float -> float := SFsub prec emax.
Definition fcompare : float -> float -> option comparison := SFcompare.

(** [x < y], [x > y], [x == y], [x <= y] on floats; all four are false
    when an operand is NaN. *)
Definition flt (x y : float) : bool :=
  match fcompare x y with Some Lt => true | _ => false end.
Definition fgt (x y : float) : bool :=
  match fcompare x y with Some Gt => true | _ => false end.
Definition feq (x y : float) : bool :=
  match fcompare x y with Some Eq => true | _ => false end.
Definition fle (x y : float) : bool :=
  match fcompare x y with Some (Lt | Eq) => true | _ => false end.

(** The float of an integer literal, and of a decimal literal [n/d]
    (correctly rounded, as the Python parser does). *)
Definition of_Z (n : Z) : float := binary_normalize prec emax n 0 false.
Definition of_ratio (n d : Z) : float := SFdiv prec emax (of_Z n) (of_Z d).

Definition c0 : float := Eval vm_compute in of_Z 0.          (* 0, 0.0 *)
Definition c1 : float := Eval vm_compute in of_Z 1.          (* 1.0 *)
Definition c2 : float := Eval vm_compute in of_Z 2.          (* 2.0 *)
Definition c3 : float := Eval vm_compute in of_Z 3.          (* 3.0 *)
Definition c1_5 : float := Eval vm_compute in of_ratio 15 10.  (* 1.5 *)
Definition c0_5 : float := Eval vm_compute in of_ratio 5 10.   (* 0.5 *)
Definition c0_7 : float := Eval vm_compute in of_ratio 7 10.   (* 0.7 *)
Definition c0_8 : float := Eval vm_compute in of_ratio 8 10.   (* 0.8 *)
Definition c0_9 : float := Eval vm_compute in of_ratio 9 10.   (* 0.9 *)
Definition c0_95 : float := Eval vm_compute in of_ratio 95 100. (* 0.95 *)
Definition c0_1 : float := Eval vm_compute in of_ratio 1 10.   (* 0.1 *)
Definition c0_05 : float := Eval vm_compute in of_ratio 5 100. (* 0.05 *)

(** [a / b]: Python raises on a zero divisor. *)
Definition fdiv (a b : float) : exn float :=
  if feq b c0 then Raise "ZeroDivisionError"
  else Ok (SFdiv prec emax a b).

(** The builtins [max(a, b)] and [min(a, b)]: the first argument is kept
    unless the second is strictly greater (smaller). *)
Definition py_max (a b : float) : float := if fgt b a then b else a.
Definition py_min (a b : float) : float := if flt b a then b else a.

End PyFloat.
Export PyFloat.

(** ** Python strings *)

Module PyStr.

Definition ord (c : ascii) : nat := nat_of_ascii c.

Definition between (lo hi : nat) (c : ascii) : bool :=
  (lo <=? ord c)%nat && (ord c <=? hi)%nat.

Definition is_code (n : nat) (c : ascii) : bool := (ord c =? n)%nat.

(** The letters that have a lowercase, 32 places further on: A-Z, and
    U+00C0-U+00DE without the multiplication sign U+00D7. *)
Definition is_upper (c : ascii) : bool :=
  between 65 90 c || (between 192 222 c && negb (is_code 215 c)).

(** The letters whose uppercase is the character 32 places before: a-z,
    and U+00E0-U+00FE without the division sign U+00F7. *)
Definition is_lower (c : ascii) : bool :=
  between 97 122 c || (between 224 254 c && negb (is_code 247 c)).

(** [\d] *)
Definition is_digit : ascii -> bool := between 48 57.

Definition is_ascii_alnum (c : ascii) : bool :=
  between 65 90 c || between 97 122 c || is_digit c.

(** [c.isalnum()]: beyond ASCII the letters U+00AA U+00B5 U+00BA,
    U+00C0-U+00FF without U+00D7 and U+00F7, and the numbers U+00B2 U+00B3
    U+00B9 U+00BC-U+00BE. *)
Definition is_alnum (c : ascii) : bool :=
  is_ascii_alnum c
  || existsb (fun n => is_code n c) [170; 178; 179; 181; 185; 186; 188; 189; 190]
  || between 192 214 c || between 216 246 c || between 248 255 c.

(** [\w] *)
Definition is_word (c : ascii) : bool := is_alnum c || Ascii.eqb c "_".

(** [str.isspace], also [\s]: TAB LF VT FF CR, FS GS RS US, SPACE, NEL
    U+0085 and NBSP U+00A0. *)
Definition is_space (c : ascii) : bool :=
  between 9 13 c || between 28 32 c || is_code 133 c || is_code 160 c.

Definition char_lower (c : ascii) : ascii :=
  if is_upper c then ascii_of_nat (ord c + 32) else c.

(** The uppercase of a character: two letters for the sharp s U+00DF, and
    none in this alphabet for the micro sign U+00B5 and for U+00FF, whose
    uppercase letters are U+039C and U+0178. *)
Definition char_upper (c : ascii) : option string :=
  if is_code 223 c then Some "SS"
  else if is_code 181 c || is_code 255 c then None
  else if is_lower c then Some (String (ascii_of_nat (ord c - 32)) "")
  else Some (String c "").

(** [s.lower()] *)
Fixpoint lower (s : string) : string :=
  match s with
  | "" => ""
  | String c s' => String (char_lower c) (lower s')
  end.

(** [s.upper()], when that is Latin-1 text *)
Fixpoint upper (s : string) : option string :=
  match s with
  | "" => Some ""
  | String c s' =>
      match char_upper c, upper s' with
      | Some u, Some us => Some (u ++ us)
      | _, _ => None
      end
  end.

(** [s.strip()] *)
Fixpoint lstrip (s : string) : string :=
  match s with
  | "" => ""
  | String c s' => if is_space c then lstrip s' else s
  end.
Fixpoint rstrip (s : string) : string :=
  match s with
  | "" => ""
  | String c s' =>
      match rstrip s' with
      | "" => if is_space c then "" else String c ""
      | r => String c r
      end
  end.
Definition strip (s : string) : string := rstrip (lstrip s).

(** [s.startswith(p)] and [sub in s] *)
Fixpoint startswith (s p : string) : bool :=
  match p, s with
  | "", _ => true
  | String a p', String b s' => Ascii.eqb a b && startswith s' p'
  | String _ _, "" => false
  end.
Fixpoint str_in (sub s : string) : bool :=
  startswith s sub
  || match s with
     | "" => false
     | String _ s' => str_in sub s'
     end.

(** [sep.join(l)] *)
Fixpoint join (sep : string) (l : list string) : string :=
  match l with
  | [] => ""
  | [x] => x
  | x :: l' => x ++ sep ++ join sep l'
  end.

(** [s.split(':', 1)]: one or two pieces. *)
Fixpoint split_colon_1 (s : string) : list string :=
  match s with
  | "" => [""]
  | String c s' =>
      if Ascii.eqb c ":" then [""; s']
      else match split_colon_1 s' with
           | h :: t => String c h :: t
           | [] => [String c ""]
           end
  end.

(** [l[i]] *)
Definition list_index {A : Type} (l : list A) (i : nat) : exn A :=
  match nth_error l i with
  | Some a => Ok a
  | None => Raise "IndexError"
  end.

(** [s[:n]] on strings *)
Definition take (n : nat) (s : string) : string := substring 0 n s.

Definition truthy (s : string) : bool :=
  match s with "" => false | _ => true end.

End PyStr.
Export PyStr.

(** ** The fragment of [re] the classifier uses

    A pattern is a sequence of single-character atoms, each with a greedy
    repetition count, and word-boundary assertions: enough for the seven
    junk patterns and for the tokenizer of [learn_from_feedback].  Any other
    syntax is refused by [re_compile]. *)

Module PyRe.

Inductive atom : Type :=
| ALit (c : ascii)    (* a literal character *)
| ADigit              (* \d *)
| ASpace              (* \s *)
| AWord.              (* \w *)

Inductive item : Type :=
| IRep (a : atom) (lo : nat) (hi : option nat)  (* a{lo,hi}, greedy *)
| IBoundary.                                    (* \b *)

Definition regex : Type := list item.

(** *** Compiling the pattern text *)

Inductive pstate : Type :=
| PNormal (quantifiable : bool)
| PEscape
| PBrace0                 (* after "{" *)
| PBraceLo (n : nat)      (* after "{" and digits *)
| PBraceHi (lo : nat).    (* after "{n," *)

Definition is_meta (c : ascii) : bool :=
  existsb (Ascii.eqb c)
    ["."; "^"; "$"; "?"; "|"; "("; ")"; "["; "]"; "}"]%char.

Definition digit_val (c : ascii) : nat := ord c - 48.

Definition requantify (lo : nat) (hi : option nat) (acc : list item)
  : option (list item) :=
  match acc with
  | IRep a _ _ :: acc' => Some (IRep a lo hi :: acc')
  | _ => None
  end.

Definition once (a : atom) : item := IRep a 1 (Some 1).

Fixpoint parse (st : pstate) (acc : list item) (s : string)
  : option regex :=
  match s with
  | "" =>
      match st with
      | PNormal _ => Some (rev acc)
      | _ => None
      end
  | String c s' =>
      match st with
      | PEscape =>
          if Ascii.eqb c "d" then parse (PNormal true) (once ADigit :: acc) s'
          else if Ascii.eqb c "s" then parse (PNormal true) (once ASpace :: acc) s'
          else if Ascii.eqb c "w" then parse (PNormal true) (once AWord :: acc) s'
          else if Ascii.eqb c "b" then parse (PNormal false) (IBoundary :: acc) s'
          else if is_ascii_alnum c then None
          else parse (PNormal true) (once (ALit c) :: acc) s'
      | PNormal q =>
          if Ascii.eqb c "\" then parse PEscape acc s'
          else if Ascii.eqb c "+" then
            if q then
              match requantify 1 None acc with
              | Some acc' => parse (PNormal false) acc' s'
              | None => None
              end
            else None
          else if Ascii.eqb c "*" then
            if q then
              match requantify 0 None acc with
              | Some acc' => parse (PNormal false) acc' s'
              | None => None
              end
            else None
          else if Ascii.eqb c "{" then
            if q then parse PBrace0 acc s' else None
          else if is_meta c then None
          else parse (PNormal true) (once (ALit c) :: acc) s'
      | PBrace0 =>
          if is_digit c then parse (PBraceLo (digit_val c)) acc s' else None
      | PBraceLo n =>
          if is_digit c then parse (PBraceLo (10 * n + digit_val c)) acc s'
          else if Ascii.eqb c "}" then
            match requantify n (Some n) acc with
            | Some acc' => parse (PNormal false) acc' s'
            | None => None
            end
          else if Ascii.eqb c "," then parse (PBraceHi n) acc s'
          else None
      | PBraceHi lo =>
          if Ascii.eqb c "}" then
            match requantify lo None acc with
            | Some acc' => parse (PNormal false) acc' s'
            | None => None
            end
          else None
      end
  end.

Definition re_compile (pattern : string) : exn regex :=
  match parse (PNormal false) [] pattern with
  | Some r => Ok r
  | None => Raise "re.error"
  end.

(** *** Matching

    A position in the subject is the character before it (if any) and
    the text from it on. *)

Definition atom_matches (ignorecase : bool) (a : atom) (c : ascii) : bool :=
  match a with
  | ALit l =>
      if ignorecase then Ascii.eqb (char_lower l) (char_lower c)
      else Ascii.eqb l c
  | ADigit => is_digit c
  | ASpace => is_space c
  | AWord => is_word c
  end.

(** The number of leading characters of [s] that match [a]. *)
Fixpoint run (ignorecase : bool) (a : atom) (s : string) : nat :=
  match s with
  | "" => 0
  | String c s' =>
      if atom_matches ignorecase a c then S (run ignorecase a s') else 0
  end.

Definition capped (hi : option nat) (n : nat) : nat :=
  match hi with
  | Some h => Nat.min h n
  | None => n
  end.

Fixpoint advance (k : nat) (prev : option ascii) (s : string)
  : option ascii * string :=
  match k, s with
  | S k', String c s' => advance k' (Some c) s'
  | _, _ => (prev, s)
  end.

Definition word_before (prev : option ascii) : bool :=
  match prev with
  | Some c => is_word c
  | None => false
  end.
Definition word_after (s : string) : bool :=
  match s with
  | String c _ => is_word c
  | "" => false
  end.
Definition at_boundary (prev : option ascii) (s : string) : bool :=
  xorb (word_before prev) (word_after s).

(** Greedy repetition with backtracking: the counts [k], [k-1], ...,
    [lo] are tried in this order. *)
Fixpoint try_counts (lo k : nat) (cont : nat -> option nat) {struct k}
  : option nat :=
  if (k <? lo)%nat then None
  else match cont k with
       | Some r => Some r
       | None =>
           match k with
           | O => None
           | S k' => try_counts lo k' cont
           end
       end.

(** The length of the match of [r] that starts at the position, if any. *)
Fixpoint match_here (ignorecase : bool) (r : regex)
  (prev : option ascii) (s : string) : option nat :=
  match r with
  | [] => Some 0
  | IBoundary :: r' =>
      if at_boundary prev s then match_here ignorecase r' prev s else None
  | IRep a lo hi :: r' =>
      try_counts lo (capped hi (run ignorecase a s))
        (fun k =>
           let '(prev', s') := advance k prev s in
           match match_here ignorecase r' prev' s' with
           | Some m => Some (k + m)
           | None => None
           end)
  end.

(** Is there a match starting at this position or further right? *)
Fixpoint search_from (ignorecase : bool) (r : regex)
  (prev : option ascii) (s : string) : bool :=
  match match_here ignorecase r prev s with
  | Some _ => true
  | None =>
      match s with
      | "" => false
      | String c s' => search_from ignorecase r (Some c) s'
      end
  end.

(** The truth value of [re.search(pattern, s, flags)]. *)
Definition re_search (pattern s : string) (ignorecase : bool) : exn bool :=
  let? r := re_compile pattern in
  Ok (search_from ignorecase r None s).

(** Non-overlapping matches from left to right; [skip] characters of the
    last match are still to be passed over. *)
Fixpoint findall_from (ignorecase : bool) (r : regex)
  (prev : option ascii) (s : string) (skip : nat) : list string :=
  match s with
  | "" =>
      match skip, match_here ignorecase r prev "" with
      | O, Some _ => [""]
      | _, _ => []
      end
  | String c s' =>
      match skip with
      | S k => findall_from ignorecase r (Some c) s' k
      | O =>
          match match_here ignorecase r prev s with
          | Some n =>
              take n s :: findall_from ignorecase r (Some c) s' (pred n)
          | None => findall_from ignorecase r (Some c) s' 0
          end
      end
  end.

Definition re_findall (pattern s : string) : exn (list string) :=
  let? r := re_compile pattern in
  Ok (findall_from false r None s 0).

End PyRe.
Export PyRe.

(** ** Python dictionaries *)

Section PyDict.
Context {K V : Type}.
Variable keq : K -> K -> bool.

Definition dict : Type := list (K * V).

(** [d.get(k)] *)
Fixpoint dict_get (d : dict) (k : K) : option V :=
  match d with
  | [] => None
  | (k', v) :: d' => if keq k' k then Some v else dict_get d' k
  end.

(** [k in d] *)
Definition dict_mem (d : dict) (k : K) : bool :=
  match dict_get d k with
  | Some _ => true
  | None => false
  end.

(** [d[k] = v]: an existing key keeps its place, a new one goes last. *)
Fixpoint dict_set (d : dict) (k : K) (v : V) : dict :=
  match d with
  | [] => [(k, v)]
  | (k', v') :: d' =>
      if keq k' k then (k', v) :: d' else (k', v') :: dict_set d' k v
  end.

(** [del d[k]] when present *)
Fixpoint dict_del (d : dict) (k : K) : dict :=
  match d with
  | [] => []
  | (k', v') :: d' => if keq k' k then d' else (k', v') :: dict_del d' k
  end.

Definition dict_keys (d : dict) : list K := map fst d.
Definition dict_values (d : dict) : list V := map snd d.
End PyDict.

Arguments dict : clear implicits.

(** ** Stable sorting by a float key, largest first

    [sorted(l, key=key, reverse=True)] and [l.sort(key=key, reverse=True)]:
    elements are compared with [<] on their keys only, and elements with
    equal keys keep their order.  (The keys sorted here are never NaN.) *)

Section SortDesc.
Context {A : Type}.
Variable key : A -> float.

Fixpoint insert_desc (x : A) (l : list A) : list A :=
  match l with
  | [] => [x]
  | y :: l' =>
      if flt (key x) (key y) then y :: insert_desc x l' else x :: y :: l'
  end.

Definition sort_desc (l : list A) : list A :=
  fold_right insert_desc [] l.
End SortDesc.

(** ** Data model *)

Inductive NotificationCategory : Type := WORK | PERSONAL | JUNK.

Definition value (c : NotificationCategory) : string :=
  match c with
  | WORK => "Work"
  | PERSONAL => "Personal"
  | JUNK => "Junk"
  end.

Definition category_eqb (a b : NotificationCategory) : bool :=
  match a, b with
  | WORK, WORK | PERSONAL, PERSONAL | JUNK, JUNK => true
  | _, _ => false
  end.

(** [for category in NotificationCategory] *)
Definition all_categories : list NotificationCategory :=
  [WORK; PERSONAL; JUNK].

Record ClassificationResult : Type := mkResult {
  category : NotificationCategory;
  confidence : float;
  reasoning : string;
  matched_keywords : list string
}.

Record UserFeedback : Type := mkFeedback {
  app_name : string;
  title : string;
  body : string;
  predicted_category : NotificationCategory;
  actual_category : NotificationCategory;
  timestamp : Z
}.

(** One entry of the keyword rule table; a key the source leaves out is
    the empty list, as [keywords.get(k, [])] reads it. *)
Record profile : Type := mkProfile {
  kw_apps : list string;
  kw_content : list string;
  kw_patterns : list string;
  kw_domains : list string
}.

(** The learned patterns of one category: the dictionary
    [{'apps': {...}, 'content': {...}}], either key possibly missing. *)
Record patterns : Type := mkPatterns {
  p_apps : option (dict string float);
  p_content : option (dict string float)
}.

Definition learned : Type := dict NotificationCategory patterns.

(** The Redis server behind [self.redis_client]: what it holds under each
    key (the JSON text, here the value it encodes), and whether it answers;
    every command to a server that is down raises.  Expiry of keys is not
    modelled. *)
Record redis : Type := mkRedis {
  r_up : bool;
  r_data : dict string patterns
}.

Record classifier : Type := mkClassifier {
  redis_client : option redis;
  work_keywords : profile;
  personal_keywords : profile;
  junk_keywords : profile;
  learned_patterns : learned
}.

Definition set_learned (self : classifier) (l : learned) : classifier :=
  mkClassifier (redis_client self) (work_keywords self)
    (personal_keywords self) (junk_keywords self) l.

Definition set_redis (self : classifier) (r : option redis) : classifier :=
  mkClassifier r (work_keywords self) (personal_keywords self)
    (junk_keywords self) (learned_patterns self).

(** [patterns.get('apps', {})], [patterns.get('content', {})] *)
Definition get_apps (p : patterns) : dict string float :=
  match p_apps p with Some d => d | None => [] end.
Definition get_content (p : patterns) : dict string float :=
  match p_content p with Some d => d | None => [] end.

Definition sget := @dict_get string float String.eqb.
Definition sset := @dict_set string float String.eqb.
Definition cget := @dict_get NotificationCategory patterns category_eqb.
Definition cset := @dict_set NotificationCategory patterns category_eqb.
Definition cmem := @dict_mem NotificationCategory patterns category_eqb.

(** ** The state of a classifier object

    A method is a computation over [self] that may raise; what it did to
    [self] before raising stays. *)

Definition M (A : Type) : Type := classifier -> exn A * classifier.

Definition ret {A : Type} (a : A) : M A := fun self => (Ok a, self).

Definition bindM {A B : Type} (m : M A) (k : A -> M B) : M B :=
  fun self =>
    match m self with
    | (Ok a, self') => k a self'
    | (Raise e, self') => (Raise e, self')
    end.

Definition lift {A : Type} (m : exn A) : M A := fun self => (m, self).
Definition get : M classifier := fun self => (Ok self, self).
Definition put_learned (l : learned) : M unit :=
  fun self => (Ok tt, set_learned self l).
Definition put_redis (r : option redis) : M unit :=
  fun self => (Ok tt, set_redis self r).

Notation "x <- m ;; k" := (bindM m (fun x => k))
  (at level 61, m at next level, right associativity).
Notation "m ;; k" := (bindM m (fun _ => k))
  (at level 61, right associativity).

Fixpoint for_each {A : Type} (l : list A) (body : A -> M unit) : M unit :=
  match l with
  | [] => ret tt
  | a :: l' => body a ;; for_each l' body
  end.

(** ** Redis commands *)

Definition redis_get (r : redis) (key : string) : exn (option patterns) :=
  if r_up r then Ok (dict_get String.eqb (r_data r) key)
  else Raise "ConnectionError".

Definition redis_setex (r : redis) (key : string) (v : patterns) : exn redis :=
  if r_up r then Ok (mkRedis (r_up r) (dict_set String.eqb (r_data r) key v))
  else Raise "ConnectionError".

Definition redis_delete (r : redis) (key : string) : exn redis :=
  if r_up r then Ok (mkRedis (r_up r) (dict_del String.eqb (r_data r) key))
  else Raise "ConnectionError".

Definition redis_key (c : NotificationCategory) : string :=
  "learned_patterns:" ++ value c.

(** ** [NotificationClassifier] *)

Definition initial_work_keywords : profile := {|
  kw_apps := [
    "slack"; "teams"; "microsoft teams"; "outlook"; "gmail"; "email";
    "zoom"; "webex"; "skype"; "calendar"; "jira"; "confluence";
    "trello"; "asana"; "notion"; "monday"; "salesforce"; "hubspot";
    "office"; "excel"; "word"; "powerpoint"; "sharepoint";
    "linkedin"; "workday"; "bamboohr"; "zendesk"; "freshdesk" ];
  kw_content := [
    "meeting"; "conference"; "deadline"; "project"; "task";
    "client"; "customer"; "report"; "presentation"; "document";
    "schedule"; "appointment"; "colleague"; "team"; "manager";
    "office"; "work"; "business"; "professional"; "corporate";
    "invoice"; "contract"; "proposal"; "budget"; "quarterly";
    "standup"; "scrum"; "sprint"; "deployment"; "release";
    "urgent"; "asap"; "priority"; "escalation"; "incident" ];
  kw_patterns := [];
  kw_domains := [
    "company.com"; "corp.com"; "enterprise.com"; "business.com";
    "work.com"; "office.com"; "team.com" ]
|}.

Definition initial_personal_keywords : profile := {|
  kw_apps := [
    "whatsapp"; "telegram"; "signal"; "messenger"; "imessage";
    "instagram"; "facebook"; "twitter"; "snapchat"; "tiktok";
    "youtube"; "spotify"; "netflix"; "amazon"; "uber"; "lyft";
    "maps"; "weather"; "news"; "reddit"; "discord"; "twitch";
    "banking"; "bank"; "paypal"; "venmo"; "cashapp"; "zelle";
    "fitness"; "health"; "calendar"; "photos"; "camera" ];
  kw_content := [
    "friend"; "family"; "mom"; "dad"; "brother"; "sister";
    "birthday"; "anniversary"; "vacation"; "holiday"; "weekend";
    "dinner"; "lunch"; "coffee"; "movie"; "game"; "party";
    "personal"; "private"; "home"; "house"; "apartment";
    "love"; "miss"; "care"; "thanks"; "congratulations";
    "reminder"; "appointment"; "doctor"; "dentist"; "gym";
    "workout"; "exercise"; "recipe"; "cooking"; "shopping" ];
  kw_patterns := [];
  kw_domains := []
|}.

Definition initial_junk_keywords : profile := {|
  kw_apps := [
    "marketing"; "promo"; "deals"; "offers"; "shopping";
    "retail"; "store"; "mall"; "advertisement"; "ad";
    "spam"; "newsletter"; "subscription"; "promotion" ];
  kw_content := [
    "sale"; "discount"; "offer"; "deal"; "promotion"; "coupon";
    "limited time"; "buy now"; "shop"; "free shipping"; "% off";
    "unsubscribe"; "marketing"; "newsletter"; "advertisement";
    "click here"; "act now"; "hurry"; "expires"; "last chance";
    "winner"; "congratulations"; "prize"; "lottery"; "jackpot";
    "free"; "bonus"; "reward"; "cashback"; "refund";
    "viagra"; "casino"; "gambling"; "loan"; "credit";
    "weight loss"; "diet"; "supplement"; "miracle" ];
  kw_patterns := [
    "\d+%\s*off";
    "free\s+shipping";
    "buy\s+\d+\s+get\s+\d+";
    "\$\d+\.\d{2}";
    "limited\s+time";
    "act\s+now";
    "click\s+here" ];
  kw_domains := []
|}.

Definition _initialize_keywords : M unit :=
  fun self =>
    (Ok tt,
     mkClassifier (redis_client self) initial_work_keywords
       initial_personal_keywords initial_junk_keywords
       (learned_patterns self)).

Definition empty_patterns : patterns := mkPatterns (Some []) (Some []).

Definition fresh_learned : learned :=
  [ (WORK, empty_patterns); (PERSONAL, empty_patterns);
    (JUNK, empty_patterns) ].

(** The loop of [_load_learned_patterns]; an exception ends it and is
    logged. *)
Fixpoint load_loop (r : redis) (cats : list NotificationCategory)
  (l : learned) : learned :=
  match cats with
  | [] => l
  | c :: cats' =>
      match redis_get r (redis_key c) with
      | Ok (Some p) => load_loop r cats' (cset l c p)
      | Ok None => load_loop r cats' l
      | Raise _ => l
      end
  end.

Definition _load_learned_patterns : M unit :=
  put_learned fresh_learned ;;
  self <- get ;;
  match redis_client self with
  | Some r => put_learned (load_loop r all_categories (learned_patterns self))
  | None => ret tt
  end.

(** The loop of [_save_learned_patterns]. *)
Fixpoint save_loop (items : list (NotificationCategory * patterns))
  (r : redis) : redis :=
  match items with
  | [] => r
  | (c, p) :: items' =>
      match redis_setex r (redis_key c) p with
      | Ok r' => save_loop items' r'
      | Raise _ => r
      end
  end.

Definition _save_learned_patterns : M unit :=
  self <- get ;;
  match redis_client self with
  | Some r => put_redis (Some (save_loop (learned_patterns self) r))
  | None => ret tt
  end.

(** [NotificationClassifier(redis_client)] *)
Definition NotificationClassifier (redis_client : option redis) : classifier :=
  let blank := mkProfile [] [] [] [] in
  snd ((_initialize_keywords ;; _load_learned_patterns)
         (mkClassifier redis_client blank blank blank [])).

(** *** [_check_learned_patterns] *)

Definition learned_app_result (category : NotificationCategory)
  (app_name : string) (app_confidence : float) : ClassificationResult :=
  {| category := category;
     confidence := app_confidence;
     reasoning :=
       "Learned from user feedback: " ++ app_name ++ " → " ++ value category;
     matched_keywords := [app_name] |}.

Definition learned_content_result (category : NotificationCategory)
  (pattern : string) (pattern_confidence : float) : ClassificationResult :=
  {| category := category;
     confidence := pattern_confidence;
     reasoning :=
       "Learned from user feedback: '" ++ pattern ++ "' → " ++ value category;
     matched_keywords := [pattern] |}.

(** The inner loop over [patterns.get('content', {}).items()]. *)
Fixpoint check_content (category : NotificationCategory) (content : string)
  (items : list (string * float)) : option ClassificationResult :=
  match items with
  | [] => None
  | (pattern, pattern_confidence) :: items' =>
      if str_in pattern content && fgt pattern_confidence c0_7
      then Some (learned_content_result category pattern pattern_confidence)
      else check_content category content items'
  end.

Definition check_app (category : NotificationCategory) (app_name : string)
  (p : patterns) : option ClassificationResult :=
  match sget (get_apps p) app_name with
  | Some app_confidence =>
      if fgt app_confidence c0_7
      then Some (learned_app_result category app_name app_confidence)
      else None
  | None => None
  end.

(** The outer loop over [self.learned_patterns.items()]. *)
Fixpoint check_items (app_name content : string)
  (items : list (NotificationCategory * patterns))
  : option ClassificationResult :=
  match items with
  | [] => None
  | (category, p) :: items' =>
      match check_app category app_name p with
      | Some r => Some r
      | None =>
          match check_content category content (get_content p) with
          | Some r => Some r
          | None => check_items app_name content items'
          end
      end
  end.

Definition _check_learned_patterns (app_name content : string)
  : M (option ClassificationResult) :=
  self <- get ;;
  ret (check_items app_name content (learned_patterns self)).

(** *** [_calculate_category_score] *)

Definition tally : Type := (float * list string)%type.

(** [score += w; matches.append(f"{tag}{item}")] *)
Definition record_match (w : float) (tag item : string) (t : tally) : tally :=
  (fadd (fst t) w, append (snd t) (tag ++ item)).

Definition scan_substrings (w : float) (tag : string) (text : string)
  (items : list string) (t : tally) : tally :=
  fold_left
    (fun t item => if str_in item text then record_match w tag item t else t)
    items t.

Definition scan_patterns (w : float) (tag : string) (text : string)
  (items : list string) (t : tally) : exn tally :=
  fold_exn
    (fun t pattern =>
       let? found := re_search pattern text true in
       Ok (if found then record_match w tag pattern t else t))
    items t.

Definition _calculate_category_score (app_name content : string)
  (keywords : profile) : exn tally :=
  let t := (c0, []) in
  let t := scan_substrings c3 "app:" app_name (kw_apps keywords) t in
  let t := scan_substrings c1 "keyword:" content (kw_content keywords) t in
  let? t := scan_patterns c2 "pattern:" content (kw_patterns keywords) t in
  let t := scan_substrings c1_5 "domain:" content (kw_domains keywords) t in
  Ok t.

(** *** [_generate_reasoning] *)

(** [m.split(':', 1)[1]] *)
Definition after_colon (m : string) : exn string :=
  list_index (split_colon_1 m) 1.

Definition nonempty {A : Type} (l : list A) : bool :=
  match l with [] => false | _ => true end.

Definition _generate_reasoning (category : NotificationCategory)
  (matches : list string) (app_name : string) : exn string :=
  if negb (nonempty matches) then
    Ok ("Classified as " ++ value category ++ " based on general patterns")
  else
    let app_matches := filter (fun m => startswith m "app:") matches in
    let keyword_matches := filter (fun m => startswith m "keyword:") matches in
    let pattern_matches := filter (fun m => startswith m "pattern:") matches in
    let reasons := [] in
    let? reasons :=
      if nonempty app_matches then
        let? apps := map_exn after_colon app_matches in
        Ok (append reasons
              ("app '" ++ app_name ++ "' matches "
                 ++ lower (value category) ++ " apps"))
      else Ok reasons in
    let? reasons :=
      if nonempty keyword_matches then
        let? keywords := map_exn after_colon (firstn 3 keyword_matches) in
        Ok (append reasons
              ("contains " ++ lower (value category) ++ " keywords: "
                 ++ join ", " keywords))
      else Ok reasons in
    let reasons :=
      if nonempty pattern_matches then
        append reasons ("matches " ++ lower (value category) ++ " patterns")
      else reasons in
    Ok ("Classified as " ++ value category ++ ": " ++ join "; " reasons).

(** *** [classify] *)

Definition scored : Type := (NotificationCategory * float * list string)%type.
Definition score_of (x : scored) : float := snd (fst x).

(** The scoring path of [classify], after the learned patterns gave
    nothing. *)
Definition classify_by_keywords (self : classifier)
  (app_name content : string) : exn ClassificationResult :=
  let? '(work_score, work_matches) :=
    _calculate_category_score app_name content (work_keywords self) in
  let? '(personal_score, personal_matches) :=
    _calculate_category_score app_name content (personal_keywords self) in
  let? '(junk_score, junk_matches) :=
    _calculate_category_score app_name content (junk_keywords self) in
  let scores : list scored :=
    [ (WORK, work_score, work_matches);
      (PERSONAL, personal_score, personal_matches);
      (JUNK, junk_score, junk_matches) ] in
  let scores := sort_desc score_of scores in
  let? '(best_category, best_score, best_matches) := list_index scores 0 in
  let? confidence :=
    if (1 <? List.length scores)%nat then
      let? second := list_index scores 1 in
      let second_best_score := score_of second in
      let? q := fdiv (fsub best_score second_best_score)
                     (py_max best_score c1) in
      Ok (py_min c0_95 (py_max c0_5 q))
    else Ok c0_8 in
  if feq best_score c0 then
    Ok {| category := PERSONAL;
          confidence := c0_5;
          reasoning := "No specific patterns matched, defaulting to Personal";
          matched_keywords := [] |}
  else
    let? reasoning :=
      _generate_reasoning best_category best_matches app_name in
    Ok {| category := best_category;
          confidence := confidence;
          reasoning := reasoning;
          matched_keywords := best_matches |}.

Definition classify (app_name title body : string)
  : M ClassificationResult :=
  let app_name := strip (lower app_name) in
  let content := strip (lower (title ++ " " ++ body)) in
  learned_result <- _check_learned_patterns app_name content ;;
  match learned_result with
  | Some r => ret r
  | None =>
      self <- get ;;
      lift (classify_by_keywords self app_name content)
  end.

(** *** [learn_from_feedback] *)

(** [self.learned_patterns[category]] *)
Definition getitem (l : learned) (c : NotificationCategory) : exn patterns :=
  match cget l c with
  | Some p => Ok p
  | None => Raise "KeyError"
  end.

Definition or_default (d : float) (o : option float) : float :=
  match o with Some v => v | None => d end.

(** The app branch: [setdefault('apps', {})], then the raised confidence
    is stored; the record of the category is changed in place. *)
Definition learn_app (c : NotificationCategory) (app_name : string) : M unit :=
  self <- get ;;
  p <- lift (getitem (learned_patterns self) c) ;;
  let apps := get_apps p in
  let current_confidence := or_default c0_5 (sget apps app_name) in
  let apps := sset apps app_name (py_min c0_95 (fadd current_confidence c0_1)) in
  put_learned (cset (learned_patterns self) c
                 (mkPatterns (Some apps) (p_content p))).

(** One round of the loop over the content words. *)
Definition learn_word (c : NotificationCategory) (word : string) : M unit :=
  if (3 <? String.length word)%nat then
    self <- get ;;
    p <- lift (getitem (learned_patterns self) c) ;;
    let content_patterns := get_content p in
    let current_confidence := or_default c0_5 (sget content_patterns word) in
    let content_patterns :=
      sset content_patterns word
        (py_min c0_9 (fadd current_confidence c0_05)) in
    put_learned (cset (learned_patterns self) c
                   (mkPatterns (p_apps p) (Some content_patterns)))
  else ret tt.

Definition learn_from_feedback (feedback : UserFeedback) : M unit :=
  let app_name := strip (lower (app_name feedback)) in
  let content :=
    strip (lower (title feedback ++ " " ++ body feedback)) in
  let correct_category := actual_category feedback in
  self <- get ;;
  (if negb (cmem (learned_patterns self) correct_category)
   then put_learned
          (cset (learned_patterns self) correct_category empty_patterns)
   else ret tt) ;;
  (if truthy app_name then learn_app correct_category app_name
   else ret tt) ;;
  content_words <- lift (re_findall "\b\w{3,}\b" content) ;;
  for_each (firstn 5 content_words) (learn_word correct_category) ;;
  _save_learned_patterns.

(** *** [get_category_stats] *)

Record category_stats : Type := mkStats {
  learned_apps : nat;
  learned_content_patterns : nat;
  top_apps : list (string * float);
  top_content_patterns : list (string * float)
}.

Definition stats_of (p : patterns) : category_stats :=
  let apps_dict := get_apps p in
  let content_dict := get_content p in
  {| learned_apps := List.length apps_dict;
     learned_content_patterns := List.length content_dict;
     top_apps := firstn 5 (sort_desc snd apps_dict);
     top_content_patterns := firstn 10 (sort_desc snd content_dict) |}.

Definition get_category_stats : M (dict string category_stats) :=
  self <- get ;;
  ret (fold_left
         (fun stats '(category, p) =>
            dict_set String.eqb stats (value category) (stats_of p))
         (learned_patterns self) []).

(** *** [reset_learned_patterns] *)

Fixpoint delete_loop (cats : list NotificationCategory) (r : redis) : redis :=
  match cats with
  | [] => r
  | c :: cats' =>
      match redis_delete r (redis_key c) with
      | Ok r' => delete_loop cats' r'
      | Raise _ => r
      end
  end.

Definition reset_learned_patterns : M unit :=
  put_learned fresh_learned ;;
  self <- get ;;
  match redis_client self with
  | Some r => put_redis (Some (delete_loop all_categories r))
  | None => ret tt
  end.

(** ** Notions the properties are stated with *)

(** A stored confidence is a number between 0 and the ceiling of its
    track. *)
Definition conf_ok (ceiling v : float) : Prop :=
  fle c0 v = true /\ fle v ceiling = true.

(** Both maps are present, and their values are within bounds. *)
Definition patterns_ok (p : patterns) : Prop :=
  exists apps content,
    p_apps p = Some apps /\ p_content p = Some content /\
    Forall (conf_ok c0_95) (dict_values apps) /\
    Forall (conf_ok c0_9) (dict_values content).

Definition store_ok (l : learned) : Prop :=
  Forall patterns_ok (dict_values l).

Definition cache_ok (rc : option redis) : Prop :=
  match rc with
  | Some r => Forall patterns_ok (dict_values (r_data r))
  | None => True
  end.

(** The invariant of the learned pattern store, with its cache. *)
Definition store_invariant (self : classifier) : Prop :=
  store_ok (learned_patterns self) /\ cache_ok (redis_client self).

(** The keyword rule table is the one [_initialize_keywords] builds. *)
Definition initialized (self : classifier) : Prop :=
  work_keywords self = initial_work_keywords /\
  personal_keywords self = initial_personal_keywords /\
  junk_keywords self = initial_junk_keywords.

(** What a Redis server does on its own: it goes up or down, and a key
    expires. *)
Inductive server_step : redis -> redis -> Prop :=
| srv_switch (r : redis) (up : bool) :
    server_step r (mkRedis up (r_data r))
| srv_expire (r : redis) (key : string) :
    server_step r (mkRedis (r_up r) (dict_del String.eqb (r_data r) key)).

(** The classifier objects a deployment can hold: created without a cache
    or over an empty one, worked on by the four public methods, created
    anew over the cache of an earlier object. *)
Inductive reachable : classifier -> Prop :=
| reach_plain : reachable (NotificationClassifier None)
| reach_empty_cache (up : bool) :
    reachable (NotificationClassifier (Some (mkRedis up [])))
| reach_restart (self : classifier) :
    reachable self -> reachable (NotificationClassifier (redis_client self))
| reach_server (self : classifier) (r r' : redis) :
    reachable self -> redis_client self = Some r -> server_step r r' ->
    reachable (set_redis self (Some r'))
| reach_classify (self : classifier) (app_name title body : string) :
    reachable self -> reachable (snd (classify app_name title body self))
| reach_learn (self : classifier) (feedback : UserFeedback) :
    reachable self -> reachable (snd (learn_from_feedback feedback self))
| reach_stats (self : classifier) :
    reachable self -> reachable (snd (get_category_stats self))
| reach_reset (self : classifier) :
    reachable self -> reachable (snd (reset_learned_patterns self)).

(** The tokens as the specification words them (the code runs
    [re.findall], see [PyRe]): the maximal runs of word characters of a
    text, from left to right. *)
Fixpoint word_runs (s : string) : list string :=
  match s with
  | "" => []
  | String c s' =>
      if is_word c then
        match word_after s', word_runs s' with
        | true, w :: ws => String c w :: ws
        | _, ws => String c "" :: ws
        end
      else word_runs s'
  end.

(** The content tokens of a feedback: runs of at least three word
    characters, the first five of them, those longer than three. *)
Definition content_tokens (content : string) : list string :=
  filter (fun w => (3 <=? String.length w)%nat) (word_runs content).
Definition taken_tokens (content : string) : list string :=
  firstn 5 (content_tokens content).
Definition written_tokens (content : string) : list string :=
  filter (fun w => (3 <? String.length w)%nat) (taken_tokens content).

(** The two updates as the specification words them:
    [min(0.95, c + 0.1)] and [min(0.90, c + 0.05)], from 0.5 for a key
    that is new. *)
Definition raise_app (o : option float) : float :=
  py_min c0_95 (fadd (or_default c0_5 o) c0_1).
Definition raise_word (o : option float) : float :=
  py_min c0_9 (fadd (or_default c0_5 o) c0_05).

Definition write_word (d : dict string float) (w : string)
  : dict string float :=
  sset d w (raise_word (sget d w)).

(** The confidence as the specification words it:
    [min(0.95, max(0.5, (best - second) / max(best, 1.0)))]. *)
Definition margin_confidence (best second : float) : float :=
  py_min c0_95
    (py_max c0_5 (SFdiv prec emax (fsub best second) (py_max best c1))).

(** The entries of the store that are visited before the one of [c]. *)
Fixpoint before (c : NotificationCategory) (l : learned) : learned :=
  match l with
  | [] => []
  | (c', p) :: l' => if category_eqb c' c then [] else (c', p) :: before c l'
  end.

(** The store holds a confidence above 0.7 for [a] in the apps map of
    [c]. *)
Definition holds_app (self : classifier) (c : NotificationCategory)
  (a : string) (v : float) : Prop :=
  exists p,
    cget (learned_patterns self) c = Some p /\
    sget (get_apps p) a = Some v /\ fgt v c0_7 = true.

(** The learned patterns of one category after a feedback on the
    normalized app name [a] and text [content], in the words of the
    specification; a map that is missing and is not written stays
    missing. *)
Definition write_word_opt (o : option (dict string float)) (w : string)
  : option (dict string float) :=
  Some (write_word (match o with Some d => d | None => [] end) w).

Definition learned_record (p : patterns) (a content : string) : patterns :=
  {| p_apps :=
       if truthy a
       then Some (sset (get_apps p) a (raise_app (sget (get_apps p) a)))
       else p_apps p;
     p_content :=
       fold_left write_word_opt (written_tokens content) (p_content p) |}.

Definition record_of (l : learned) (c : NotificationCategory) : patterns :=
  match cget l c with
  | Some p => p
  | None => empty_patterns
  end.

Definition learned_after (l : learned) (c : NotificationCategory)
  (a content : string) : learned :=
  cset l c (learned_record (record_of l c) a content).

(** The text after its leading word characters. *)
Fixpoint skip_word (s : string) : string :=
  match s with
  | "" => ""
  | String c s' => if is_word c then skip_word s' else s
  end.

(** The compiled form of the tokenizer pattern, and the length of the run
    of word characters a text starts with. *)
Definition word_re : regex := [IBoundary; IRep AWord 3 None; IBoundary].
Abbreviation wrun := (run false AWord).

(** The result of [classify] when no pattern matched at all. *)
Definition default_result : ClassificationResult :=
  {| category := PERSONAL;
     confidence := c0_5;
     reasoning := "No specific patterns matched, defaulting to Personal";
     matched_keywords := [] |}.

(** The pattern text is in the fragment of [PyRe]. *)
Definition compiles (pattern : string) : Prop :=
  exists r, re_compile pattern = Ok r.

(** The sharp s, U+00DF, and the texts without it. *)
Definition sharp_s : ascii := "223"%char.

Fixpoint sharp_free (s : string) : bool :=
  match s with
  | "" => true
  | String c s' => negb (is_code 223 c) && sharp_free s'
  end.

(** Sample objects the statements below are tried on. *)

Definition feedback_on (app_name title body : string)
  (predicted actual : NotificationCategory) (time : Z) : UserFeedback :=
  mkFeedback app_name title body predicted actual time.

Fixpoint teach (n : nat) (feedback : UserFeedback) (self : classifier)
  : classifier :=
  match n with
  | O => self
  | S n' => snd (learn_from_feedback feedback (teach n' feedback self))
  end.

(** Three corrections of "Slack" to Work, then three to Personal. *)
Definition taught_both : classifier :=
  teach 3 (feedback_on "Slack" "" "" WORK PERSONAL 0)
    (teach 3 (feedback_on "Slack" "" "" PERSONAL WORK 0)
       (NotificationClassifier None)).

(** Three corrections of "Slack" to Personal only. *)
Definition taught_personal : classifier :=
  teach 3 (feedback_on "Slack" "" "" WORK PERSONAL 0)
    (NotificationClassifier None).

(** The sign bit is clear and the number is not NaN. *)
Definition nonneg (x : float) : bool :=
  match x with
  | S754_zero false | S754_infinity false | S754_finite false _ _ => true
  | _ => false
  end.

(** ** Notions for the further properties *)

(** Half the weight of a match, by its tag: 3.0 for an app, 1.0 for a
    keyword, 2.0 for a pattern, 1.5 for a domain. *)
Definition half_weight (m : string) : Z :=
  if startswith m "app:" then 6
  else if startswith m "keyword:" then 2
  else if startswith m "pattern:" then 4
  else if startswith m "domain:" then 3
  else 0.

Fixpoint half_weights (matches : list string) : Z :=
  match matches with
  | [] => 0
  | m :: matches' => (half_weight m + half_weights matches')%Z
  end.

(** The float [k / 2]. *)
Definition of_halves (k : Z) : float := SFdiv prec emax (of_Z k) c2.

(** The most a profile can score, in halves. *)
Definition profile_weight (keywords : profile) : Z :=
  (6 * Z.of_nat (List.length (kw_apps keywords))
   + 2 * Z.of_nat (List.length (kw_content keywords))
   + 4 * Z.of_nat (List.length (kw_patterns keywords))
   + 3 * Z.of_nat (List.length (kw_domains keywords)))%Z.

(** The scores for which float addition is checked to be exact. *)
Definition score_bound : Z := 1000.

Definition halves_upto (n : nat) : list Z := map Z.of_nat (seq 0 (S n)).

(** The same float, bit for bit. *)
Definition float_same (x y : float) : bool :=
  match x, y with
  | S754_zero a, S754_zero b => Bool.eqb a b
  | S754_infinity a, S754_infinity b => Bool.eqb a b
  | S754_nan, S754_nan => true
  | S754_finite a m e, S754_finite b n f =>
      Bool.eqb a b && Pos.eqb m n && Z.eqb e f
  | _, _ => false
  end.

(** Adding a weight to [k / 2] is exact, and [k / 2] is zero for [k = 0]
    only. *)
Definition sums_exact (k : Z) : bool :=
  forallb
    (fun w => float_same (fadd (of_halves k) (of_halves w))
                (of_halves (k + w)))
    [2; 3; 4; 6]%Z
  && (negb (feq (of_halves k) c0) || Z.eqb k 0).

(** Whether [re.search] finds the pattern, for a pattern that compiles. *)
Definition pattern_found (content pattern : string) : bool :=
  match re_search pattern content true with
  | Ok found => found
  | Raise _ => false
  end.

(** The matches of a profile in closed form: the items that are found,
    in the order of the lists, each with its tag. *)
Definition tagged (tag : string) (items : list string) : list string :=
  map (fun item => tag ++ item) items.

Definition expected_matches (app_name content : string) (keywords : profile)
  : list string :=
  (tagged "app:" (filter (fun k => str_in k app_name) (kw_apps keywords))
   ++ tagged "keyword:"
        (filter (fun k => str_in k content) (kw_content keywords))
   ++ tagged "pattern:"
        (filter (pattern_found content) (kw_patterns keywords))
   ++ tagged "domain:"
        (filter (fun k => str_in k content) (kw_domains keywords)))%list.


(** A property of the records holds in the store and in the cache. *)
Definition everywhere (P : patterns -> Prop) (self : classifier) : Prop :=
  Forall P (dict_values (learned_patterns self)) /\
  match redis_client self with
  | Some r => Forall P (dict_values (r_data r))
  | None => True
  end.

(** The confidence of a key after [n + 1] corrections, from no entry. *)
Fixpoint raised (raise : option float -> float) (n : nat) : float :=
  match n with
  | O => raise None
  | S n' => raise (Some (raised raise n'))
  end.

(** The confidences the two tracks pass through: 0.6, 0.7, 0.7999999999999999,
    0.8999999999999999, 0.95 for apps, and 0.55, 0.6000000000000001, ...,
    0.8500000000000003, 0.9 for content words. *)
Definition app_levels : list float := map (raised raise_app) (seq 0 5).
Definition word_levels : list float := map (raised raise_word) (seq 0 8).

Definition app_entry_ok (e : string * float) : Prop :=
  truthy (fst e) = true /\ In (snd e) app_levels.
Definition word_entry_ok (e : string * float) : Prop :=
  (3 <? String.length (fst e))%nat = true /\ In (snd e) word_levels.

(** Both maps are present, no key comes twice, no app name is empty, every
    content word is longer than three characters, and every confidence is
    one of the levels of its track. *)
Definition tidy (p : patterns) : Prop :=
  exists apps content,
    p_apps p = Some apps /\ p_content p = Some content /\
    NoDup (dict_keys apps) /\ NoDup (dict_keys content) /\
    Forall app_entry_ok apps /\ Forall word_entry_ok content.


(** The store has one record for each category, in the order of the
    enumeration, and no key comes twice in the cache. *)
Definition well_keyed (self : classifier) : Prop :=
  dict_keys (learned_patterns self) = all_categories /\
  match redis_client self with
  | Some r => NoDup (dict_keys (r_data r))
  | None => True
  end.


(** Descending order of the keys, and keys that are numbers without sign
    bit. *)
Definition above_by {A : Type} (key : A -> float) (a b : A) : Prop :=
  fle (key b) (key a) = true.
Definition keyed_by {A : Type} (key : A -> float) (a : A) : Prop :=
  nonneg (key a) = true.

(** The order of a ranking: a larger confidence comes first. *)
Definition by_confidence (a b : string * float) : Prop :=
  fle (snd b) (snd a) = true.

Definition has_confidence (v : float) (e : string * float) : bool :=
  feq (snd e) v.

(** [top] is a ranking of the [n] best entries of [d]: it has [n] entries,
    or all of them when there are fewer; it is in descending order; no
    entry left out has a larger confidence than one that is listed; and
    entries with the same confidence come in the order of [d], the first
    ones being listed. *)
Definition is_top (n : nat) (d top : dict string float) : Prop :=
  List.length top = Nat.min n (List.length d) /\
  StronglySorted by_confidence top /\
  (exists rest,
     Permutation (top ++ rest) d /\
     forall x y, In x top -> In y rest -> fle (snd y) (snd x) = true) /\
  (forall v, exists later,
     filter (has_confidence v) d = filter (has_confidence v) top ++ later)%list.


(** The rule table entry of a category. *)
Definition profile_of (self : classifier) (c : NotificationCategory)
  : profile :=
  match c with
  | WORK => work_keywords self
  | PERSONAL => personal_keywords self
  | JUNK => junk_keywords self
  end.

(** The reasons of a reasoning text in closed form, from the apps, the
    keywords and the patterns that were found: the app name, the first
    three keywords, and the mere fact that a pattern matched. *)
Definition reasons_of (c : NotificationCategory) (app_name : string)
  (apps keywords patterns : list string) : list string :=
  let about_app :=
    "app '" ++ app_name ++ "' matches " ++ lower (value c) ++ " apps" in
  let about_keywords :=
    "contains " ++ lower (value c) ++ " keywords: "
      ++ join ", " (firstn 3 keywords) in
  let about_patterns := "matches " ++ lower (value c) ++ " patterns" in
  ((if nonempty apps then [about_app] else [])
   ++ (if nonempty keywords then [about_keywords] else [])
   ++ (if nonempty patterns then [about_patterns] else []))%list.


(** ** The HTTP service of [src/services/ml/main.py]

    The module keeps one classifier object, [classifier], created at
    import over [redis_client]; a handler is a computation over it, and
    the module variable [redis_client] is the client of that object.  A
    handler returns its reply or raises [HTTPException].  Request bodies
    have been validated by the framework: the fields have their declared
    types.  The clock is an argument of the handler that reads it. *)

Module Main.

Inductive response (A : Type) : Type :=
| Reply (a : A)
| HTTPException (status_code : nat) (detail : string).
Arguments Reply {A} a.
Arguments HTTPException {A} status_code detail.

Definition handler (A : Type) : Type := classifier -> response A * classifier.

Record NotificationData : Type := mkNotificationData {
  n_app_name : string;
  n_title : option string;
  n_body : option string
}.

Record ClassificationResponse : Type := mkClassificationResponse {
  cr_category : string;
  cr_confidence : float;
  cr_reasoning : string;
  cr_matched_keywords : list string
}.

Record FeedbackRequest : Type := mkFeedbackRequest {
  f_app_name : string;
  f_title : option string;
  f_body : option string;
  f_predicted_category : string;
  f_actual_category : string
}.

Record StatsResponse : Type := mkStatsResponse {
  sr_category_stats : dict string category_stats;
  total_learned_patterns : nat;
  redis_connected : bool
}.

(** [x or ""] for an optional string *)
Definition or_empty (o : option string) : string :=
  match o with
  | Some s => if truthy s then s else ""
  | None => ""
  end.

(** [redis_client.ping()] *)
Definition redis_ping (r : redis) : exn bool :=
  if r_up r then Ok true else Raise "ConnectionError".

(** The module initialisation: the client is kept when the port is a
    number and the server answers the ping, and is [None] otherwise. *)
Definition startup (redis_port : exn Z) (server : redis) : option redis :=
  match redis_port with
  | Ok _ =>
      match redis_ping server with
      | Ok _ => Some server
      | Raise _ => None
      end
  | Raise _ => None
  end.

Definition initial_classifier (redis_port : exn Z) (server : redis)
  : classifier :=
  NotificationClassifier (startup redis_port server).

Section Service.
(** [repr] of a string, and [str] of an exception of the classifier. *)
Variable repr : string -> string.
Variable message : string -> string.

(** [NotificationCategory(s)]; the [ValueError] is kept as its text. *)
Definition category_of_value (s : string) : exn NotificationCategory :=
  if String.eqb s (value WORK) then Ok WORK
  else if String.eqb s (value PERSONAL) then Ok PERSONAL
  else if String.eqb s (value JUNK) then Ok JUNK
  else Raise (repr s ++ " is not a valid NotificationCategory").

Definition health_check (self : classifier) : dict string string :=
  let redis_status :=
    match redis_client self with
    | Some _ => "connected"
    | None => "disconnected"
    end in
  let redis_status :=
    match redis_client self with
    | Some r =>
        match redis_ping r with
        | Ok _ => redis_status
        | Raise _ => "error"
        end
    | None => redis_status
    end in
  [ ("status", "healthy"); ("service", "classification");
    ("redis", redis_status); ("version", "1.0.0") ].

Definition classify_notification (notification : NotificationData)
  : handler ClassificationResponse :=
  fun self =>
    match classify (n_app_name notification)
            (or_empty (n_title notification))
            (or_empty (n_body notification)) self with
    | (Ok result, self') =>
        (Reply {| cr_category := value (category result);
                  cr_confidence := confidence result;
                  cr_reasoning := reasoning result;
                  cr_matched_keywords := matched_keywords result |},
         self')
    | (Raise e, self') =>
        (HTTPException 500 ("Classification failed: " ++ message e), self')
    end.

Definition submit_feedback (now : Z) (feedback : FeedbackRequest)
  : handler (dict string string) :=
  fun self =>
    match
      (let? predicted_cat :=
         category_of_value (f_predicted_category feedback) in
       let? actual_cat := category_of_value (f_actual_category feedback) in
       Ok (predicted_cat, actual_cat))
    with
    | Raise e => (HTTPException 400 ("Invalid category: " ++ e), self)
    | Ok (predicted_cat, actual_cat) =>
        let user_feedback :=
          {| app_name := f_app_name feedback;
             title := or_empty (f_title feedback);
             body := or_empty (f_body feedback);
             predicted_category := predicted_cat;
             actual_category := actual_cat;
             timestamp := now |} in
        match learn_from_feedback user_feedback self with
        | (Ok _, self') =>
            (Reply [ ("status", "success");
                     ("message",
                      "Feedback received: " ++ f_app_name feedback ++ " → "
                        ++ f_actual_category feedback) ],
             self')
        | (Raise e, self') =>
            (HTTPException 500 ("Feedback processing failed: " ++ message e),
             self')
        end
    end.

Definition get_stats : handler StatsResponse :=
  fun self =>
    match get_category_stats self with
    | (Ok stats, self') =>
        let total_patterns :=
          fold_left
            (fun total cat_stats =>
               (total + (learned_apps cat_stats
                         + learned_content_patterns cat_stats))%nat)
            (dict_values stats) 0%nat in
        (Reply {| sr_category_stats := stats;
                  total_learned_patterns := total_patterns;
                  redis_connected :=
                    match redis_client self' with
                    | Some _ => true
                    | None => false
                    end |},
         self')
    | (Raise e, self') =>
        (HTTPException 500 ("Stats retrieval failed: " ++ message e), self')
    end.

Definition reset_learned_patterns : handler (dict string string) :=
  fun self =>
    match reset_learned_patterns self with
    | (Ok _, self') =>
        (Reply [ ("status", "success");
                 ("message", "All learned patterns have been reset") ],
         self')
    | (Raise e, self') =>
        (HTTPException 500 ("Reset failed: " ++ message e), self')
    end.

Definition get_categories : list string * dict string string :=
  (map value all_categories,
   [ ("Work", "Business, professional, and work-related notifications");
     ("Personal",
      "Personal messages, social media, and general notifications");
     ("Junk", "Promotional, spam, and unwanted notifications") ]).
End Service.

End Main.

(** The number of learned entries of a store. *)
Definition entries (l : learned) : nat :=
  list_sum
    (map (fun p => (List.length (get_apps p) + List.length (get_content p))%nat)
       (dict_values l)).

(** What the methods of the classifier can make of an object, the cache
    server left to itself. *)
Inductive served (start : classifier) : classifier -> Prop :=
| served_refl : served start start
| served_classify (self : classifier) (app_name title body : string) :
    served start self ->
    served start (snd (classify app_name title body self))
| served_learn (self : classifier) (feedback : UserFeedback) :
    served start self ->
    served start (snd (learn_from_feedback feedback self))
| served_stats (self : classifier) :
    served start self -> served start (snd (get_category_stats self))
| served_reset (self : classifier) :
    served start self -> served start (snd (reset_learned_patterns self)).


(** The margin of a positive score [k / 2] over zero gives the highest
    confidence. *)
Definition full_margin (k : Z) : bool :=
  (k <? 2)%Z || float_same (margin_confidence (of_halves k) c0) c0_95.


(** Text of whitespace only. *)
Fixpoint blank (s : string) : bool :=
  match s with
  | "" => true
  | String c s' => is_space c && blank s'
  end.

(* ================================================================== *)
(** * Part II.  Properties                                             *)
(* ================================================================== *)

(** ** Floats *)

Lemma fcompare_antisym (x y : float) :
  fcompare y x = option_map CompOpp (fcompare x y).
Proof.
  destruct x as [sx|sx| |sx mx ex], y as [sy|sy| |sy my ey]; simpl;
    try reflexivity;
    try (destruct sx; reflexivity);
    try (destruct sy; reflexivity);
    try (destruct sx, sy; reflexivity).
  destruct sx, sy; simpl; try reflexivity;
    rewrite (Z.compare_antisym ex ey);
    destruct (ex ?= ey)%Z; simpl; try reflexivity;
    pose proof (Pos.compare_cont_antisym mx my Eq) as H; simpl in H;
    rewrite <- H; destruct (Pos.compare_cont Eq mx my); reflexivity.
Qed.

Lemma fgt_flt (x y : float) : fgt x y = flt y x.
Proof.
  unfold fgt, flt. rewrite (fcompare_antisym x y).
  destruct (fcompare x y) as [[ | | ]|]; reflexivity.
Qed.

Lemma flt_fle (x y : float) : flt x y = true -> fle x y = true.
Proof.
  unfold flt, fle. destruct (fcompare x y) as [[ | | ]|]; congruence.
Qed.

(** Rounding keeps the sign that it is given: the sum of two numbers
    without sign bit has none, and is not NaN. *)

Lemma shr_1_nonneg (mrs : shr_record) :
  (0 <= shr_m mrs)%Z -> (0 <= shr_m (shr_1 mrs))%Z.
Proof.
  destruct mrs as [m r s]; simpl.
  destruct m as [|p|p]; [ | destruct p | ]; simpl; lia.
Qed.

Lemma iter_pos_preserves {A : Type} (P : A -> Prop) (f : A -> A) :
  (forall x, P x -> P (f x)) ->
  forall n x, P x -> P (iter_pos f n x).
Proof.
  intros Hf n; induction n as [n IH|n IH|]; intros x Hx; simpl; auto.
Qed.

Lemma shr_nonneg (mrs : shr_record) (e n : Z) :
  (0 <= shr_m mrs)%Z -> (0 <= shr_m (fst (shr mrs e n)))%Z.
Proof.
  intros H; destruct n as [|p|p]; simpl; trivial.
  apply (iter_pos_preserves (fun r => (0 <= shr_m r)%Z)); trivial.
  apply shr_1_nonneg.
Qed.

Lemma shr_fexp_nonneg (pr em m e : Z) (l : location) :
  (0 <= m)%Z -> (0 <= shr_m (fst (shr_fexp pr em m e l)))%Z.
Proof.
  intros H; unfold shr_fexp; apply shr_nonneg.
  destruct l as [|[ | | ]]; simpl; exact H.
Qed.

Lemma round_nearest_even_nonneg (m : Z) (l : location) :
  (0 <= m)%Z -> (0 <= round_nearest_even m l)%Z.
Proof.
  intros H; destruct l as [|[ | | ]]; simpl; trivial; try lia.
  destruct (Z.even m); lia.
Qed.

Lemma binary_round_aux_nonneg (pr em m e : Z) (l : location) :
  (0 <= m)%Z -> nonneg (binary_round_aux pr em false m e l) = true.
Proof.
  intros H; unfold binary_round_aux.
  pose proof (shr_fexp_nonneg pr em m e l H) as H1.
  destruct (shr_fexp pr em m e l) as [mrs' e']; simpl in H1.
  pose proof (shr_fexp_nonneg pr em _ e' loc_Exact
                (round_nearest_even_nonneg _ (loc_of_shr_record mrs') H1))
    as H2.
  destruct (shr_fexp pr em _ e' loc_Exact) as [mrs'' e'']; simpl in H2.
  destruct (shr_m mrs'') as [|q|q]; try reflexivity; try lia.
  destruct (e'' <=? em - pr)%Z; reflexivity.
Qed.

Lemma binary_round_nonneg (pr em : Z) (m : positive) (e : Z) :
  nonneg (binary_round pr em false m e) = true.
Proof.
  unfold binary_round.
  destruct (shl_align m e _) as [mz ez].
  apply binary_round_aux_nonneg; lia.
Qed.

Lemma SFadd_nonneg (pr em : Z) (x y : float) :
  nonneg x = true -> nonneg y = true -> nonneg (SFadd pr em x y) = true.
Proof.
  destruct x as [[|]|[|]| |[|] mx ex]; simpl; try discriminate;
    destruct y as [[|]|[|]| |[|] my ey]; simpl; try discriminate;
    intros _ _; try reflexivity.
  apply binary_round_nonneg.
Qed.

Lemma fadd_nonneg (x y : float) :
  nonneg x = true -> nonneg y = true -> nonneg (fadd x y) = true.
Proof. apply SFadd_nonneg. Qed.

Lemma nonneg_fle_c0 (x : float) : nonneg x = true -> fle c0 x = true.
Proof.
  destruct x as [[|]|[|]| |[|] m e]; simpl; try discriminate; reflexivity.
Qed.

(** A number that is at least zero gives, with a positive constant added,
    a number without sign bit. *)
Lemma fadd_from_zero_up (v k : float) :
  fle c0 v = true -> nonneg k = true -> k <> S754_zero false ->
  nonneg (fadd v k) = true.
Proof.
  intros Hv Hk Hz.
  destruct v as [[|]|[|]| |[|] m e]; try discriminate Hv;
    try (apply fadd_nonneg; [reflexivity | exact Hk]).
  destruct k as [[|]|[|]| |[|] mk ek]; try discriminate Hk;
    try reflexivity; congruence.
Qed.

(** Being below a positive constant passes to every larger one. *)
Lemma fle_finite_mono (x : float) (m1 m2 : positive) (e1 e2 : Z) :
  (e1 < e2)%Z \/ (e1 = e2 /\ (m1 <= m2)%positive) ->
  fle x (S754_finite false m1 e1) = true ->
  fle x (S754_finite false m2 e2) = true.
Proof.
  intros Hc.
  destruct x as [sx|[|]| |[|] m e]; unfold fle; simpl; trivial.
  change (Pos.compare_cont Eq m m1) with (Pos.compare m m1).
  change (Pos.compare_cont Eq m m2) with (Pos.compare m m2).
  destruct (Z.compare_spec e e1) as [He|He|He];
    destruct (Z.compare_spec e e2) as [He'|He'|He']; trivial;
    try (exfalso; lia); try discriminate.
  destruct (Pos.compare_spec m m1) as [Hm|Hm|Hm];
    destruct (Pos.compare_spec m m2) as [Hm'|Hm'|Hm']; trivial;
    try discriminate; exfalso; lia.
Qed.

Lemma below_ceiling_le_one (ceiling v : float) :
  ceiling = c0_95 \/ ceiling = c0_9 ->
  fle v ceiling = true -> fle v c1 = true.
Proof.
  intros [-> | ->]; apply fle_finite_mono; left; reflexivity.
Qed.

Lemma above_half_nonneg (x : float) :
  fle c0_5 x = true -> nonneg x = true.
Proof.
  destruct x as [[|]|[|]| |[|] m e]; unfold fle; simpl; trivial;
    discriminate.
Qed.

(** [min(0.95, max(0.5, q))] lies between 0.5 and 0.95 whatever [q] is,
    NaN and the infinities included. *)
Lemma clamp_bounds (q : float) :
  fle c0_5 (py_min c0_95 (py_max c0_5 q)) = true /\
  fle (py_min c0_95 (py_max c0_5 q)) c0_95 = true.
Proof.
  unfold py_max. destruct (fgt q c0_5) eqn:G.
  - unfold py_min. destruct (flt q c0_95) eqn:L.
    + split; [ | apply flt_fle; exact L].
      apply flt_fle. rewrite <- fgt_flt. exact G.
    + split; reflexivity.
  - split; reflexivity.
Qed.

Lemma clamp_unit_interval (q : float) :
  fle c0 (py_min c0_95 (py_max c0_5 q)) = true /\
  fle (py_min c0_95 (py_max c0_5 q)) c1 = true.
Proof.
  destruct (clamp_bounds q) as [Hlo Hhi]; split.
  - apply nonneg_fle_c0, above_half_nonneg, Hlo.
  - apply (below_ceiling_le_one c0_95); auto.
Qed.

(** The two raising steps of [learn_from_feedback] stay within the bounds
    of their tracks. *)
Lemma capped_sum_ok (ceiling v k : float) :
  fle c0 v = true -> nonneg k = true -> k <> S754_zero false ->
  fle c0 ceiling = true -> fle ceiling ceiling = true ->
  conf_ok ceiling (py_min ceiling (fadd v k)).
Proof.
  intros Hv Hk Hz Hc0 Hcc. unfold py_min.
  destruct (flt (fadd v k) ceiling) eqn:L; split; trivial.
  - apply nonneg_fle_c0, fadd_from_zero_up; assumption.
  - apply flt_fle, L.
Qed.

Lemma or_default_nonneg (o : option float) :
  (forall v, o = Some v -> fle c0 v = true) ->
  fle c0 (or_default c0_5 o) = true.
Proof. destruct o as [v|]; simpl; auto. Qed.

Lemma raise_app_ok (o : option float) :
  (forall v, o = Some v -> fle c0 v = true) -> conf_ok c0_95 (raise_app o).
Proof.
  intros H; apply capped_sum_ok; try reflexivity; try discriminate.
  apply or_default_nonneg, H.
Qed.

Lemma raise_word_ok (o : option float) :
  (forall v, o = Some v -> fle c0 v = true) -> conf_ok c0_9 (raise_word o).
Proof.
  intros H; apply capped_sum_ok; try reflexivity; try discriminate.
  apply or_default_nonneg, H.
Qed.

(** ** Dictionaries *)

Section DictFacts.
Context {K V : Type}.
Variable keq : K -> K -> bool.
Hypothesis keq_eq : forall a b, keq a b = true <-> a = b.

Lemma dict_get_In (d : dict K V) (k : K) (v : V) :
  dict_get keq d k = Some v -> In v (dict_values d).
Proof.
  induction d as [|[k' v'] d IH]; simpl; [discriminate|].
  destruct (keq k' k); [intros [= ->]; now left | right; auto].
Qed.

Lemma dict_set_values (P : V -> Prop) (d : dict K V) (k : K) (v : V) :
  Forall P (dict_values d) -> P v ->
  Forall P (dict_values (dict_set keq d k v)).
Proof.
  intros Hd Hv; induction d as [|[k' v'] d IH]; simpl.
  - constructor; trivial.
  - inversion Hd; subst.
    destruct (keq k' k); simpl; constructor; auto.
Qed.

Lemma dict_del_values (P : V -> Prop) (d : dict K V) (k : K) :
  Forall P (dict_values d) -> Forall P (dict_values (dict_del keq d k)).
Proof.
  intros Hd; induction d as [|[k' v'] d IH]; simpl; trivial.
  inversion Hd; subst.
  destruct (keq k' k); simpl; trivial; constructor; auto.
Qed.

Lemma dict_get_set_same (d : dict K V) (k : K) (v : V) :
  dict_get keq (dict_set keq d k v) k = Some v.
Proof.
  induction d as [|[k' v'] d IH]; simpl.
  - assert (keq k k = true) as -> by now apply keq_eq. reflexivity.
  - destruct (keq k' k) eqn:E; simpl; rewrite E; trivial.
Qed.

Lemma dict_get_set_other (d : dict K V) (k k' : K) (v : V) :
  k' <> k -> dict_get keq (dict_set keq d k v) k' = dict_get keq d k'.
Proof.
  intros Hne; induction d as [|[k1 v1] d IH]; simpl.
  - destruct (keq k k') eqn:E; trivial.
    apply keq_eq in E; congruence.
  - destruct (keq k1 k) eqn:E; simpl.
    + apply keq_eq in E; subst k1.
      destruct (keq k k') eqn:E'; trivial.
      apply keq_eq in E'; congruence.
    + rewrite IH; reflexivity.
Qed.

Lemma dict_set_set (d : dict K V) (k : K) (v v' : V) :
  dict_set keq (dict_set keq d k v) k v' = dict_set keq d k v'.
Proof.
  induction d as [|[k1 v1] d IH]; simpl.
  - assert (keq k k = true) as -> by now apply keq_eq. reflexivity.
  - destruct (keq k1 k) eqn:E; simpl; rewrite E; trivial.
    now rewrite IH.
Qed.

Lemma dict_set_get (d : dict K V) (k : K) (v : V) :
  dict_get keq d k = Some v -> dict_set keq d k v = d.
Proof.
  induction d as [|[k1 v1] d IH]; simpl; [discriminate|].
  destruct (keq k1 k) eqn:E.
  - intros [= ->]; reflexivity.
  - intros H; now rewrite IH.
Qed.
End DictFacts.

Lemma category_eqb_eq (a b : NotificationCategory) :
  category_eqb a b = true <-> a = b.
Proof. destruct a, b; simpl; split; congruence. Qed.

(** ** The tokenizer: what [re.findall(r'\b\w{3,}\b', s)] returns *)

Lemma word_re_compiled : re_compile "\b\w{3,}\b" = Ok word_re.
Proof. reflexivity. Qed.

Lemma wrun_cons (c : ascii) (s : string) :
  wrun (String c s) = if is_word c then S (wrun s) else 0.
Proof. reflexivity. Qed.

Lemma wrun_zero (s : string) : word_after s = false -> wrun s = 0.
Proof. destruct s as [|c s]; simpl; trivial. now intros ->. Qed.

Lemma skip_word_id (s : string) : word_after s = false -> skip_word s = s.
Proof. destruct s as [|c s]; simpl; trivial. now intros ->. Qed.

(** After the whole run the position is at the end of a word. *)
Lemma advance_run (s : string) (prev : option ascii) :
  word_after (snd (advance (wrun s) prev s)) = false /\
  word_before (fst (advance (wrun s) prev s)) =
    match wrun s with O => word_before prev | S _ => true end.
Proof.
  revert prev; induction s as [|c s IH]; intros prev; simpl.
  - auto.
  - destruct (is_word c) eqn:W; simpl.
    + destruct (IH (Some c)) as [H1 H2]; split; trivial.
      rewrite H2; simpl; rewrite W. now destruct (wrun s).
    + rewrite W; auto.
Qed.

Lemma try_counts_first (lo k : nat) (cont : nat -> option nat) (r : nat) :
  lo <= k -> cont k = Some r -> try_counts lo k cont = Some r.
Proof.
  intros Hle Hk; destruct k as [|k]; simpl.
  - destruct lo; [|lia]; simpl. now rewrite Hk.
  - destruct (Nat.ltb_spec (S k) lo); [lia|]. now rewrite Hk.
Qed.

Lemma try_counts_below (lo k : nat) (cont : nat -> option nat) :
  k < lo -> try_counts lo k cont = None.
Proof.
  intros Hlt; destruct k as [|k]; simpl.
  - destruct (Nat.ltb_spec 0 lo); trivial; lia.
  - destruct (Nat.ltb_spec (S k) lo); trivial; lia.
Qed.

(** A match of the tokenizer pattern starts where a word starts and takes
    the whole run, if that has three characters or more. *)
Lemma match_word (prev : option ascii) (s : string) :
  match_here false word_re prev s =
    if at_boundary prev s && (3 <=? wrun s)%nat then Some (wrun s) else None.
Proof.
  unfold word_re; cbn [match_here capped].
  destruct (at_boundary prev s); cbn [andb]; trivial.
  destruct (Nat.leb_spec 3 (wrun s)) as [Hge|Hlt].
  - apply try_counts_first; trivial.
    destruct (advance_run s prev) as [H1 H2].
    destruct (advance (wrun s) prev s) as [prev' s']; simpl in *.
    unfold at_boundary. rewrite H1, H2.
    destruct (wrun s) as [|n]; [lia|]. simpl. now rewrite Nat.add_0_r.
  - apply try_counts_below; trivial.
Qed.

Lemma take_cons (n : nat) (c : ascii) (s : string) :
  take (S n) (String c s) = String c (take n s).
Proof. reflexivity. Qed.

Lemma take_zero (s : string) : take 0 s = "".
Proof. destruct s; reflexivity. Qed.

Lemma take_length_run (s : string) : String.length (take (wrun s) s) = wrun s.
Proof.
  induction s as [|c s IH]; trivial.
  rewrite wrun_cons. destruct (is_word c).
  - rewrite take_cons; simpl. now rewrite IH.
  - now rewrite take_zero.
Qed.

(** A text that starts with a word character: its first run, then the
    runs of the rest. *)
Lemma word_runs_split (s : string) :
  word_after s = true ->
  word_runs s = take (wrun s) s :: word_runs (skip_word s).
Proof.
  induction s as [|c s IH]; simpl; [discriminate|].
  intros W; rewrite W.
  destruct (word_after s) eqn:W'.
  - rewrite (IH eq_refl). change (substring 0 (S (wrun s)) (String c s))
      with (take (S (wrun s)) (String c s)).
    now rewrite take_cons.
  - rewrite (wrun_zero s W'), (skip_word_id s W').
    now rewrite take_cons, take_zero.
Qed.

Lemma content_tokens_skip (c : ascii) (s : string) :
  is_word c = false -> content_tokens (String c s) = content_tokens s.
Proof. unfold content_tokens; simpl. now intros ->. Qed.

Lemma content_tokens_split (s : string) :
  word_after s = true ->
  content_tokens s =
    if (3 <=? wrun s)%nat
    then take (wrun s) s :: content_tokens (skip_word s)
    else content_tokens (skip_word s).
Proof.
  intros W; unfold content_tokens.
  rewrite (word_runs_split s W); simpl.
  now rewrite take_length_run.
Qed.

(** Scanning from inside a word passes over the rest of it; scanning from
    outside gives the tokens. *)
Lemma findall_word (s : string) :
  (forall prev skip, word_before prev = true -> skip <= wrun s ->
     findall_from false word_re prev s skip = content_tokens (skip_word s)) /\
  (forall prev, word_before prev = false ->
     findall_from false word_re prev s 0 = content_tokens s).
Proof.
  induction s as [|c s [IHa IHb]]; split.
  - intros prev skip Hp _; cbn [findall_from].
    rewrite match_word. unfold at_boundary; rewrite Hp; simpl.
    now destruct skip.
  - intros prev Hp; cbn [findall_from].
    rewrite match_word. unfold at_boundary; rewrite Hp; reflexivity.
  - intros prev skip Hp Hskip; cbn [findall_from].
    destruct skip as [|k].
    + rewrite match_word. unfold at_boundary; rewrite Hp.
      cbn [word_after]. rewrite wrun_cons. cbn [skip_word].
      destruct (is_word c) eqn:W; cbn [xorb andb].
      * apply IHa; [simpl; trivial | lia].
      * rewrite (IHb (Some c)); [|simpl; trivial].
        now rewrite content_tokens_skip.
    + rewrite wrun_cons in Hskip. cbn [skip_word].
      destruct (is_word c) eqn:W; [|lia].
      apply IHa; [simpl; trivial | lia].
  - intros prev Hp; cbn [findall_from].
    rewrite match_word. unfold at_boundary; rewrite Hp.
    cbn [word_after].
    destruct (is_word c) eqn:W; cbn [xorb andb].
    + rewrite (content_tokens_split (String c s)); [|simpl; trivial].
      rewrite wrun_cons, W. cbn [skip_word]; rewrite W.
      destruct (3 <=? S (wrun s))%nat.
      * f_equal. apply IHa; simpl; trivial.
      * apply IHa; [simpl; trivial | lia].
    + rewrite content_tokens_skip; trivial.
      apply IHb; simpl; trivial.
Qed.

Lemma re_findall_words (content : string) :
  re_findall "\b\w{3,}\b" content = Ok (content_tokens content).
Proof.
  unfold re_findall. rewrite word_re_compiled; simpl.
  f_equal. apply findall_word. reflexivity.
Qed.

(** ** Running the methods *)

Lemma bindM_ok {A B : Type} (m : M A) (k : A -> M B)
  (self self' : classifier) (a : A) :
  m self = (Ok a, self') -> bindM m k self = k a self'.
Proof. unfold bindM; now intros ->. Qed.

Lemma set_learned_same (self : classifier) :
  set_learned self (learned_patterns self) = self.
Proof. now destruct self. Qed.

Lemma patterns_eta (p : patterns) : mkPatterns (p_apps p) (p_content p) = p.
Proof. now destruct p. Qed.

Lemma cget_cset_same (l : learned) (c : NotificationCategory) (p : patterns) :
  cget (cset l c p) c = Some p.
Proof. apply dict_get_set_same, category_eqb_eq. Qed.

Lemma cget_cset_other (l : learned) (c c' : NotificationCategory)
  (p : patterns) :
  c' <> c -> cget (cset l c p) c' = cget l c'.
Proof. apply dict_get_set_other, category_eqb_eq. Qed.

Lemma cset_cset (l : learned) (c : NotificationCategory) (p p' : patterns) :
  cset (cset l c p) c p' = cset l c p'.
Proof. apply dict_set_set, category_eqb_eq. Qed.

Lemma cset_cget (l : learned) (c : NotificationCategory) (p : patterns) :
  cget l c = Some p -> cset l c p = l.
Proof. apply dict_set_get. Qed.

Lemma learn_word_run (c : NotificationCategory) (w : string)
  (self : classifier) (p : patterns) :
  cget (learned_patterns self) c = Some p ->
  learn_word c w self =
    (Ok tt,
     if (3 <? String.length w)%nat
     then set_learned self
            (cset (learned_patterns self) c
               (mkPatterns (p_apps p) (write_word_opt (p_content p) w)))
     else self).
Proof.
  intros Hp; unfold learn_word.
  destruct (3 <? String.length w)%nat; [|reflexivity].
  unfold bindM, get, lift, getitem. rewrite Hp. reflexivity.
Qed.

Lemma for_each_words (c : NotificationCategory) (ws : list string) :
  forall (self : classifier) (p : patterns),
    cget (learned_patterns self) c = Some p ->
    for_each ws (learn_word c) self =
      (Ok tt,
       set_learned self
         (cset (learned_patterns self) c
            (mkPatterns (p_apps p)
               (fold_left write_word_opt
                  (filter (fun w => (3 <? String.length w)%nat) ws)
                  (p_content p))))).
Proof.
  induction ws as [|w ws IH]; intros self p Hp.
  - simpl. rewrite patterns_eta, (cset_cget _ _ _ Hp), set_learned_same.
    reflexivity.
  - cbn [for_each filter].
    rewrite (bindM_ok _ _ _ _ _ (learn_word_run c w self p Hp)).
    destruct (3 <? String.length w)%nat.
    + erewrite IH by (simpl; apply cget_cset_same).
      simpl. now rewrite cset_cset.
    + now apply IH.
Qed.

Lemma learn_app_run (c : NotificationCategory) (a : string)
  (self : classifier) (p : patterns) :
  cget (learned_patterns self) c = Some p ->
  learn_app c a self =
    (Ok tt,
     set_learned self
       (cset (learned_patterns self) c
          (mkPatterns
             (Some (sset (get_apps p) a (raise_app (sget (get_apps p) a))))
             (p_content p)))).
Proof.
  intros Hp; unfold learn_app, bindM, get, lift, getitem.
  rewrite Hp. reflexivity.
Qed.

Lemma save_run (self : classifier) :
  _save_learned_patterns self =
    (Ok tt,
     match redis_client self with
     | Some r => set_redis self (Some (save_loop (learned_patterns self) r))
     | None => self
     end).
Proof.
  unfold _save_learned_patterns, bindM, get.
  now destruct (redis_client self).
Qed.

(** The steps of [learn_from_feedback] before the save, from a store in
    which the category is present. *)
Lemma learn_steps (c : NotificationCategory) (a content : string)
  (self : classifier) (p : patterns) :
  cget (learned_patterns self) c = Some p ->
  ((if truthy a then learn_app c a else ret tt) ;;
   content_words <- lift (re_findall "\b\w{3,}\b" content) ;;
   for_each (firstn 5 content_words) (learn_word c) ;;
   _save_learned_patterns) self =
  _save_learned_patterns
    (set_learned self
       (cset (learned_patterns self) c (learned_record p a content))).
Proof.
  intros Hp. unfold learned_record, written_tokens, taken_tokens.
  destruct (truthy a).
  - rewrite (bindM_ok _ _ _ _ _ (learn_app_run c a self p Hp)).
    unfold bindM at 1, lift. rewrite re_findall_words.
    erewrite bindM_ok
      by (apply for_each_words; simpl; apply cget_cset_same).
    simpl. now rewrite cset_cset.
  - unfold bindM at 1, ret.
    unfold bindM at 1, lift. rewrite re_findall_words.
    now rewrite (bindM_ok _ _ _ _ _ (for_each_words c _ _ _ Hp)).
Qed.

(** [learn_from_feedback] never raises; it leaves the store as
    [learned_after] describes, and saves it. *)
Lemma learn_from_feedback_run (feedback : UserFeedback) (self : classifier) :
  learn_from_feedback feedback self =
    _save_learned_patterns
      (set_learned self
         (learned_after (learned_patterns self) (actual_category feedback)
            (strip (lower (app_name feedback)))
            (strip (lower (title feedback ++ " " ++ body feedback))))).
Proof.
  unfold learn_from_feedback, learned_after, record_of.
  unfold bindM at 1, get. unfold cmem, dict_mem.
  fold (cget (learned_patterns self) (actual_category feedback)).
  destruct (cget (learned_patterns self) (actual_category feedback))
    as [p|] eqn:Hp; cbn [negb].
  - unfold bindM at 1, ret. now apply learn_steps.
  - unfold bindM at 1, put_learned.
    rewrite (learn_steps _ _ _ _ empty_patterns); simpl.
    + now rewrite cset_cset.
    + apply cget_cset_same.
Qed.

Lemma new_classifier_eq (rc : option redis) :
  NotificationClassifier rc =
    mkClassifier rc initial_work_keywords initial_personal_keywords
      initial_junk_keywords
      match rc with
      | Some r => load_loop r all_categories fresh_learned
      | None => fresh_learned
      end.
Proof. now destruct rc. Qed.

Lemma classify_state (app_name title body : string) (self : classifier) :
  snd (classify app_name title body self) = self.
Proof.
  unfold classify, _check_learned_patterns, bindM, get, ret, lift.
  cbv beta iota. destruct (check_items _ _ _); reflexivity.
Qed.

Lemma stats_state (self : classifier) : snd (get_category_stats self) = self.
Proof. reflexivity. Qed.

Lemma reset_run (self : classifier) :
  reset_learned_patterns self =
    (Ok tt,
     mkClassifier
       (option_map (delete_loop all_categories) (redis_client self))
       (work_keywords self) (personal_keywords self) (junk_keywords self)
       fresh_learned).
Proof.
  unfold reset_learned_patterns, bindM, put_learned, get.
  cbn [set_learned redis_client].
  destruct (redis_client self) as [r|] eqn:E;
    unfold ret, put_redis, set_redis, set_learned; simpl;
    rewrite ?E; reflexivity.
Qed.

(** ** The invariant of the store *)

Lemma empty_patterns_ok : patterns_ok empty_patterns.
Proof. exists [], []; repeat split; constructor. Qed.

Lemma fresh_learned_ok : store_ok fresh_learned.
Proof. repeat constructor; apply empty_patterns_ok. Qed.

Lemma stored_nonneg (ceiling : float) (d : dict string float) (k : string)
  (v : float) :
  Forall (conf_ok ceiling) (dict_values d) -> sget d k = Some v ->
  fle c0 v = true.
Proof.
  intros Hd Hk. apply dict_get_In in Hk.
  rewrite Forall_forall in Hd. now destruct (Hd _ Hk).
Qed.

Lemma write_words_ok (ws : list string) :
  forall d : dict string float,
    Forall (conf_ok c0_9) (dict_values d) ->
    exists d', fold_left write_word_opt ws (Some d) = Some d' /\
               Forall (conf_ok c0_9) (dict_values d').
Proof.
  induction ws as [|w ws IH]; intros d Hd; simpl.
  - now exists d.
  - apply IH. unfold write_word.
    apply dict_set_values; trivial.
    apply raise_word_ok. intros v Hv. exact (stored_nonneg _ _ _ _ Hd Hv).
Qed.

Lemma learned_record_ok (p : patterns) (a content : string) :
  patterns_ok p -> patterns_ok (learned_record p a content).
Proof.
  intros (apps & cont & Ha & Hc & Fa & Fc).
  destruct (write_words_ok (written_tokens content) cont Fc) as (d' & E & F').
  unfold learned_record, get_apps. rewrite Ha, Hc, E.
  destruct (truthy a).
  - eexists _, d'; repeat split; trivial.
    apply dict_set_values; trivial.
    apply raise_app_ok. intros v Hv. exact (stored_nonneg _ _ _ _ Fa Hv).
  - exists apps, d'; repeat split; trivial.
Qed.

Lemma record_of_ok (l : learned) (c : NotificationCategory) :
  store_ok l -> patterns_ok (record_of l c).
Proof.
  intros Hl; unfold record_of.
  destruct (cget l c) as [p|] eqn:E.
  - apply dict_get_In in E. unfold store_ok in Hl.
    rewrite Forall_forall in Hl. auto.
  - apply empty_patterns_ok.
Qed.

Lemma learned_after_ok (l : learned) (c : NotificationCategory)
  (a content : string) :
  store_ok l -> store_ok (learned_after l c a content).
Proof.
  intros Hl. apply dict_set_values; trivial.
  now apply learned_record_ok, record_of_ok.
Qed.

Lemma save_loop_ok (items : list (NotificationCategory * patterns)) :
  forall r : redis,
    Forall patterns_ok (dict_values items) ->
    Forall patterns_ok (dict_values (r_data r)) ->
    Forall patterns_ok (dict_values (r_data (save_loop items r))).
Proof.
  induction items as [|[c p] items IH]; intros r Hi Hr; simpl; trivial.
  inversion Hi; subst. unfold redis_setex.
  destruct (r_up r); trivial.
  apply IH; trivial. simpl. now apply dict_set_values.
Qed.

Lemma delete_loop_ok (cats : list NotificationCategory) :
  forall r : redis,
    Forall patterns_ok (dict_values (r_data r)) ->
    Forall patterns_ok (dict_values (r_data (delete_loop cats r))).
Proof.
  induction cats as [|c cats IH]; intros r Hr; simpl; trivial.
  unfold redis_delete. destruct (r_up r); trivial.
  apply IH. simpl. now apply dict_del_values.
Qed.

Lemma load_loop_ok (r : redis) (cats : list NotificationCategory) :
  forall l : learned,
    Forall patterns_ok (dict_values (r_data r)) -> store_ok l ->
    store_ok (load_loop r cats l).
Proof.
  induction cats as [|c cats IH]; intros l Hr Hl; simpl; trivial.
  unfold redis_get. destruct (r_up r); trivial.
  destruct (dict_get String.eqb (r_data r) (redis_key c)) as [p|] eqn:E.
  - apply IH; trivial. apply dict_set_values; trivial.
    apply dict_get_In in E. rewrite Forall_forall in Hr. auto.
  - now apply IH.
Qed.

Lemma invariant_new (rc : option redis) :
  cache_ok rc -> store_invariant (NotificationClassifier rc).
Proof.
  intros Hc. rewrite new_classifier_eq. split; [|exact Hc].
  cbn [learned_patterns]. destruct rc as [r|].
  - apply load_loop_ok; trivial. apply fresh_learned_ok.
  - apply fresh_learned_ok.
Qed.

Lemma invariant_learn (feedback : UserFeedback) (self : classifier) :
  store_invariant self ->
  store_invariant (snd (learn_from_feedback feedback self)).
Proof.
  intros [Hs Hc]. rewrite learn_from_feedback_run, save_run.
  pose proof (learned_after_ok _ (actual_category feedback)
                (strip (lower (app_name feedback)))
                (strip (lower (title feedback ++ " " ++ body feedback)))
                Hs) as Hs'.
  cbn [redis_client set_learned].
  destruct (redis_client self) as [r|] eqn:E; split; simpl; trivial.
  - now apply save_loop_ok.
  - now rewrite E.
Qed.

Lemma invariant_reset (self : classifier) :
  store_invariant self -> store_invariant (snd (reset_learned_patterns self)).
Proof.
  intros [Hs Hc]. rewrite reset_run. split; cbn [snd learned_patterns redis_client].
  - apply fresh_learned_ok.
  - destruct (redis_client self) as [r|]; cbn [option_map cache_ok]; trivial.
    now apply delete_loop_ok.
Qed.

Lemma invariant_server (self : classifier) (r r' : redis) :
  store_invariant self -> redis_client self = Some r -> server_step r r' ->
  store_invariant (set_redis self (Some r')).
Proof.
  intros [Hs Hc] Hr Hstep. rewrite Hr in Hc. split; simpl; trivial.
  destruct Hstep; simpl; trivial. now apply dict_del_values.
Qed.

Lemma learn_keeps_tables (feedback : UserFeedback) (self : classifier) :
  initialized self -> initialized (snd (learn_from_feedback feedback self)).
Proof.
  rewrite learn_from_feedback_run, save_run.
  cbn [redis_client set_learned].
  now destruct (redis_client self).
Qed.

(** Every object that can be reached has the invariant and the keyword
    rule table of [_initialize_keywords]. *)
Lemma reachable_sound (self : classifier) :
  reachable self -> store_invariant self /\ initialized self.
Proof.
  induction 1 as [ |up|self _ [IH IT]|self r r' _ [IH IT] Hr Hstep
                  |self a t b _ [IH IT]|self fb _ [IH IT]
                  |self _ [IH IT]|self _ [IH IT]].
  - split; [now apply invariant_new | rewrite new_classifier_eq; repeat split].
  - split; [apply invariant_new; constructor
           | rewrite new_classifier_eq; repeat split].
  - split; [apply invariant_new, IH
           | rewrite new_classifier_eq; repeat split].
  - split; [eapply invariant_server; eauto | exact IT].
  - now rewrite classify_state.
  - split; [now apply invariant_learn | now apply learn_keeps_tables].
  - now rewrite stats_state.
  - split; [now apply invariant_reset | rewrite reset_run; exact IT].
Qed.

(** ** Scoring never raises, and scores have no sign bit *)

Lemma record_match_nonneg (w : float) (tag item : string) (t : tally) :
  nonneg w = true -> nonneg (fst t) = true ->
  nonneg (fst (record_match w tag item t)) = true.
Proof. intros Hw Ht; simpl. now apply fadd_nonneg. Qed.

Lemma scan_substrings_nonneg (w : float) (tag text : string)
  (items : list string) :
  nonneg w = true ->
  forall t, nonneg (fst t) = true ->
            nonneg (fst (scan_substrings w tag text items t)) = true.
Proof.
  intros Hw; unfold scan_substrings.
  induction items as [|i items IH]; intros t Ht; simpl; trivial.
  apply IH. destruct (str_in i text); trivial.
  now apply record_match_nonneg.
Qed.

Lemma scan_patterns_total (w : float) (tag text : string)
  (items : list string) :
  nonneg w = true -> Forall compiles items ->
  forall t, nonneg (fst t) = true ->
    exists t', scan_patterns w tag text items t = Ok t' /\
               nonneg (fst t') = true.
Proof.
  intros Hw Hc; unfold scan_patterns.
  induction Hc as [|i items [r Hr] _ IH]; intros t Ht; simpl.
  - now exists t.
  - unfold re_search. rewrite Hr. cbn [bind].
    apply IH. destruct (search_from true r None text); trivial.
    now apply record_match_nonneg.
Qed.

Lemma score_total (app_name content : string) (keywords : profile) :
  Forall compiles (kw_patterns keywords) ->
  exists t, _calculate_category_score app_name content keywords = Ok t /\
            nonneg (fst t) = true.
Proof.
  intros Hc; unfold _calculate_category_score.
  edestruct (scan_patterns_total c2 "pattern:" content
               (kw_patterns keywords) eq_refl Hc) as (t & Ht & Hn).
  2: { rewrite Ht; cbn [bind]. eexists; split; [reflexivity|].
       apply scan_substrings_nonneg; trivial. }
  repeat apply scan_substrings_nonneg; reflexivity.
Qed.

Lemma work_patterns_compile : Forall compiles (kw_patterns initial_work_keywords).
Proof. constructor. Qed.

Lemma personal_patterns_compile :
  Forall compiles (kw_patterns initial_personal_keywords).
Proof. constructor. Qed.

Lemma junk_patterns_compile : Forall compiles (kw_patterns initial_junk_keywords).
Proof. repeat constructor; eexists; reflexivity. Qed.

(** ** The reasoning text never raises *)

Lemma after_colon_total (tag m : string) :
  In ":"%char (list_ascii_of_string tag) -> startswith m tag = true ->
  exists x y, split_colon_1 m = x :: y :: nil.
Proof.
  revert m; induction tag as [|c tag IH]; intros m Hin Hs; simpl in Hin.
  - contradiction.
  - destruct m as [|c' m]; simpl in Hs; [discriminate|].
    apply andb_prop in Hs as [Hc Hs]. apply Ascii.eqb_eq in Hc; subst c'.
    simpl. destruct (Ascii.eqb c ":") eqn:E.
    + now exists "", m.
    + destruct Hin as [->|Hin]; [now rewrite Ascii.eqb_refl in E|].
      destruct (IH m Hin Hs) as (x & y & ->). now exists (String c x), y.
Qed.

Lemma map_exn_total {A B : Type} (f : A -> exn B) (l : list A) :
  Forall (fun a => exists b, f a = Ok b) l -> exists bs, map_exn f l = Ok bs.
Proof.
  induction 1 as [|a l [b Hb] _ [bs IH]]; simpl.
  - now exists [].
  - rewrite Hb, IH. now exists (b :: bs).
Qed.

Lemma tagged_after_colon (tag : string) (l : list string) :
  In ":"%char (list_ascii_of_string tag) ->
  Forall (fun m => startswith m tag = true) l ->
  exists xs, map_exn after_colon l = Ok xs.
Proof.
  intros Hin Hl. apply map_exn_total.
  apply Forall_impl with (2 := Hl). intros m Hm.
  destruct (after_colon_total tag m Hin Hm) as (x & y & E).
  exists y. unfold after_colon, list_index. now rewrite E.
Qed.

Lemma filter_Forall {A : Type} (f : A -> bool) (l : list A) :
  Forall (fun a => f a = true) (filter f l).
Proof. apply Forall_forall. intros a Ha. now apply filter_In in Ha. Qed.

Lemma firstn_Forall {A : Type} (P : A -> Prop) (n : nat) (l : list A) :
  Forall P l -> Forall P (firstn n l).
Proof.
  intros H; revert n; induction H as [|a l Ha _ IH]; intros [|n]; simpl;
    constructor; auto.
Qed.

Lemma generate_reasoning_total (c : NotificationCategory)
  (matches : list string) (app_name : string) :
  exists text, _generate_reasoning c matches app_name = Ok text.
Proof.
  unfold _generate_reasoning.
  destruct (negb (nonempty matches)); [eexists; reflexivity|].
  destruct (tagged_after_colon "app:"
              (filter (fun m => startswith m "app:") matches))
    as [xs Hx]; [simpl; tauto | apply filter_Forall |].
  destruct (tagged_after_colon "keyword:"
              (firstn 3 (filter (fun m => startswith m "keyword:") matches)))
    as [ys Hy]; [simpl; tauto | apply firstn_Forall, filter_Forall |].
  cbv zeta. rewrite Hx, Hy.
  destruct (nonempty (filter (fun m => startswith m "app:") matches));
    destruct (nonempty (filter (fun m => startswith m "keyword:") matches));
    cbn [bind]; eexists; reflexivity.
Qed.

(** ** Ranking the three scores *)

Lemma nonneg_comparable (a b : float) :
  nonneg a = true -> nonneg b = true -> fcompare a b <> None.
Proof.
  destruct a as [[|]|[|]| |[|] ma ea]; try discriminate;
    destruct b as [[|]|[|]| |[|] mb eb]; try discriminate; discriminate.
Qed.

Lemma not_flt_fle (a b : float) :
  nonneg a = true -> nonneg b = true -> flt a b = false -> fle b a = true.
Proof.
  intros Ha Hb. pose proof (nonneg_comparable a b Ha Hb) as Hc.
  unfold flt, fle. rewrite (fcompare_antisym a b).
  destruct (fcompare a b) as [[ | | ]|]; simpl; congruence.
Qed.

Lemma sort_three (x y z : scored) :
  nonneg (score_of x) = true -> nonneg (score_of y) = true ->
  nonneg (score_of z) = true ->
  exists b s t,
    sort_desc score_of [x; y; z] = [b; s; t] /\
    Permutation [b; s; t] [x; y; z] /\
    fle (score_of s) (score_of b) = true /\
    fle (score_of t) (score_of s) = true.
Proof.
  intros Hx Hy Hz. unfold sort_desc; simpl.
  destruct (flt (score_of y) (score_of z)) eqn:Eyz; simpl.
  - destruct (flt (score_of x) (score_of z)) eqn:Exz; simpl.
    + destruct (flt (score_of x) (score_of y)) eqn:Exy; simpl.
      * exists z, y, x; repeat split; auto using flt_fle.
        change [z; y; x] with (rev [x; y; z]).
        apply Permutation_sym, Permutation_rev.
      * exists z, x, y; repeat split; auto using flt_fle, not_flt_fle.
        apply perm_trans with [x; z; y]; [apply perm_swap|].
        apply perm_skip, perm_swap.
    + exists x, z, y; repeat split; auto using flt_fle, not_flt_fle.
      apply perm_skip, perm_swap.
  - destruct (flt (score_of x) (score_of y)) eqn:Exy; simpl.
    + destruct (flt (score_of x) (score_of z)) eqn:Exz; simpl.
      * exists y, z, x; repeat split; auto using flt_fle, not_flt_fle.
        apply perm_trans with [y; x; z]; [|apply perm_swap].
        apply perm_skip, perm_swap.
      * exists y, x, z; repeat split; auto using flt_fle, not_flt_fle.
        apply perm_swap.
    + exists x, y, z; repeat split; auto using not_flt_fle.
Qed.

Lemma py_max_one_nonzero (b : float) : feq (py_max b c1) c0 = false.
Proof.
  unfold py_max.
  destruct b as [[|]|[|]| |[|] m e]; try reflexivity;
    destruct (fgt c1 _); reflexivity.
Qed.

Lemma fdiv_by_max (a b : float) :
  fdiv a (py_max b c1) = Ok (SFdiv prec emax a (py_max b c1)).
Proof. unfold fdiv. now rewrite py_max_one_nonzero. Qed.

(** ** The scoring path of [classify] *)

(** With the ranked scores [b], [s], [t] of the three categories, the
    result is the fixed default when the best score is zero, and otherwise
    the best category with the confidence of the margin. *)
Lemma keywords_run (self : classifier) (app_name content : string) :
  initialized self ->
  exists (tw tp tj : tally) (b s t : scored) (text : string),
    _calculate_category_score app_name content initial_work_keywords = Ok tw /\
    _calculate_category_score app_name content initial_personal_keywords
      = Ok tp /\
    _calculate_category_score app_name content initial_junk_keywords = Ok tj /\
    sort_desc score_of
      [ (WORK, fst tw, snd tw); (PERSONAL, fst tp, snd tp);
        (JUNK, fst tj, snd tj) ] = [b; s; t] /\
    Permutation [b; s; t]
      [ (WORK, fst tw, snd tw); (PERSONAL, fst tp, snd tp);
        (JUNK, fst tj, snd tj) ] /\
    fle (score_of s) (score_of b) = true /\
    fle (score_of t) (score_of s) = true /\
    nonneg (score_of b) = true /\
    _generate_reasoning (fst (fst b)) (snd b) app_name = Ok text /\
    classify_by_keywords self app_name content =
      Ok (if feq (score_of b) c0 then default_result
          else {| category := fst (fst b);
                  confidence :=
                    margin_confidence (score_of b) (score_of s);
                  reasoning := text;
                  matched_keywords := snd b |}).
Proof.
  intros (Hw & Hp & Hj).
  destruct (score_total app_name content _ work_patterns_compile)
    as ([ws wm] & Ew & Nw).
  destruct (score_total app_name content _ personal_patterns_compile)
    as ([ps pm] & Ep & Np).
  destruct (score_total app_name content _ junk_patterns_compile)
    as ([js jm] & Ej & Nj).
  destruct (sort_three (WORK, ws, wm) (PERSONAL, ps, pm) (JUNK, js, jm)
              Nw Np Nj) as (b & s & t & Es & Hperm & Hsb & Hts).
  destruct (generate_reasoning_total (fst (fst b)) (snd b) app_name)
    as [text Ht].
  exists (ws, wm), (ps, pm), (js, jm), b, s, t, text.
  assert (nonneg (score_of b) = true) as Nb.
  { assert (In b [(WORK, ws, wm); (PERSONAL, ps, pm); (JUNK, js, jm)]) as Hin
      by (eapply Permutation_in; [exact Hperm | now left]).
    simpl in Hin. destruct Hin as [<-|[<-|[<-|[]]]]; assumption. }
  repeat split; trivial.
  unfold classify_by_keywords. rewrite Hw, Hp, Hj, Ew, Ep, Ej.
  cbn [bind]. cbv zeta. unfold scored in *. rewrite Es.
  cbn [list_index nth_error bind List.length Nat.ltb Nat.leb].
  destruct b as [[bc bs] bm]. cbn [score_of fst snd] in *.
  rewrite fdiv_by_max. cbn [bind].
  destruct (feq bs c0); [reflexivity|].
  rewrite Ht. reflexivity.
Qed.

Lemma classify_run (app_name title body : string) (self : classifier) :
  classify app_name title body self =
    (match check_items (strip (lower app_name))
             (strip (lower (title ++ " " ++ body))) (learned_patterns self)
     with
     | Some r => Ok r
     | None => classify_by_keywords self (strip (lower app_name))
                 (strip (lower (title ++ " " ++ body)))
     end, self).
Proof.
  unfold classify, _check_learned_patterns, bindM, get, ret, lift.
  cbv beta iota. destruct (check_items _ _ _); reflexivity.
Qed.

(** ** What the learned patterns return *)

Lemma learned_prefix (x : string) :
  startswith ("Learned from user feedback: " ++ x)
    "Learned from user feedback" = true.
Proof. reflexivity. Qed.

Lemma startswith_str_in (s sub : string) :
  startswith s sub = true -> str_in sub s = true.
Proof. intros H; destruct s; cbn [str_in]; now rewrite H. Qed.

Lemma check_content_sound (c : NotificationCategory) (content : string)
  (items : dict string float) (r : ClassificationResult) :
  check_content c content items = Some r ->
  exists pattern v,
    In v (dict_values items) /\ r = learned_content_result c pattern v.
Proof.
  induction items as [|[pattern v] items IH]; simpl; [discriminate|].
  destruct (str_in pattern content && fgt v c0_7).
  - intros [= <-]. exists pattern, v; auto.
  - intros H. destruct (IH H) as (q & w & Hin & ->). exists q, w; auto.
Qed.

Lemma check_app_sound (c : NotificationCategory) (a : string) (p : patterns)
  (r : ClassificationResult) :
  check_app c a p = Some r ->
  exists v, In v (dict_values (get_apps p)) /\ r = learned_app_result c a v.
Proof.
  unfold check_app. destruct (sget (get_apps p) a) as [v|] eqn:E;
    [|discriminate].
  destruct (fgt v c0_7); [|discriminate]. intros [= <-].
  exists v; split; trivial. now apply dict_get_In in E.
Qed.

(** A hit comes from an entry of the store: its category is a key, its
    confidence a stored value, and its reasoning says so. *)
Lemma check_items_sound (a content : string) (l : learned)
  (r : ClassificationResult) :
  check_items a content l = Some r ->
  In (category r) (dict_keys l) /\
  startswith (reasoning r) "Learned from user feedback" = true /\
  exists p, In p (dict_values l) /\
            (In (confidence r) (dict_values (get_apps p)) \/
             In (confidence r) (dict_values (get_content p))).
Proof.
  induction l as [|[c p] l IH]; simpl; [discriminate|].
  destruct (check_app c a p) as [r'|] eqn:Ea.
  - intros [= <-]. destruct (check_app_sound _ _ _ _ Ea) as (v & Hv & ->).
    repeat split; auto. exists p; auto.
  - destruct (check_content c content (get_content p)) as [r'|] eqn:Ec.
    + intros [= <-].
      destruct (check_content_sound _ _ _ _ Ec) as (q & v & Hv & ->).
      repeat split; auto. exists p; auto.
    + intros H. destruct (IH H) as (H1 & H2 & p' & H3 & H4).
      repeat split; auto. exists p'; auto.
Qed.

Lemma learned_confidence_bounds (a content : string) (l : learned)
  (r : ClassificationResult) :
  store_ok l -> check_items a content l = Some r ->
  fle c0 (confidence r) = true /\ fle (confidence r) c1 = true.
Proof.
  intros Hl Hr.
  destruct (check_items_sound _ _ _ _ Hr) as (_ & _ & p & Hp & Hv).
  unfold store_ok in Hl. rewrite Forall_forall in Hl.
  destruct (Hl p Hp) as (apps & cont & Ea & Ec & Fa & Fc).
  unfold get_apps, get_content in Hv. rewrite Ea, Ec in Hv.
  rewrite Forall_forall in Fa, Fc.
  destruct Hv as [Hv|Hv].
  - destruct (Fa _ Hv); split; trivial.
    apply (below_ceiling_le_one c0_95); auto.
  - destruct (Fc _ Hv); split; trivial.
    apply (below_ceiling_le_one c0_9); auto.
Qed.

(** The entry of [c] decides, unless an entry before it does. *)
Lemma check_items_at (a content : string) (c : NotificationCategory)
  (v : float) (l : learned) (p : patterns) :
  cget l c = Some p -> sget (get_apps p) a = Some v -> fgt v c0_7 = true ->
  check_items a content l =
    match check_items a content (before c l) with
    | Some r => Some r
    | None => Some (learned_app_result c a v)
    end.
Proof.
  intros Hp Ha Hv. induction l as [|[c' p'] l IH]; simpl in *; [discriminate|].
  destruct (category_eqb c' c) eqn:E.
  - apply category_eqb_eq in E; subst c'. injection Hp as ->.
    simpl. unfold check_app. now rewrite Ha, Hv.
  - simpl. destruct (check_app c' a p'); trivial.
    destruct (check_content c' content (get_content p')); auto.
Qed.

(** ** Case *)

Lemma char_lower_lower (c : ascii) : char_lower (char_lower c) = char_lower c.
Proof. destruct c as [[|] [|] [|] [|] [|] [|] [|] [|]]; reflexivity. Qed.

Lemma lower_lower (s : string) : lower (lower s) = lower s.
Proof.
  induction s as [|c s IH]; simpl; trivial.
  now rewrite char_lower_lower, IH.
Qed.

Lemma lower_app (s t : string) : lower (s ++ t) = lower s ++ lower t.
Proof. induction s as [|c s IH]; simpl; trivial. now rewrite IH. Qed.

(** Except for the sharp s, the uppercase of a character lowers to what
    the character lowers to. *)
Lemma char_upper_lower (c : ascii) (u : string) :
  char_upper c = Some u -> is_code 223 c = false ->
  lower u = String (char_lower c) "".
Proof.
  destruct c as [[|] [|] [|] [|] [|] [|] [|] [|]];
    intros H1 H2; vm_compute in H1, H2; try discriminate;
    injection H1 as <-; reflexivity.
Qed.

Lemma upper_lower (s : string) :
  forall u, upper s = Some u -> sharp_free s = true -> lower u = lower s.
Proof.
  induction s as [|c s IH]; simpl; intros u Hu Hf.
  - now injection Hu as <-.
  - destruct (char_upper c) as [x|] eqn:Ec; [|discriminate].
    destruct (upper s) as [us|]; [|discriminate].
    injection Hu as <-. apply andb_prop in Hf as [Hc Hs].
    apply negb_true_iff in Hc.
    rewrite lower_app, (char_upper_lower c x Ec Hc), (IH us eq_refl Hs).
    reflexivity.
Qed.

(** ** Ties *)

Lemma fgt_zero_not_feq (b : float) : fgt b c0 = true -> feq b c0 = false.
Proof.
  unfold fgt, feq. destruct (fcompare b c0) as [[ | | ]|]; congruence.
Qed.

Lemma feq_positive_same (b s : float) :
  fgt b c0 = true -> feq b s = true -> s = b.
Proof.
  destruct b as [[|]|[|]| |[|] mb eb]; try discriminate;
    destruct s as [[|]|[|]| |[|] ms es]; try discriminate; trivial.
  intros _. unfold feq; simpl.
  destruct (Z.compare_spec eb es) as [He|He|He]; try discriminate.
  change (Pos.compare_cont Eq mb ms) with (Pos.compare mb ms).
  destruct (Pos.compare_spec mb ms) as [Hm|Hm|Hm]; try discriminate.
  now subst.
Qed.

Lemma shl_align_same (m : positive) (e : Z) :
  shl_align m e (Z.min e e) = (m, e).
Proof. unfold shl_align. now rewrite Z.min_id, Z.sub_diag. Qed.

Lemma fsub_same (m : positive) (e : Z) :
  fsub (S754_finite false m e) (S754_finite false m e) = S754_zero false.
Proof.
  unfold fsub, SFsub. rewrite shl_align_same. cbn [fst cond_Zopp].
  now rewrite Z.sub_diag.
Qed.

(** Equal positive scores in the first two places give exactly 0.5. *)
Lemma margin_tie (b s : float) :
  fgt b c0 = true -> feq b s = true -> margin_confidence b s = c0_5.
Proof.
  intros Hb He. rewrite (feq_positive_same b s Hb He).
  unfold margin_confidence.
  destruct b as [[|]|[|]| |[|] m e]; try discriminate.
  - reflexivity.
  - rewrite fsub_same. unfold py_max at 2.
    destruct (fgt c1 (S754_finite false m e)); reflexivity.
Qed.

(** ** The order of scores *)

Lemma fle_trans (a b c : float) :
  nonneg a = true -> nonneg b = true -> nonneg c = true ->
  fle a b = true -> fle b c = true -> fle a c = true.
Proof.
  destruct a as [[|]|[|]| |[|] ma ea]; try discriminate;
    destruct b as [[|]|[|]| |[|] mb eb]; try discriminate;
    destruct c as [[|]|[|]| |[|] mc ec]; try discriminate;
    unfold fle; simpl; trivial; try discriminate.
  intros _ _ _.
  change (Pos.compare_cont Eq ma mb) with (Pos.compare ma mb).
  change (Pos.compare_cont Eq mb mc) with (Pos.compare mb mc).
  change (Pos.compare_cont Eq ma mc) with (Pos.compare ma mc).
  destruct (Z.compare_spec ea eb); destruct (Z.compare_spec eb ec);
    destruct (Z.compare_spec ea ec); trivial; try discriminate;
    try (exfalso; lia);
    destruct (Pos.compare_spec ma mb); destruct (Pos.compare_spec mb mc);
    destruct (Pos.compare_spec ma mc); trivial; try discriminate;
    exfalso; lia.
Qed.

Lemma fle_antisym (a b : float) :
  nonneg a = true -> nonneg b = true ->
  fle a b = true -> fle b a = true -> a = b.
Proof.
  destruct a as [[|]|[|]| |[|] ma ea]; try discriminate;
    destruct b as [[|]|[|]| |[|] mb eb]; try discriminate;
    unfold fle; simpl; trivial; try discriminate.
  intros _ _.
  change (Pos.compare_cont Eq ma mb) with (Pos.compare ma mb).
  change (Pos.compare_cont Eq mb ma) with (Pos.compare mb ma).
  destruct (Z.compare_spec ea eb); destruct (Z.compare_spec eb ea);
    try discriminate; try (exfalso; lia).
  destruct (Pos.compare_spec ma mb); destruct (Pos.compare_spec mb ma);
    try discriminate; try (exfalso; lia).
  now subst.
Qed.

Lemma fle_refl (a : float) : nonneg a = true -> fle a a = true.
Proof.
  destruct a as [[|]|[|]| |[|] m e]; try discriminate; unfold fle; simpl;
    trivial.
  now rewrite Z.compare_refl, Pos.compare_cont_refl.
Qed.

(** The first of a descending list is above every element. *)
Lemma descending_head (a1 a2 a3 x : float) :
  nonneg a1 = true -> nonneg a2 = true -> nonneg a3 = true ->
  fle a2 a1 = true -> fle a3 a2 = true ->
  In x [a1; a2; a3] -> fle x a1 = true.
Proof.
  intros N1 N2 N3 H21 H32 [<-|[<-|[<-|[]]]].
  - now apply fle_refl.
  - exact H21.
  - now apply (fle_trans a3 a2 a1).
Qed.

(** Two descending rankings of the same three scores are the same. *)
Lemma ranking_unique (a1 a2 a3 b1 b2 b3 : float) :
  Forall (fun x => nonneg x = true) [b1; b2; b3] ->
  Permutation [a1; a2; a3] [b1; b2; b3] ->
  fle a2 a1 = true -> fle a3 a2 = true ->
  fle b2 b1 = true -> fle b3 b2 = true ->
  a1 = b1 /\ a2 = b2.
Proof.
  intros Nb Hp Ha21 Ha32 Hb21 Hb32.
  assert (Forall (fun x => nonneg x = true) [a1; a2; a3]) as Na.
  { apply Forall_forall. intros x Hx. rewrite Forall_forall in Nb.
    apply Nb. eapply Permutation_in; eauto. }
  inversion Na as [|? ? Na1 Na']; subst.
  inversion Na' as [|? ? Na2 Na'']; subst.
  inversion Na'' as [|? ? Na3 _]; subst.
  inversion Nb as [|? ? Nb1 Nb']; subst.
  inversion Nb' as [|? ? Nb2 Nb'']; subst.
  inversion Nb'' as [|? ? Nb3 _]; subst.
  assert (a1 = b1) as E1.
  { apply fle_antisym; trivial.
    - apply (descending_head b1 b2 b3); trivial.
      eapply Permutation_in; [exact Hp | now left].
    - apply (descending_head a1 a2 a3); trivial.
      eapply Permutation_in; [apply Permutation_sym; exact Hp | now left]. }
  subst b1. split; trivial.
  apply Permutation_cons_inv in Hp.
  apply fle_antisym; trivial.
  - assert (In a2 [b2; b3]) as Hin
      by (eapply Permutation_in; [exact Hp | now left]).
    destruct Hin as [<-|[<-|[]]]; [now apply fle_refl | exact Hb32].
  - assert (In b2 [a2; a3]) as Hin
      by (eapply Permutation_in; [apply Permutation_sym; exact Hp | now left]).
    destruct Hin as [<-|[<-|[]]]; [now apply fle_refl | exact Ha32].
Qed.

(** ** What a feedback writes *)

Lemma sget_sset (d : dict string float) (k k' : string) (v : float) :
  sget (sset d k v) k' = if String.eqb k k' then Some v else sget d k'.
Proof.
  destruct (String.eqb k k') eqn:E.
  - apply String.eqb_eq in E; subst k'.
    apply dict_get_set_same, String.eqb_eq.
  - apply dict_get_set_other; [apply String.eqb_eq|].
    intros ->. now rewrite String.eqb_refl in E.
Qed.

Lemma write_words_opt_view (ws : list string) :
  forall o : option (dict string float),
    match fold_left write_word_opt ws o with Some d => d | None => [] end =
    fold_left write_word ws (match o with Some d => d | None => [] end).
Proof. induction ws as [|w ws IH]; intros o; simpl; auto. Qed.

(** A key is raised once for each of its occurrences among the written
    tokens, and is left alone when it has none. *)
Lemma write_words_lookup (ws : list string) :
  forall (d : dict string float) (k : string),
    sget (fold_left write_word ws d) k =
    Nat.iter (count_occ string_dec ws k) (fun o => Some (raise_word o))
      (sget d k).
Proof.
  induction ws as [|w ws IH]; intros d k; simpl; trivial.
  rewrite IH. unfold write_word at 1. rewrite sget_sset.
  destruct (string_dec w k) as [->|Hne].
  - rewrite String.eqb_refl. now rewrite Nat.iter_succ_r.
  - destruct (String.eqb_spec w k); [contradiction|reflexivity].
Qed.

Lemma learned_record_apps (p : patterns) (a content : string) :
  get_apps (learned_record p a content) =
    if truthy a then sset (get_apps p) a (raise_app (sget (get_apps p) a))
    else get_apps p.
Proof. unfold learned_record, get_apps; simpl. now destruct (truthy a). Qed.

Lemma learned_record_content (p : patterns) (a content : string) :
  get_content (learned_record p a content) =
    fold_left write_word (written_tokens content) (get_content p).
Proof. unfold learned_record, get_content; simpl. apply write_words_opt_view. Qed.

Lemma learned_of_learn (feedback : UserFeedback) (self : classifier) :
  fst (learn_from_feedback feedback self) = Ok tt /\
  learned_patterns (snd (learn_from_feedback feedback self)) =
    learned_after (learned_patterns self) (actual_category feedback)
      (strip (lower (app_name feedback)))
      (strip (lower (title feedback ++ " " ++ body feedback))).
Proof.
  rewrite learn_from_feedback_run, save_run.
  cbn [fst snd redis_client set_learned].
  now destruct (redis_client self).
Qed.

(** ** The reasoning for matches of no recognized kind *)

(** When the list of matches is not empty and holds no [app:], [keyword:]
    or [pattern:] entry, the list of reasons stays empty and the text ends
    after the colon. *)
Lemma reasoning_without_kinds (c : NotificationCategory)
  (matches : list string) (app_name : string) :
  nonempty matches = true ->
  filter (fun m => startswith m "app:") matches = [] ->
  filter (fun m => startswith m "keyword:") matches = [] ->
  filter (fun m => startswith m "pattern:") matches = [] ->
  _generate_reasoning c matches app_name =
    Ok ("Classified as " ++ value c ++ ": ").
Proof.
  intros Hn Ha Hk Hp. unfold _generate_reasoning.
  rewrite Hn, Ha, Hk, Hp. reflexivity.
Qed.

Lemma check_content_above (c : NotificationCategory) (content : string)
  (items : dict string float) (r : ClassificationResult) :
  check_content c content items = Some r ->
  fgt (confidence r) c0_7 = true /\
  exists pattern, str_in pattern content = true /\
                  matched_keywords r = [pattern] /\ category r = c.
Proof.
  induction items as [|[pattern v] items IH]; simpl; [discriminate|].
  destruct (str_in pattern content) eqn:Es; simpl; trivial.
  destruct (fgt v c0_7) eqn:Ev; trivial.
  intros [= <-]. split; trivial. now exists pattern.
Qed.

Lemma check_items_above (a content : string) (l : learned)
  (r : ClassificationResult) :
  check_items a content l = Some r -> fgt (confidence r) c0_7 = true.
Proof.
  induction l as [|[c p] l IH]; simpl; [discriminate|].
  unfold check_app. destruct (sget (get_apps p) a) as [v|].
  - destruct (fgt v c0_7) eqn:Ev.
    + now intros [= <-].
    + destruct (check_content c content (get_content p)) eqn:Ec; auto.
      intros [= <-]. now apply check_content_above in Ec.
  - destruct (check_content c content (get_content p)) eqn:Ec; auto.
    intros [= <-]. now apply check_content_above in Ec.
Qed.

(** The entries visited before that of [c] belong to other categories. *)
Lemma before_keys (c c' : NotificationCategory) (l : learned) :
  In c' (dict_keys (before c l)) -> c' <> c.
Proof.
  induction l as [|[c1 p1] l IH]; simpl; [tauto|].
  destruct (category_eqb c1 c) eqn:E; simpl; [tauto|].
  intros [<-|H]; auto.
  intros ->. destruct c; discriminate.
Qed.

(** A cache that does not answer is not read: the store starts empty. *)
Lemma load_loop_down (r : redis) (cats : list NotificationCategory)
  (l : learned) :
  r_up r = false -> load_loop r cats l = l.
Proof.
  intros Hup. destruct cats as [|c cats]; simpl; trivial.
  unfold redis_get. now rewrite Hup.
Qed.

(* ================================================================== *)
(** * Part III.  The claims                                            *)
(* ================================================================== *)

(** C1.  For every input and every classifier object that the operations
    of the store can reach, [classify] returns a result (it does not
    raise) whose confidence lies between 0 and 1 and whose category is one
    of Work, Personal, Junk. *)
Theorem C1_confidence_and_category_in_range
  (self : classifier) (app_name title body : string) :
  reachable self ->
  exists r,
    fst (classify app_name title body self) = Ok r /\
    fle c0 (confidence r) = true /\ fle (confidence r) c1 = true /\
    In (category r) [WORK; PERSONAL; JUNK].
Proof.
  intros Hr. destruct (reachable_sound self Hr) as [[Hs _] Hi].
  assert (forall c : NotificationCategory, In c [WORK; PERSONAL; JUNK])
    as Hcat by (intros []; simpl; tauto).
  rewrite classify_run; cbn [fst].
  destruct (check_items _ _ _) as [r|] eqn:E.
  - exists r. destruct (learned_confidence_bounds _ _ _ _ Hs E). auto.
  - destruct (keywords_run self (strip (lower app_name))
                (strip (lower (title ++ " " ++ body))) Hi)
      as (tw & tp & tj & b & s & t & text & _ & _ & _ & _ & _ & _ & _ & _
          & _ & ->).
    eexists; split; [reflexivity|].
    destruct (feq (score_of b) c0); cbn [confidence].
    + repeat split; trivial.
    + destruct (clamp_unit_interval
                  (SFdiv prec emax (fsub (score_of b) (score_of s))
                     (py_max (score_of b) c1))).
      repeat split; trivial.
Qed.

Lemma C1_witness :
  exists r,
    fst (classify "Slack" "Meeting reminder" "Team standup" taught_personal)
      = Ok r /\
    fle c0 (confidence r) = true /\ fle (confidence r) c1 = true /\
    In (category r) [WORK; PERSONAL; JUNK].
Proof.
  apply (C1_confidence_and_category_in_range taught_personal).
  unfold taught_personal, teach. repeat apply reach_learn. apply reach_plain.
Defined.

(** C2 as it is stated does not hold: after three corrections of "Slack"
    to Work and three to Personal, the store holds a confidence above 0.7
    for "slack" in the apps map of Personal, and a notification of Slack
    is classified as Work, the category that is visited first. *)
Lemma C2_counterexample :
  reachable taught_both /\
  (exists v, holds_app taught_both PERSONAL "slack" v) /\
  strip (lower "Slack") = "slack" /\
  exists r,
    fst (classify "Slack" "hello" "world" taught_both) = Ok r /\
    category r <> PERSONAL.
Proof.
  split; [|split; [|split]].
  - unfold taught_both, teach. repeat apply reach_learn. apply reach_plain.
  - exists (raise_app (Some c0_7)).
    exists (record_of (learned_patterns taught_both) PERSONAL).
    repeat split; vm_compute; reflexivity.
  - reflexivity.
  - eexists. split; [vm_compute; reflexivity|]. discriminate.
Qed.

(** C2, amended.  Once the store holds a confidence [v] above 0.7 for the
    app name [a] in the apps map of the category [c], every call of
    [classify] whose normalized app name is [a] returns, for any title and
    body, a result of the learned patterns: its reasoning contains "Learned
    from user feedback".  When no entry visited before that of [c] gives a
    hit, it is the entry of [c]: category [c], confidence [v], matched
    keyword [a].  When an earlier entry gives the hit [r'], the result is
    [r']: its category is one of those visited before [c], it is not
    [c], and its confidence is above 0.7.  The keyword scores have no part
    in it. *)
Theorem C2_learned_override
  (self : classifier) (c : NotificationCategory) (a : string) (v : float)
  (app_name title body : string) :
  holds_app self c a v ->
  strip (lower app_name) = a ->
  exists r,
    fst (classify app_name title body self) = Ok r /\
    str_in "Learned from user feedback" (reasoning r) = true /\
    (r = learned_app_result c a v \/
     In (category r) (dict_keys (before c (learned_patterns self)))) /\
    (check_items a (strip (lower (title ++ " " ++ body)))
       (before c (learned_patterns self)) = None ->
     r = learned_app_result c a v) /\
    (forall r',
       check_items a (strip (lower (title ++ " " ++ body)))
         (before c (learned_patterns self)) = Some r' ->
       r = r' /\
       In (category r) (dict_keys (before c (learned_patterns self))) /\
       category r <> c /\
       fgt (confidence r) c0_7 = true).
Proof.
  intros (p & Hp & Ha & Hv) Hn.
  rewrite classify_run, Hn; cbn [fst].
  rewrite (check_items_at a _ c v _ p Hp Ha Hv).
  destruct (check_items a _ (before c (learned_patterns self)))
    as [r|] eqn:E.
  - exists r. destruct (check_items_sound _ _ _ _ E) as (Hk & Hs & _).
    pose proof (check_items_above _ _ _ _ E) as Habove.
    split; [reflexivity|].
    split; [now apply startswith_str_in|].
    split; [now right|].
    split; [discriminate|].
    intros r' [= <-].
    split; [reflexivity|]. split; [exact Hk|]. split; [|exact Habove].
    now apply (before_keys c _ (learned_patterns self)).
  - eexists. split; [reflexivity|].
    split; [reflexivity|]. split; [now left|].
    split; [reflexivity | discriminate].
Qed.

Lemma C2_witness :
  (exists r,
     fst (classify "Slack" "Meeting reminder" "Team standup" taught_personal)
       = Ok r /\
     r = learned_app_result PERSONAL "slack" (raise_app (Some c0_7))) /\
  (exists r,
     fst (classify "Slack" "hello" "world" taught_both) = Ok r /\
     r = learned_app_result WORK "slack" (raise_app (Some c0_7)) /\
     category r <> PERSONAL).
Proof.
  split.
  - destruct (C2_learned_override taught_personal PERSONAL "slack"
                (raise_app (Some c0_7)) "Slack" "Meeting reminder"
                "Team standup") as (r & Hrun & _ & _ & Hfirst & _).
    + exists (record_of (learned_patterns taught_personal) PERSONAL).
      repeat split; vm_compute; reflexivity.
    + reflexivity.
    + exists r. split; [exact Hrun|]. apply Hfirst. vm_compute. reflexivity.
  - destruct (C2_learned_override taught_both PERSONAL "slack"
                (raise_app (Some c0_7)) "Slack" "hello" "world")
      as (r & Hrun & _ & _ & _ & Hearlier).
    + exists (record_of (learned_patterns taught_both) PERSONAL).
      repeat split; vm_compute; reflexivity.
    + reflexivity.
    + destruct (Hearlier
                  (learned_app_result WORK "slack" (raise_app (Some c0_7))))
        as (He & _ & Hne & _).
      * vm_compute. reflexivity.
      * exists r. repeat split; trivial.
Defined.

(** C3.  The code does not do what the claim says: a notification whose
    only match is a domain ("company.com") is classified as Work with the
    reasoning "Classified as Work: ", not "Classified as Work based on
    general patterns". *)
Theorem C3_domain_only_reasoning :
  fst (classify "Mail" "Visit company.com" "" (NotificationClassifier None)) =
    Ok {| category := WORK;
          confidence := c0_95;
          reasoning := "Classified as Work: ";
          matched_keywords := ["domain:company.com"] |}.
Proof. vm_compute. reflexivity. Qed.

(** C4.  On the scoring path, with [best], [second], [third] the scores
    of the three categories from the largest down: when the best score is
    positive, the confidence returned is
    [min(0.95, max(0.5, (best - second) / max(best, 1.0)))], and it is
    exactly 0.5 when the first two scores are equal. *)
Theorem C4_confidence_of_margin
  (self : classifier) (app_name title body : string)
  (tw tp tj : tally) (best second third : float) :
  initialized self ->
  fst (_check_learned_patterns (strip (lower app_name))
         (strip (lower (title ++ " " ++ body))) self) = Ok None ->
  _calculate_category_score (strip (lower app_name))
    (strip (lower (title ++ " " ++ body))) (work_keywords self) = Ok tw ->
  _calculate_category_score (strip (lower app_name))
    (strip (lower (title ++ " " ++ body))) (personal_keywords self) = Ok tp ->
  _calculate_category_score (strip (lower app_name))
    (strip (lower (title ++ " " ++ body))) (junk_keywords self) = Ok tj ->
  Permutation [best; second; third] [fst tw; fst tp; fst tj] ->
  fle second best = true -> fle third second = true ->
  fgt best c0 = true ->
  exists r,
    fst (classify app_name title body self) = Ok r /\
    confidence r = margin_confidence best second /\
    (feq best second = true -> confidence r = c0_5).
Proof.
  intros Hi Hnone Hw Hp Hj Hperm H21 H32 Hpos.
  assert (check_items (strip (lower app_name))
            (strip (lower (title ++ " " ++ body))) (learned_patterns self)
          = None) as Hc.
  { unfold _check_learned_patterns, bindM, get, ret in Hnone.
    cbn [fst] in Hnone. now injection Hnone. }
  destruct (keywords_run self (strip (lower app_name))
              (strip (lower (title ++ " " ++ body))) Hi)
    as (tw' & tp' & tj' & b & s & t & text & Ew & Ep & Ej & _ & Hperm' & Hsb
        & Hts & _ & _ & Hrun).
  destruct Hi as (Iw & Ip & Ij). rewrite Iw in Hw. rewrite Ip in Hp.
  rewrite Ij in Hj.
  assert (tw' = tw) by congruence. assert (tp' = tp) by congruence.
  assert (tj' = tj) by congruence. subst tw' tp' tj'.
  apply (Permutation_map score_of) in Hperm'. cbn [map score_of fst snd] in Hperm'.
  destruct (ranking_unique best second third
              (score_of b) (score_of s) (score_of t)) as [-> ->]; trivial.
  - assert (Forall (fun x => nonneg x = true) [fst tw; fst tp; fst tj]) as N.
    { destruct (score_total (strip (lower app_name))
                  (strip (lower (title ++ " " ++ body))) _
                  work_patterns_compile) as (x & Ex & Nx).
      destruct (score_total (strip (lower app_name))
                  (strip (lower (title ++ " " ++ body))) _
                  personal_patterns_compile) as (y & Ey & Ny).
      destruct (score_total (strip (lower app_name))
                  (strip (lower (title ++ " " ++ body))) _
                  junk_patterns_compile) as (z & Ez & Nz).
      assert (x = tw) by congruence. assert (y = tp) by congruence.
      assert (z = tj) by congruence. subst. repeat constructor; trivial. }
    apply Forall_forall. intros x Hx. rewrite Forall_forall in N.
    apply N. eapply Permutation_in; eauto.
  - apply perm_trans with (1 := Hperm). now apply Permutation_sym.
  - rewrite classify_run, Hc, Hrun; cbn [fst].
    rewrite (fgt_zero_not_feq _ Hpos).
    eexists; split; [reflexivity|]. cbn [confidence]. split; trivial.
    now apply margin_tie.
Qed.

Lemma C4_witness :
  exists r,
    fst (classify "Calendar" "" "" (NotificationClassifier None)) = Ok r /\
    confidence r = margin_confidence c3 c3 /\
    (feq c3 c3 = true -> confidence r = c0_5).
Proof.
  apply (C4_confidence_of_margin (NotificationClassifier None)
           "Calendar" "" ""
           (c3, ["app:calendar"]) (c3, ["app:calendar"]) (c0, [])
           c3 c3 c0).
  - repeat split.
  - reflexivity.
  - vm_compute; reflexivity.
  - vm_compute; reflexivity.
  - vm_compute; reflexivity.
  - apply Permutation_refl.
  - reflexivity.
  - reflexivity.
  - reflexivity.
Defined.

(** C5.  [learn_from_feedback] does not raise and changes the record of
    the actual category only.  With [a] the normalized app name and the
    content tokens the runs of three or more word characters of the
    normalized title and body: if [a] is not empty, [apps[a]] becomes
    [min(0.95, previous-or-0.5 + 0.1)], and no other app is touched; of the
    first five tokens, each one longer than three characters is written as
    [min(0.90, previous-or-0.5 + 0.05)], one after the other (a token that
    comes twice is raised twice), and no other token is written. *)
Theorem C5_feedback_update (feedback : UserFeedback) (self : classifier) :
  let c := actual_category feedback in
  let a := strip (lower (app_name feedback)) in
  let content :=
    strip (lower (title feedback ++ " " ++ body feedback)) in
  let old := record_of (learned_patterns self) c in
  let self' := snd (learn_from_feedback feedback self) in
  fst (learn_from_feedback feedback self) = Ok tt /\
  (forall c', c' <> c ->
     cget (learned_patterns self') c' = cget (learned_patterns self) c') /\
  exists new,
    cget (learned_patterns self') c = Some new /\
    get_apps new =
      (if truthy a
       then sset (get_apps old) a (raise_app (sget (get_apps old) a))
       else get_apps old) /\
    (forall k,
       sget (get_apps new) k =
         if truthy a && String.eqb a k
         then Some (raise_app (sget (get_apps old) a))
         else sget (get_apps old) k) /\
    get_content new =
      fold_left write_word (written_tokens content) (get_content old) /\
    (forall k,
       sget (get_content new) k =
         Nat.iter (count_occ string_dec (written_tokens content) k)
           (fun o => Some (raise_word o)) (sget (get_content old) k)).
Proof.
  intros c a content old self'.
  destruct (learned_of_learn feedback self) as [Hok Hl].
  fold c a content in Hl. fold self' in Hl.
  split; [exact Hok|]. split.
  - intros c' Hne. rewrite Hl. now apply cget_cset_other.
  - exists (learned_record old a content). rewrite Hl.
    split; [apply cget_cset_same|].
    rewrite learned_record_apps, learned_record_content.
    repeat split; trivial.
    + intros k. destruct (truthy a); cbn [andb]; trivial.
      apply sget_sset.
    + intros k. apply write_words_lookup.
Qed.

Lemma C5_witness :
  let feedback :=
    feedback_on "Slack" "Meeting MEETING now" "a big-deal today" WORK
      PERSONAL 0 in
  let self := NotificationClassifier None in
  let self' := snd (learn_from_feedback feedback self) in
  exists new,
    cget (learned_patterns self') PERSONAL = Some new /\
    sget (get_apps new) "slack" = Some (raise_app None) /\
    sget (get_content new) "meeting"
      = Some (raise_word (Some (raise_word None))) /\
    sget (get_content new) "deal" = Some (raise_word None) /\
    sget (get_content new) "now" = None /\
    sget (get_content new) "today" = None.
Proof.
  intros feedback self self'.
  destruct (C5_feedback_update feedback self)
    as (_ & _ & new & Hnew & _ & Happs & _ & Hcont).
  exists new. split; [exact Hnew|].
  rewrite (Happs "slack"), (Hcont "meeting"), (Hcont "deal"),
    (Hcont "now"), (Hcont "today").
  repeat split.
Defined.

(** C6.  When the app name, the title and the body are all empty and the
    learned patterns give no hit, [classify] returns Personal with
    confidence 0.5, the reasoning "No specific patterns matched, defaulting
    to Personal" and no matched keyword. *)
Theorem C6_empty_input (self : classifier) :
  initialized self ->
  fst (_check_learned_patterns "" "" self) = Ok None ->
  classify "" "" "" self =
    (Ok {| category := PERSONAL;
           confidence := c0_5;
           reasoning := "No specific patterns matched, defaulting to Personal";
           matched_keywords := [] |},
     self).
Proof.
  intros (Hw & Hp & Hj) Hnone.
  unfold _check_learned_patterns, bindM, get, ret in Hnone.
  cbn [fst] in Hnone. injection Hnone as Hnone.
  rewrite classify_run.
  change (strip (lower "")) with "".
  change (strip (lower ("" ++ " " ++ ""))) with "".
  rewrite Hnone. unfold classify_by_keywords. rewrite Hw, Hp, Hj.
  reflexivity.
Qed.

Lemma C6_witness :
  classify "" "" "" taught_personal =
    (Ok {| category := PERSONAL;
           confidence := c0_5;
           reasoning := "No specific patterns matched, defaulting to Personal";
           matched_keywords := [] |},
     taught_personal).
Proof.
  apply (C6_empty_input taught_personal).
  - repeat split.
  - vm_compute; reflexivity.
Defined.

(** C7 as it is stated does not hold: [_load_learned_patterns] installs
    what the cache holds without looking at it.  Over a cache that holds,
    for Work, a record without apps map, or a record with the confidence
    2.0, the store of a new object does not have the invariant from the
    start. *)
Lemma C7_counterexample :
  ~ store_ok
      (learned_patterns
         (NotificationClassifier
            (Some (mkRedis true
                     [(redis_key WORK, mkPatterns None (Some []))])))) /\
  ~ store_ok
      (learned_patterns
         (NotificationClassifier
            (Some (mkRedis true
                     [(redis_key WORK,
                       mkPatterns (Some [("slack", c2)]) (Some []))])))).
Proof.
  split; intros H; rewrite new_classifier_eq in H; inversion H as [|x l Hp _];
    subst; destruct Hp as (apps & content & Ha & Hc & Fa & Fc).
  - discriminate Ha.
  - injection Ha as <-. inversion Fa as [|y d [_ Hy] _]; subst.
    discriminate Hy.
Qed.

(** C7, amended.  The invariant of the learned pattern store (every
    category has both its apps map and its content map, and every stored
    confidence is at least 0 and at most 0.95 for apps, 0.90 for content)
    holds for a new object that has no cache, that has a cache which does
    not answer, or that has a cache whose records have the invariant; and
    every operation keeps it, whatever the cache holds:
    [learn_from_feedback], [reset_learned_patterns] (after which it holds
    in any case), [classify] and [get_category_stats].  The records that
    the operations leave in the cache have it as well, so that it holds
    for every object that can be reached, new objects over the cache of
    earlier ones included. *)
Theorem C7_store_invariant :
  store_ok (learned_patterns (NotificationClassifier None)) /\
  (forall r, r_up r = false ->
     store_ok (learned_patterns (NotificationClassifier (Some r)))) /\
  (forall rc, cache_ok rc -> store_invariant (NotificationClassifier rc)) /\
  (forall self feedback,
     store_ok (learned_patterns self) ->
     store_ok (learned_patterns (snd (learn_from_feedback feedback self)))) /\
  (forall self,
     store_ok (learned_patterns (snd (reset_learned_patterns self)))) /\
  (forall self app_name title body,
     store_ok (learned_patterns self) ->
     store_ok (learned_patterns (snd (classify app_name title body self)))) /\
  (forall self,
     store_ok (learned_patterns self) ->
     store_ok (learned_patterns (snd (get_category_stats self)))) /\
  (forall self feedback,
     store_invariant self ->
     cache_ok (redis_client (snd (learn_from_feedback feedback self)))) /\
  (forall self,
     cache_ok (redis_client self) ->
     cache_ok (redis_client (snd (reset_learned_patterns self)))) /\
  (forall self app_name title body,
     cache_ok (redis_client self) ->
     cache_ok (redis_client (snd (classify app_name title body self)))) /\
  (forall self,
     cache_ok (redis_client self) ->
     cache_ok (redis_client (snd (get_category_stats self)))) /\
  (forall self, reachable self -> store_invariant self).
Proof.
  split; [apply (invariant_new None); exact I|].
  split.
  { intros r Hup. rewrite new_classifier_eq. cbn [learned_patterns].
    rewrite (load_loop_down _ _ _ Hup). apply fresh_learned_ok. }
  split; [intros rc Hc; now apply invariant_new|].
  split.
  { intros self feedback Hs.
    destruct (learned_of_learn feedback self) as [_ ->].
    now apply learned_after_ok. }
  split; [intros self; rewrite reset_run; apply fresh_learned_ok|].
  split; [intros; now rewrite classify_state|].
  split; [intros; now rewrite stats_state|].
  split; [intros self feedback Hi; now apply invariant_learn|].
  split.
  { intros self Hc. rewrite reset_run. cbn [snd redis_client].
    destruct (redis_client self) as [r|]; cbn [option_map cache_ok]; trivial.
    now apply delete_loop_ok. }
  split; [intros; now rewrite classify_state|].
  split; [intros; now rewrite stats_state|].
  intros self Hr. now apply reachable_sound.
Qed.

Lemma C7_witness :
  let rc :=
    Some (mkRedis true
            [(redis_key WORK,
              mkPatterns (Some [("slack", c0_95)])
                (Some [("meeting", c0_9)]))]) in
  let feedback := feedback_on "Slack" "Meeting" "" WORK PERSONAL 0 in
  cget (learned_patterns (NotificationClassifier rc)) WORK
    = Some (mkPatterns (Some [("slack", c0_95)]) (Some [("meeting", c0_9)]))
  /\
  store_ok (learned_patterns (NotificationClassifier rc)) /\
  store_ok
    (learned_patterns
       (snd (learn_from_feedback feedback (NotificationClassifier rc)))) /\
  store_ok
    (learned_patterns
       (snd (reset_learned_patterns (NotificationClassifier rc)))).
Proof.
  intros rc feedback.
  destruct C7_store_invariant
    as (_ & _ & Hnew & Hlearn & Hreset & _).
  assert (cache_ok rc) as Hc.
  { constructor; [|constructor].
    exists [("slack", c0_95)], [("meeting", c0_9)].
    repeat split; repeat constructor. }
  destruct (Hnew rc Hc) as [Hs _].
  split; [reflexivity|].
  split; [exact Hs|].
  split; [now apply Hlearn | apply Hreset].
Defined.

(** C8 as it is stated does not hold: the old spelling "busineß" has
    the uppercase "BUSINESS", which is classified as Work by the keyword
    "business", while the text in lower case matches nothing and gets the
    default, Personal with confidence 0.5. *)
Lemma C8_counterexample :
  upper "" = Some "" /\
  upper ("busine" ++ String sharp_s "") = Some "BUSINESS" /\
  exists r_upper r_lower,
    fst (classify "" "BUSINESS" "" (NotificationClassifier None))
      = Ok r_upper /\
    fst (classify (lower "") (lower ("busine" ++ String sharp_s ""))
           (lower "") (NotificationClassifier None)) = Ok r_lower /\
    category r_upper = WORK /\ category r_lower = PERSONAL /\
    confidence r_upper = c0_95 /\ confidence r_lower = c0_5.
Proof.
  split; [reflexivity|]. split; [reflexivity|].
  eexists; eexists.
  split; [vm_compute; reflexivity|].
  split; [vm_compute; reflexivity|].
  repeat split.
Qed.

(** C8, amended.  For every app name, title and body without the letter
    ß (and with an uppercase in Latin-1), all ASCII text among them,
    [classify] applied to the inputs with every letter uppercased returns
    what it returns on the inputs in lower case: the same category and the
    same confidence (and the same reasoning and matches). *)
Theorem C8_case_insensitive
  (self : classifier) (app_name title body : string)
  (upper_app_name upper_title upper_body : string) :
  upper app_name = Some upper_app_name ->
  upper title = Some upper_title ->
  upper body = Some upper_body ->
  sharp_free app_name = true ->
  sharp_free title = true ->
  sharp_free body = true ->
  classify upper_app_name upper_title upper_body self =
  classify (lower app_name) (lower title) (lower body) self.
Proof.
  intros Ua Ut Ub Fa Ft Fb.
  rewrite !classify_run, !lower_app.
  rewrite (upper_lower _ _ Ua Fa), (upper_lower _ _ Ut Ft),
    (upper_lower _ _ Ub Fb), !lower_lower.
  reflexivity.
Qed.

Lemma C8_witness :
  classify "SLACK" "MEETING REMINDER" "URGENT PROJECT UPDATE"
    (NotificationClassifier None) =
  classify (lower "Slack") (lower "Meeting reminder")
    (lower "Urgent project update") (NotificationClassifier None).
Proof.
  apply (C8_case_insensitive (NotificationClassifier None)
           "Slack" "Meeting reminder" "Urgent project update");
    reflexivity.
Defined.

(** C9.  [classify] leaves the object as it found it, the learned pattern
    store and the keyword rule table included, and a second call with the
    same arguments returns the same result. *)
Theorem C9_classify_reads_only
  (self : classifier) (app_name title body : string) :
  snd (classify app_name title body self) = self /\
  learned_patterns (snd (classify app_name title body self))
    = learned_patterns self /\
  work_keywords (snd (classify app_name title body self))
    = work_keywords self /\
  personal_keywords (snd (classify app_name title body self))
    = personal_keywords self /\
  junk_keywords (snd (classify app_name title body self))
    = junk_keywords self /\
  classify app_name title body (snd (classify app_name title body self))
    = classify app_name title body self.
Proof. rewrite classify_state. repeat split. Qed.

(** C10.  What [learn_from_feedback] does depends on the app name, the
    title, the body and the actual category of the feedback only: two
    feedbacks that differ in the predicted category or in the timestamp
    leave the object, its store included, in the same state. *)
Theorem C10_feedback_ignores_prediction_and_time
  (f1 f2 : UserFeedback) (self : classifier) :
  app_name f1 = app_name f2 ->
  title f1 = title f2 ->
  body f1 = body f2 ->
  actual_category f1 = actual_category f2 ->
  learn_from_feedback f1 self = learn_from_feedback f2 self.
Proof.
  intros Ha Ht Hb Hc. unfold learn_from_feedback.
  now rewrite Ha, Ht, Hb, Hc.
Qed.

Lemma C10_witness :
  learn_from_feedback
    (feedback_on "Slack" "Meeting" "Standup at ten" WORK PERSONAL 17)
    (NotificationClassifier None) =
  learn_from_feedback
    (feedback_on "Slack" "Meeting" "Standup at ten" JUNK PERSONAL 42)
    (NotificationClassifier None).
Proof.
  apply C10_feedback_ignores_prediction_and_time; reflexivity.
Defined.

(* ================================================================== *)
(** * Part IV.  Further properties of the code                         *)
(* ================================================================== *)

(** ** Scores are exact *)

Lemma float_same_eq (x y : float) : float_same x y = true -> x = y.
Proof.
  destruct x as [a|a| |a m e], y as [b|b| |b n f]; simpl; try discriminate;
    trivial.
  - intros H; apply Bool.eqb_prop in H; now subst.
  - intros H; apply Bool.eqb_prop in H; now subst.
  - intros H. apply andb_prop in H as [H He]. apply andb_prop in H as [Hs Hm].
    apply Bool.eqb_prop in Hs. apply Pos.eqb_eq in Hm. apply Z.eqb_eq in He.
    now subst.
Qed.

Lemma sums_exact_checked :
  forallb sums_exact (halves_upto (Z.to_nat score_bound)) = true.
Proof. vm_compute. reflexivity. Qed.

Lemma sums_exact_at (k : Z) :
  (0 <= k <= score_bound)%Z -> sums_exact k = true.
Proof.
  intros Hk. pose proof sums_exact_checked as H.
  rewrite forallb_forall in H. apply H.
  unfold halves_upto. apply in_map_iff. exists (Z.to_nat k). split.
  - apply Z2Nat.id; lia.
  - apply in_seq. unfold score_bound in *. lia.
Qed.

Lemma fadd_halves (k w : Z) :
  (0 <= k <= score_bound)%Z -> In w [2; 3; 4; 6]%Z ->
  fadd (of_halves k) (of_halves w) = of_halves (k + w).
Proof.
  intros Hk Hw. pose proof (sums_exact_at k Hk) as H.
  unfold sums_exact in H. apply andb_prop in H as [H _].
  rewrite forallb_forall in H. apply float_same_eq. now apply H.
Qed.

Lemma of_halves_zero (k : Z) :
  (0 <= k <= score_bound)%Z -> feq (of_halves k) c0 = true -> k = 0%Z.
Proof.
  intros Hk Hz. pose proof (sums_exact_at k Hk) as H.
  unfold sums_exact in H. apply andb_prop in H as [_ H].
  rewrite Hz in H. simpl in H. now apply Z.eqb_eq.
Qed.

Lemma half_weights_append (ms : list string) (m : string) :
  half_weights (append ms m) = (half_weights ms + half_weight m)%Z.
Proof.
  unfold append. induction ms as [|x ms IH]; simpl half_weights; [lia|].
  rewrite IH. lia.
Qed.

Lemma half_weights_app (l l' : list string) :
  half_weights (l ++ l') = (half_weights l + half_weights l')%Z.
Proof. induction l as [|x l IH]; simpl half_weights; [lia|]. rewrite IH. lia. Qed.

Lemma half_weights_tagged (tag : string) (hw : Z) (items : list string) :
  (forall item, half_weight (tag ++ item) = hw) ->
  half_weights (tagged tag items) = (hw * Z.of_nat (List.length items))%Z.
Proof.
  intros Ht. induction items as [|i items IH].
  - simpl. lia.
  - cbn [tagged map half_weights List.length]. fold (tagged tag items).
    rewrite IH, Ht. lia.
Qed.

(** A loop that tests every item and records the ones found. *)
Lemma scan_matches (f : string -> bool) (w : float) (tag : string)
  (items : list string) :
  forall t : tally,
    snd (fold_left (fun t item => if f item then record_match w tag item t
                                  else t) items t)
    = (snd t ++ tagged tag (filter f items))%list.
Proof.
  induction items as [|i items IH]; intros t; cbn [fold_left filter].
  - simpl. now rewrite app_nil_r.
  - rewrite IH. destruct (f i); trivial.
    cbn [record_match snd tagged map]. unfold append.
    now rewrite <- app_assoc.
Qed.

Lemma scan_score (f : string -> bool) (hw : Z) (tag : string)
  (items : list string) :
  In hw [2; 3; 4; 6]%Z ->
  (forall item, half_weight (tag ++ item) = hw) ->
  forall (t : tally) (bound : Z),
    fst t = of_halves (half_weights (snd t)) ->
    (0 <= half_weights (snd t) <= bound)%Z ->
    (bound + hw * Z.of_nat (List.length items) <= score_bound)%Z ->
    let t' := fold_left (fun t item => if f item
                                       then record_match (of_halves hw) tag item t
                                       else t) items t in
    fst t' = of_halves (half_weights (snd t')) /\
    (0 <= half_weights (snd t')
       <= bound + hw * Z.of_nat (List.length items))%Z.
Proof.
  intros Hw Ht. assert (0 < hw)%Z as Hpos
    by (simpl in Hw; destruct Hw as [<-|[<-|[<-|[<-|[]]]]]; lia).
  induction items as [|i items IH]; intros t bound Hf Hb Hle;
    cbn [fold_left List.length] in *.
  - split; trivial. lia.
  - destruct (f i).
    + destruct (IH (record_match (of_halves hw) tag i t) (bound + hw)%Z)
        as [H1 H2].
      * cbn [record_match fst snd]. rewrite half_weights_append, Ht, Hf.
        apply fadd_halves; trivial. lia.
      * cbn [record_match snd]. rewrite half_weights_append, Ht. lia.
      * lia.
      * split; trivial. lia.
    + destruct (IH t bound Hf Hb) as [H1 H2]; [lia|]. split; trivial. lia.
Qed.

Lemma scan_patterns_run (w : float) (tag text : string) (items : list string) :
  Forall compiles items ->
  forall t : tally,
    scan_patterns w tag text items t =
      Ok (fold_left (fun t p => if pattern_found text p
                                then record_match w tag p t else t) items t).
Proof.
  unfold scan_patterns.
  induction 1 as [|i items [r Hr] _ IH]; intros t; cbn [fold_exn fold_left].
  - reflexivity.
  - assert (pattern_found text i = search_from true r None text) as E
      by (unfold pattern_found, re_search; now rewrite Hr).
    rewrite E. unfold re_search at 1. rewrite Hr. cbn [bind]. apply IH.
Qed.


Lemma half_weight_app (item : string) : half_weight ("app:" ++ item) = 6%Z.
Proof. destruct item; reflexivity. Qed.
Lemma half_weight_keyword (item : string) :
  half_weight ("keyword:" ++ item) = 2%Z.
Proof. destruct item; reflexivity. Qed.
Lemma half_weight_pattern (item : string) :
  half_weight ("pattern:" ++ item) = 4%Z.
Proof. destruct item; reflexivity. Qed.
Lemma half_weight_domain (item : string) :
  half_weight ("domain:" ++ item) = 3%Z.
Proof. destruct item; reflexivity. Qed.

Lemma calculate_matches (app_name content : string) (keywords : profile) :
  Forall compiles (kw_patterns keywords) ->
  exists score,
    _calculate_category_score app_name content keywords
      = Ok (score, expected_matches app_name content keywords).
Proof.
  intros Hc. unfold _calculate_category_score.
  rewrite (scan_patterns_run _ _ _ _ Hc). cbn [bind].
  unfold scan_substrings.
  match goal with |- exists _, Ok ?t = _ => exists (fst t); f_equal;
    rewrite (surjective_pairing t) at 1; f_equal end.
  rewrite !scan_matches. cbn [snd app]. unfold expected_matches.
  now rewrite <- !app_assoc.
Qed.



Lemma calculate_exact
  (app_name content : string) (keywords : profile) (t : tally) :
  Forall compiles (kw_patterns keywords) ->
  (profile_weight keywords <= score_bound)%Z ->
  _calculate_category_score app_name content keywords = Ok t ->
  fst t =
    of_halves
      (6 * Z.of_nat (List.length
                       (filter (fun k => str_in k app_name)
                          (kw_apps keywords)))
       + 2 * Z.of_nat (List.length
                         (filter (fun k => str_in k content)
                            (kw_content keywords)))
       + 4 * Z.of_nat (List.length
                         (filter (pattern_found content)
                            (kw_patterns keywords)))
       + 3 * Z.of_nat (List.length
                         (filter (fun k => str_in k content)
                            (kw_domains keywords)))) /\
  fst t = of_halves (half_weights (snd t)) /\
  (0 <= half_weights (snd t) <= score_bound)%Z.
Proof.
  intros Hc Hb Ht.
  destruct (calculate_matches app_name content keywords Hc)
    as [s Hs].
  assert (snd t = expected_matches app_name content keywords) as Hm
    by (rewrite Ht in Hs; injection Hs as ->; reflexivity).
  unfold _calculate_category_score in Ht.
  rewrite (scan_patterns_run _ _ _ _ Hc) in Ht. cbn [bind] in Ht.
  unfold scan_substrings in Ht. unfold profile_weight in Hb.
  change c3 with (of_halves 6) in Ht. change c1 with (of_halves 2) in Ht.
  change c2 with (of_halves 4) in Ht. change c1_5 with (of_halves 3) in Ht.
  destruct (scan_score (fun k => str_in k app_name) 6 "app:"
              (kw_apps keywords) ltac:(simpl; tauto) half_weight_app
              (c0, []) 0%Z eq_refl ltac:(simpl; lia) ltac:(lia))
    as [F1 B1].
  cbv zeta in F1, B1.
  match type of F1 with fst ?x = _ => set (t1 := x) in * end.
  destruct (scan_score (fun k => str_in k content) 2 "keyword:"
              (kw_content keywords) ltac:(simpl; tauto) half_weight_keyword
              t1 _ F1 B1 ltac:(lia)) as [F2 B2].
  cbv zeta in F2, B2.
  match type of F2 with fst ?x = _ => set (t2 := x) in * end.
  destruct (scan_score (pattern_found content) 4 "pattern:"
              (kw_patterns keywords) ltac:(simpl; tauto) half_weight_pattern
              t2 _ F2 B2 ltac:(lia)) as [F3 B3].
  cbv zeta in F3, B3.
  match type of F3 with fst ?x = _ => set (t3 := x) in * end.
  destruct (scan_score (fun k => str_in k content) 3 "domain:"
              (kw_domains keywords) ltac:(simpl; tauto) half_weight_domain
              t3 _ F3 B3 ltac:(lia)) as [F4 B4].
  cbv zeta in F4, B4.
  injection Ht as Ht. rewrite Ht in F4, B4.
  assert (fst t = of_halves (half_weights (snd t))) as Hexact by exact F4.
  split; [|split; [exact Hexact | lia]].
  rewrite Hexact, Hm. unfold expected_matches.
  rewrite !half_weights_app.
  rewrite (half_weights_tagged "app:" 6), (half_weights_tagged "keyword:" 2),
    (half_weights_tagged "pattern:" 4), (half_weights_tagged "domain:" 3);
    auto using half_weight_app, half_weight_keyword, half_weight_pattern,
      half_weight_domain.
  f_equal. lia.
Qed.




(** ** Which category wins *)

Lemma flt_not_fle (a b : float) : flt a b = true -> fle b a = false.
Proof.
  unfold flt, fle. rewrite (fcompare_antisym a b).
  destruct (fcompare a b) as [[ | | ]|]; simpl; congruence.
Qed.

Lemma nonneg_below_zero (p z : float) :
  nonneg p = true -> fle p z = true -> feq z c0 = true -> feq p c0 = true.
Proof.
  destruct p as [[|]|[|]| |[|] mp ep]; try discriminate;
    destruct z as [[|]|[|]| |[|] mz ez]; try discriminate; trivial.
Qed.

Lemma reasoning_shape (c : NotificationCategory) (matches : list string)
  (app_name text : string) :
  _generate_reasoning c matches app_name = Ok text ->
  exists rest, text = "Classified as " ++ value c ++ rest.
Proof.
  unfold _generate_reasoning.
  destruct (negb (nonempty matches)).
  - intros [= <-]. now eexists.
  - cbv zeta.
    destruct (nonempty (filter (fun m => startswith m "app:") matches)).
    + destruct (map_exn after_colon _); cbn [bind]; [|discriminate].
      destruct (nonempty (filter (fun m => startswith m "keyword:") matches)).
      * destruct (map_exn after_colon _); cbn [bind]; [|discriminate].
        intros [= <-]. now eexists.
      * cbn [bind]. intros [= <-]. now eexists.
    + cbn [bind].
      destruct (nonempty (filter (fun m => startswith m "keyword:") matches)).
      * destruct (map_exn after_colon _); cbn [bind]; [|discriminate].
        intros [= <-]. now eexists.
      * cbn [bind]. intros [= <-]. now eexists.
Qed.

(** The first of the three after sorting. *)
Lemma sort_three_head (x y z b s t : scored) :
  sort_desc score_of [x; y; z] = [b; s; t] ->
  b = (if flt (score_of y) (score_of z)
       then if flt (score_of x) (score_of z) then z else x
       else if flt (score_of x) (score_of y) then y else x).
Proof.
  unfold sort_desc; simpl.
  destruct (flt (score_of y) (score_of z)); simpl.
  - destruct (flt (score_of x) (score_of z)); simpl.
    + destruct (flt (score_of x) (score_of y)); now intros [= <- _ _].
    + now intros [= <- _ _].
  - destruct (flt (score_of x) (score_of y)); simpl.
    + destruct (flt (score_of x) (score_of z)); now intros [= <- _ _].
    + now intros [= <- _ _].
Qed.

(** ** What a profile scores *)

(** X1.  The matches of a profile are the items found, in the order of
    the four lists (apps in the app name; content keywords, patterns and
    domains in the content), each with its tag; nothing is left out and
    nothing comes twice over. *)
Theorem score_matches_are_the_items_found
  (app_name content : string) (keywords : profile) :
  Forall compiles (kw_patterns keywords) ->
  exists score,
    _calculate_category_score app_name content keywords
      = Ok (score, expected_matches app_name content keywords).
Proof. apply calculate_matches. Qed.

Lemma score_matches_witness :
  exists score,
    _calculate_category_score "slack" "team standup in 10 minutes"
      initial_work_keywords
    = Ok (score, ["app:slack"; "keyword:team"; "keyword:standup"]).
Proof.
  apply (score_matches_are_the_items_found "slack"
           "team standup in 10 minutes" initial_work_keywords).
  constructor.
Defined.

(** X2.  The score of a profile is exactly 3.0 for every app found, 1.0
    for every content keyword, 2.0 for every pattern and 1.5 for every
    domain: no rounding occurs, for any profile whose full score is at
    most 500. *)
Theorem score_is_the_weighted_count
  (app_name content : string) (keywords : profile) (t : tally) :
  Forall compiles (kw_patterns keywords) ->
  (profile_weight keywords <= score_bound)%Z ->
  _calculate_category_score app_name content keywords = Ok t ->
  fst t =
    of_halves
      (6 * Z.of_nat (List.length
                       (filter (fun k => str_in k app_name)
                          (kw_apps keywords)))
       + 2 * Z.of_nat (List.length
                         (filter (fun k => str_in k content)
                            (kw_content keywords)))
       + 4 * Z.of_nat (List.length
                         (filter (pattern_found content)
                            (kw_patterns keywords)))
       + 3 * Z.of_nat (List.length
                         (filter (fun k => str_in k content)
                            (kw_domains keywords)))).
Proof. intros Hc Hb Ht. now apply calculate_exact. Qed.

Lemma score_is_the_weighted_count_witness :
  fst (of_halves 24, ["app:shopping"; "keyword:sale"; "keyword:offer";
                      "keyword:limited time"; "keyword:buy now";
                      "keyword:% off"; "pattern:\d+%\s*off";
                      "pattern:limited\s+time"]) =
    of_halves
      (6 * Z.of_nat (List.length
                       (filter (fun k => str_in k "shopping app")
                          (kw_apps initial_junk_keywords)))
       + 2 * Z.of_nat (List.length
                         (filter (fun k => str_in k
                                    "50% off sale! limited time offer - buy now!")
                            (kw_content initial_junk_keywords)))
       + 4 * Z.of_nat (List.length
                         (filter (pattern_found
                                    "50% off sale! limited time offer - buy now!")
                            (kw_patterns initial_junk_keywords)))
       + 3 * Z.of_nat (List.length
                         (filter (fun k => str_in k
                                    "50% off sale! limited time offer - buy now!")
                            (kw_domains initial_junk_keywords)))).
Proof.
  apply (score_is_the_weighted_count "shopping app"
           "50% off sale! limited time offer - buy now!"
           initial_junk_keywords).
  - repeat constructor; eexists; reflexivity.
  - apply Z.leb_le. vm_compute. reflexivity.
  - vm_compute. reflexivity.
Defined.


(** ** The winner of the ranking *)

(** The first of the ranked three, and what it says about the scores:
    an earlier category wins a tie. *)
Lemma winner_cases (w p j : float) (mw mp mj : list string) (b s t : scored) :
  nonneg w = true -> nonneg p = true -> nonneg j = true ->
  sort_desc score_of [(WORK, w, mw); (PERSONAL, p, mp); (JUNK, j, mj)]
    = [b; s; t] ->
  (b = (WORK, w, mw) /\ fle p w = true /\ fle j w = true) \/
  (b = (PERSONAL, p, mp) /\ flt w p = true /\ fle j p = true) \/
  (b = (JUNK, j, mj) /\ flt w j = true /\ flt p j = true).
Proof.
  intros Nw Np Nj Es. apply sort_three_head in Es. cbn [score_of fst snd] in Es.
  destruct (flt p j) eqn:Epj.
  - destruct (flt w j) eqn:Ewj.
    + right; right. auto.
    + left. repeat split; trivial.
      * apply (fle_trans p j w); auto using flt_fle, not_flt_fle.
      * now apply not_flt_fle.
  - destruct (flt w p) eqn:Ewp.
    + right; left. repeat split; trivial. now apply not_flt_fle.
    + left. repeat split; trivial.
      * now apply not_flt_fle.
      * apply (fle_trans j p w); auto using not_flt_fle.
Qed.

Lemma all_zero_below (w p j : float) :
  nonneg p = true -> nonneg j = true ->
  fle p w = true -> fle j w = true -> feq w c0 = true ->
  feq w c0 && feq p c0 && feq j c0 = true.
Proof.
  intros Np Nj Hp Hj Hz.
  rewrite Hz, (nonneg_below_zero p w), (nonneg_below_zero j w); trivial.
Qed.

Lemma expected_matches_none (app_name content : string) (keywords : profile) :
  half_weights (expected_matches app_name content keywords) = 0%Z ->
  expected_matches app_name content keywords = [].
Proof.
  unfold expected_matches. rewrite !half_weights_app.
  rewrite (half_weights_tagged "app:" 6), (half_weights_tagged "keyword:" 2),
    (half_weights_tagged "pattern:" 4), (half_weights_tagged "domain:" 3);
    auto using half_weight_app, half_weight_keyword, half_weight_pattern,
      half_weight_domain.
  intros H.
  rewrite (proj1 (length_zero_iff_nil
                    (filter (fun k => str_in k app_name) (kw_apps keywords))))
    by lia.
  rewrite (proj1 (length_zero_iff_nil
                    (filter (fun k => str_in k content) (kw_content keywords))))
    by lia.
  rewrite (proj1 (length_zero_iff_nil
                    (filter (pattern_found content) (kw_patterns keywords))))
    by lia.
  rewrite (proj1 (length_zero_iff_nil
                    (filter (fun k => str_in k content) (kw_domains keywords))))
    by lia.
  reflexivity.
Qed.

Lemma initial_weights :
  (profile_weight initial_work_keywords <= score_bound)%Z /\
  (profile_weight initial_personal_keywords <= score_bound)%Z /\
  (profile_weight initial_junk_keywords <= score_bound)%Z.
Proof. repeat split; apply Z.leb_le; vm_compute; reflexivity. Qed.

(** A tally of the built-in profiles is zero only if it has no match. *)
Lemma tally_zero (app_name content : string) (keywords : profile) (t : tally) :
  Forall compiles (kw_patterns keywords) ->
  (profile_weight keywords <= score_bound)%Z ->
  _calculate_category_score app_name content keywords = Ok t ->
  snd t = expected_matches app_name content keywords /\
  (feq (fst t) c0 = true <-> snd t = []).
Proof.
  intros Hc Hb Ht.
  destruct (calculate_matches app_name content keywords Hc) as [s Hs].
  assert (snd t = expected_matches app_name content keywords) as Hm
    by (rewrite Ht in Hs; injection Hs as ->; reflexivity).
  destruct (calculate_exact app_name content keywords t Hc Hb Ht)
    as (_ & He & Hr).
  split; trivial. split.
  - intros Hz. rewrite He in Hz. apply of_halves_zero in Hz; trivial.
    rewrite Hm in *. now apply expected_matches_none.
  - intros Hn. rewrite He, Hn. reflexivity.
Qed.

Lemma learned_none (a content : string) (self : classifier) :
  fst (_check_learned_patterns a content self) = Ok None ->
  check_items a content (learned_patterns self) = None.
Proof.
  unfold _check_learned_patterns, bindM, get, ret. cbn [fst].
  intros H. now injection H.
Qed.

(** X3.  When no learned pattern applies, [classify] gives the fixed
    default (Personal, 0.5, no matched keywords) exactly when none of the
    three profiles has a single match in the normalized input; one match
    anywhere is enough for a proper classification. *)
Theorem default_iff_nothing_matches
  (self : classifier) (app_name title body : string) :
  initialized self ->
  fst (_check_learned_patterns (strip (lower app_name))
         (strip (lower (title ++ " " ++ body))) self) = Ok None ->
  fst (classify app_name title body self) = Ok default_result <->
  expected_matches (strip (lower app_name))
    (strip (lower (title ++ " " ++ body))) (work_keywords self) = [] /\
  expected_matches (strip (lower app_name))
    (strip (lower (title ++ " " ++ body))) (personal_keywords self) = [] /\
  expected_matches (strip (lower app_name))
    (strip (lower (title ++ " " ++ body))) (junk_keywords self) = [].
Proof.
  intros Hi Hnone. apply learned_none in Hnone.
  destruct (keywords_run self (strip (lower app_name))
              (strip (lower (title ++ " " ++ body))) Hi)
    as (tw & tp & tj & b & s & t & text & Ew & Ep & Ej & Es & _ & _ & _ & _
        & Ht & Hrun).
  rewrite classify_run, Hnone, Hrun; cbn [fst].
  destruct Hi as (-> & -> & ->).
  destruct initial_weights as (Bw & Bp & Bj).
  destruct (tally_zero _ _ _ _ work_patterns_compile Bw Ew) as [Mw Zw].
  destruct (tally_zero _ _ _ _ personal_patterns_compile Bp Ep) as [Mp Zp].
  destruct (tally_zero _ _ _ _ junk_patterns_compile Bj Ej) as [Mj Zj].
  rewrite <- Mw, <- Mp, <- Mj.
  destruct (score_total (strip (lower app_name))
              (strip (lower (title ++ " " ++ body))) _ work_patterns_compile)
    as (x & Ex & Nw).
  destruct (score_total (strip (lower app_name))
              (strip (lower (title ++ " " ++ body))) _
              personal_patterns_compile) as (y & Ey & Np).
  destruct (score_total (strip (lower app_name))
              (strip (lower (title ++ " " ++ body))) _ junk_patterns_compile)
    as (z & Ez & Nj).
  assert (x = tw) by congruence. assert (y = tp) by congruence.
  assert (z = tj) by congruence. subst x y z.
  pose proof (winner_cases _ _ _ _ _ _ _ _ _ Nw Np Nj Es) as Hcase.
  split.
  - intros Hd.
    assert (feq (score_of b) c0 = true) as Hz.
    { destruct (feq (score_of b) c0); trivial.
      injection Hd as _ _ Hr _.
      destruct (reasoning_shape _ _ _ _ Ht) as [rest Hrest].
      rewrite Hrest in Hr. discriminate. }
    assert (feq (fst tw) c0 && feq (fst tp) c0 && feq (fst tj) c0 = true) as Ha.
    { destruct Hcase as [(-> & H1 & H2)|[(-> & H1 & H2)|(-> & H1 & H2)]];
        cbn [score_of fst snd] in Hz.
      - now apply all_zero_below.
      - rewrite (nonneg_below_zero (fst tw) (fst tp)),
          (nonneg_below_zero (fst tj) (fst tp)), Hz; auto using flt_fle.
      - rewrite (nonneg_below_zero (fst tw) (fst tj)),
          (nonneg_below_zero (fst tp) (fst tj)), Hz; auto using flt_fle. }
    apply andb_prop in Ha as [Ha H3]. apply andb_prop in Ha as [H1 H2].
    repeat split; [now apply Zw | now apply Zp | now apply Zj].
  - intros (H1 & H2 & H3).
    apply Zw in H1. apply Zp in H2. apply Zj in H3.
    assert (feq (score_of b) c0 = true) as Hz
      by (destruct Hcase as [(-> & _)|[(-> & _)|(-> & _)]]; assumption).
    now rewrite Hz.
Qed.

Lemma default_iff_nothing_matches_witness :
  fst (classify "Unknown App" "Hello" "World" (NotificationClassifier None))
    = Ok default_result <->
  expected_matches "unknown app" "hello world" initial_work_keywords = [] /\
  expected_matches "unknown app" "hello world" initial_personal_keywords = []
  /\
  expected_matches "unknown app" "hello world" initial_junk_keywords = [].
Proof.
  apply (default_iff_nothing_matches (NotificationClassifier None)
           "Unknown App" "Hello" "World").
  - repeat split.
  - vm_compute. reflexivity.
Defined.

(** X4.  When no learned pattern applies and something matched, the
    category returned is the one with the largest score, and a tie goes to
    the category that comes first in the order Work, Personal, Junk: Work
    wins when no score is above its own, Personal when it is above Work
    and Junk is not above it, Junk only when it is above both.  The
    matched keywords are those of the winner. *)
Theorem largest_score_wins_and_ties_go_to_the_first
  (self : classifier) (app_name title body : string) (tw tp tj : tally) :
  initialized self ->
  fst (_check_learned_patterns (strip (lower app_name))
         (strip (lower (title ++ " " ++ body))) self) = Ok None ->
  _calculate_category_score (strip (lower app_name))
    (strip (lower (title ++ " " ++ body))) (work_keywords self) = Ok tw ->
  _calculate_category_score (strip (lower app_name))
    (strip (lower (title ++ " " ++ body))) (personal_keywords self) = Ok tp ->
  _calculate_category_score (strip (lower app_name))
    (strip (lower (title ++ " " ++ body))) (junk_keywords self) = Ok tj ->
  feq (fst tw) c0 && feq (fst tp) c0 && feq (fst tj) c0 = false ->
  exists r,
    fst (classify app_name title body self) = Ok r /\
    (category r = WORK <->
       fle (fst tp) (fst tw) = true /\ fle (fst tj) (fst tw) = true) /\
    (category r = PERSONAL <->
       flt (fst tw) (fst tp) = true /\ fle (fst tj) (fst tp) = true) /\
    (category r = JUNK <->
       flt (fst tw) (fst tj) = true /\ flt (fst tp) (fst tj) = true) /\
    matched_keywords r =
      snd (match category r with
           | WORK => tw | PERSONAL => tp | JUNK => tj
           end).
Proof.
  intros Hi Hnone Hw Hp Hj Hsome. apply learned_none in Hnone.
  destruct (keywords_run self (strip (lower app_name))
              (strip (lower (title ++ " " ++ body))) Hi)
    as (tw' & tp' & tj' & b & s & t & text & Ew & Ep & Ej & Es & _ & _ & _ & _
        & Ht & Hrun).
  rewrite classify_run, Hnone, Hrun; cbn [fst].
  destruct Hi as (Iw & Ip & Ij). rewrite Iw in Hw. rewrite Ip in Hp.
  rewrite Ij in Hj.
  assert (tw' = tw) by congruence. assert (tp' = tp) by congruence.
  assert (tj' = tj) by congruence. subst tw' tp' tj'.
  destruct (score_total (strip (lower app_name))
              (strip (lower (title ++ " " ++ body))) _ work_patterns_compile)
    as (x & Ex & Nw).
  destruct (score_total (strip (lower app_name))
              (strip (lower (title ++ " " ++ body))) _
              personal_patterns_compile) as (y & Ey & Np).
  destruct (score_total (strip (lower app_name))
              (strip (lower (title ++ " " ++ body))) _ junk_patterns_compile)
    as (z & Ez & Nj).
  assert (x = tw) by congruence. assert (y = tp) by congruence.
  assert (z = tj) by congruence. subst x y z.
  pose proof (winner_cases _ _ _ _ _ _ _ _ _ Nw Np Nj Es) as Hcase.
  assert (feq (score_of b) c0 = false) as Hz.
  { destruct (feq (score_of b) c0) eqn:Hz; trivial. rewrite <- Hsome.
    destruct Hcase as [(-> & H1 & H2)|[(-> & H1 & H2)|(-> & H1 & H2)]];
      cbn [score_of fst snd] in Hz.
    - symmetry. now apply all_zero_below.
    - rewrite (nonneg_below_zero (fst tw) (fst tp)),
        (nonneg_below_zero (fst tj) (fst tp)), Hz; auto using flt_fle.
    - rewrite (nonneg_below_zero (fst tw) (fst tj)),
        (nonneg_below_zero (fst tp) (fst tj)), Hz; auto using flt_fle. }
  rewrite Hz. eexists; split; [reflexivity|]. cbn [category matched_keywords].
  destruct Hcase as [(-> & H1 & H2)|[(-> & H1 & H2)|(-> & H1 & H2)]];
    cbn [fst snd].
  - repeat split; trivial; try discriminate.
    + intros [H3 _]. apply flt_not_fle in H3. congruence.
    + intros [H3 _]. apply flt_not_fle in H3. congruence.
  - repeat split; trivial; try discriminate.
    + intros [H3 _]. apply flt_not_fle in H1. congruence.
    + intros [_ H3]. apply flt_not_fle in H3. congruence.
  - repeat split; trivial; try discriminate.
    + intros [_ H3]. apply flt_not_fle in H1. congruence.
    + intros [_ H3]. apply flt_not_fle in H2. congruence.
Qed.


Lemma largest_score_wins_witness :
  exists r,
    fst (classify "Calendar" "" "" (NotificationClassifier None)) = Ok r /\
    (category r = WORK <-> fle c3 c3 = true /\ fle c0 c3 = true) /\
    (category r = PERSONAL <-> flt c3 c3 = true /\ fle c0 c3 = true) /\
    (category r = JUNK <-> flt c3 c0 = true /\ flt c3 c0 = true) /\
    matched_keywords r =
      snd (match category r with
           | WORK => (c3, ["app:calendar"])
           | PERSONAL => (c3, ["app:calendar"])
           | JUNK => (c0, [])
           end).
Proof.
  apply (largest_score_wins_and_ties_go_to_the_first
           (NotificationClassifier None) "Calendar" "" ""
           (c3, ["app:calendar"]) (c3, ["app:calendar"]) (c0, [])).
  - repeat split.
  - vm_compute. reflexivity.
  - vm_compute. reflexivity.
  - vm_compute. reflexivity.
  - vm_compute. reflexivity.
  - vm_compute. reflexivity.
Defined.


(** ** The confidence of a result *)

Lemma above_threshold_above_half (v : float) :
  fgt v c0_7 = true -> fle c0_5 v = true.
Proof.
  intros H. rewrite fgt_flt in H.
  assert (nonneg v = true) as Nv
    by (destruct v as [[|]|[|]| |[|] m e]; trivial; discriminate).
  apply (fle_trans c0_5 c0_7 v); trivial; try reflexivity.
  now apply flt_fle.
Qed.

Lemma below_word_cap_below_cap (v : float) :
  fle v c0_9 = true -> fle v c0_95 = true.
Proof.
  apply fle_finite_mono. right. split; [reflexivity|].
  apply Pos.leb_le. reflexivity.
Qed.

Lemma learned_confidence_cap (a content : string) (l : learned)
  (r : ClassificationResult) :
  store_ok l -> check_items a content l = Some r ->
  fle (confidence r) c0_95 = true.
Proof.
  intros Hl Hr.
  destruct (check_items_sound _ _ _ _ Hr) as (_ & _ & p & Hp & Hv).
  unfold store_ok in Hl. rewrite Forall_forall in Hl.
  destruct (Hl p Hp) as (apps & cont & Ea & Ec & Fa & Fc).
  unfold get_apps, get_content in Hv. rewrite Ea, Ec in Hv.
  rewrite Forall_forall in Fa, Fc.
  destruct Hv as [Hv|Hv].
  - now destruct (Fa _ Hv).
  - destruct (Fc _ Hv). now apply below_word_cap_below_cap.
Qed.

Lemma classify_confidence
  (self : classifier) (app_name title body : string) :
  reachable self ->
  exists r,
    fst (classify app_name title body self) = Ok r /\
    fle c0_5 (confidence r) = true /\ fle (confidence r) c0_95 = true /\
    (startswith (reasoning r) "Learned from user feedback" = true ->
     fgt (confidence r) c0_7 = true).
Proof.
  intros Hr. destruct (reachable_sound self Hr) as [[Hs _] Hi].
  rewrite classify_run; cbn [fst].
  destruct (check_items _ _ _) as [r|] eqn:E.
  - exists r. pose proof (check_items_above _ _ _ _ E) as Ha.
    repeat split; trivial.
    + now apply above_threshold_above_half.
    + eapply learned_confidence_cap; eauto.
  - destruct (keywords_run self (strip (lower app_name))
                (strip (lower (title ++ " " ++ body))) Hi)
      as (tw & tp & tj & b & s & t & text & _ & _ & _ & _ & _ & _ & _ & _
          & Ht & ->).
    eexists; split; [reflexivity|].
    destruct (feq (score_of b) c0); cbn [confidence reasoning].
    + repeat split; trivial.
    + destruct (clamp_bounds
                  (SFdiv prec emax (fsub (score_of b) (score_of s))
                     (py_max (score_of b) c1))).
      repeat split; trivial.
      destruct (reasoning_shape _ _ _ _ Ht) as [rest ->]. discriminate.
Qed.

(** X5.  On every classifier object that can be reached, the confidence
    [classify] returns lies between 0.5 and 0.95, whatever the input; a
    result that comes from the learned patterns has a confidence above
    0.7. *)
Theorem confidence_between_half_and_cap
  (self : classifier) (app_name title body : string) :
  reachable self ->
  exists r,
    fst (classify app_name title body self) = Ok r /\
    fle c0_5 (confidence r) = true /\ fle (confidence r) c0_95 = true /\
    (startswith (reasoning r) "Learned from user feedback" = true ->
     fgt (confidence r) c0_7 = true).
Proof. apply classify_confidence. Qed.

Lemma confidence_between_half_and_cap_witness :
  exists r,
    fst (classify "Slack" "Meeting reminder" "" taught_personal) = Ok r /\
    fle c0_5 (confidence r) = true /\ fle (confidence r) c0_95 = true /\
    (startswith (reasoning r) "Learned from user feedback" = true ->
     fgt (confidence r) c0_7 = true).
Proof.
  apply (confidence_between_half_and_cap taught_personal).
  unfold taught_personal, teach. repeat apply reach_learn. apply reach_plain.
Defined.


(** ** Properties of the records that every reachable object has *)

Section DictShape.
Context {K V : Type}.
Variable keq : K -> K -> bool.
Hypothesis keq_eq : forall a b, keq a b = true <-> a = b.

Lemma dict_get_None (d : dict K V) (k : K) :
  dict_get keq d k = None <-> ~ In k (dict_keys d).
Proof.
  induction d as [|[k' v'] d IH]; simpl.
  - tauto.
  - destruct (keq k' k) eqn:E.
    + apply keq_eq in E. split; [discriminate | tauto].
    + rewrite IH. split; [|tauto]. intros H [->|H']; [|tauto].
      assert (keq k k = true) by now apply keq_eq. congruence.
Qed.

Lemma dict_get_Some (d : dict K V) (k : K) (v : V) :
  dict_get keq d k = Some v -> In (k, v) d.
Proof.
  induction d as [|[k' v'] d IH]; simpl; [discriminate|].
  destruct (keq k' k) eqn:E.
  - apply keq_eq in E. intros [= ->]. left. now subst.
  - right; auto.
Qed.

Lemma dict_set_keys (d : dict K V) (k : K) (v : V) :
  dict_keys (dict_set keq d k v) =
    if dict_mem keq d k then dict_keys d else (dict_keys d ++ [k])%list.
Proof.
  unfold dict_mem. induction d as [|[k' v'] d IH]; simpl; trivial.
  destruct (keq k' k) eqn:E; simpl; trivial.
  rewrite IH. now destruct (dict_get keq d k).
Qed.

Lemma dict_set_NoDup (d : dict K V) (k : K) (v : V) :
  NoDup (dict_keys d) -> NoDup (dict_keys (dict_set keq d k v)).
Proof.
  intros Hd. rewrite dict_set_keys. unfold dict_mem.
  destruct (dict_get keq d k) eqn:E; trivial.
  apply dict_get_None in E.
  apply NoDup_app; trivial.
  - repeat constructor; simpl; tauto.
  - intros x Hx [<-|[]]. contradiction.
Qed.

Lemma dict_set_entries (Q : K * V -> Prop) (d : dict K V) (k : K) (v : V) :
  Forall Q d -> Q (k, v) -> Forall Q (dict_set keq d k v).
Proof.
  intros Hd Hv; induction d as [|[k' v'] d IH]; simpl.
  - constructor; trivial.
  - inversion Hd; subst.
    destruct (keq k' k) eqn:E; constructor; auto.
    apply keq_eq in E. now subst.
Qed.

Lemma dict_get_NoDup (d : dict K V) (k : K) (v : V) :
  NoDup (dict_keys d) -> In (k, v) d -> dict_get keq d k = Some v.
Proof.
  induction d as [|[k' v'] d IH]; simpl; [tauto|].
  intros Hd [[= -> ->]|Hin].
  - assert (keq k k = true) as -> by now apply keq_eq. reflexivity.
  - inversion Hd; subst. destruct (keq k' k) eqn:E; auto.
    apply keq_eq in E; subst k'. exfalso. apply H1.
    change k with (fst (k, v)). now apply in_map.
Qed.
End DictShape.

Section Everywhere.
Variable P : patterns -> Prop.
Hypothesis P_empty : P empty_patterns.
Hypothesis P_learn :
  forall p a content, P p -> P (learned_record p a content).

Lemma everywhere_fresh : Forall P (dict_values fresh_learned).
Proof. repeat constructor; exact P_empty. Qed.

Lemma everywhere_save (items : list (NotificationCategory * patterns)) :
  forall r : redis,
    Forall P (dict_values items) -> Forall P (dict_values (r_data r)) ->
    Forall P (dict_values (r_data (save_loop items r))).
Proof.
  induction items as [|[c p] items IH]; intros r Hi Hr; simpl; trivial.
  inversion Hi; subst. unfold redis_setex.
  destruct (r_up r); trivial.
  apply IH; trivial. simpl. now apply dict_set_values.
Qed.

Lemma everywhere_delete (cats : list NotificationCategory) :
  forall r : redis,
    Forall P (dict_values (r_data r)) ->
    Forall P (dict_values (r_data (delete_loop cats r))).
Proof.
  induction cats as [|c cats IH]; intros r Hr; simpl; trivial.
  unfold redis_delete. destruct (r_up r); trivial.
  apply IH. simpl. now apply dict_del_values.
Qed.

Lemma everywhere_load (r : redis) (cats : list NotificationCategory) :
  forall l : learned,
    Forall P (dict_values (r_data r)) -> Forall P (dict_values l) ->
    Forall P (dict_values (load_loop r cats l)).
Proof.
  induction cats as [|c cats IH]; intros l Hr Hl; simpl; trivial.
  unfold redis_get. destruct (r_up r); trivial.
  destruct (dict_get String.eqb (r_data r) (redis_key c)) as [p|] eqn:E.
  - apply IH; trivial. apply dict_set_values; trivial.
    apply dict_get_In in E. rewrite Forall_forall in Hr. auto.
  - now apply IH.
Qed.

Lemma everywhere_new (rc : option redis) :
  match rc with
  | Some r => Forall P (dict_values (r_data r))
  | None => True
  end ->
  everywhere P (NotificationClassifier rc).
Proof.
  intros Hc. rewrite new_classifier_eq. split; [|exact Hc].
  cbn [learned_patterns]. destruct rc as [r|].
  - apply everywhere_load; trivial. apply everywhere_fresh.
  - apply everywhere_fresh.
Qed.

Lemma everywhere_learn (feedback : UserFeedback) (self : classifier) :
  everywhere P self -> everywhere P (snd (learn_from_feedback feedback self)).
Proof.
  intros [Hs Hc]. rewrite learn_from_feedback_run, save_run.
  assert (Forall P
            (dict_values
               (learned_after (learned_patterns self)
                  (actual_category feedback)
                  (strip (lower (app_name feedback)))
                  (strip (lower (title feedback ++ " " ++ body feedback))))))
    as Hs'.
  { apply dict_set_values; trivial. apply P_learn. unfold record_of.
    destruct (cget (learned_patterns self) (actual_category feedback))
      as [p|] eqn:E; trivial.
    apply dict_get_In in E. rewrite Forall_forall in Hs. auto. }
  cbn [redis_client set_learned].
  destruct (redis_client self) as [r|] eqn:E; split; simpl; trivial.
  - now apply everywhere_save.
  - now rewrite E.
Qed.

Lemma everywhere_reset (self : classifier) :
  everywhere P self -> everywhere P (snd (reset_learned_patterns self)).
Proof.
  intros [Hs Hc]. rewrite reset_run.
  split; cbn [snd learned_patterns redis_client].
  - apply everywhere_fresh.
  - destruct (redis_client self) as [r|]; cbn [option_map]; trivial.
    now apply everywhere_delete.
Qed.

Lemma everywhere_reachable (self : classifier) :
  reachable self -> everywhere P self.
Proof.
  induction 1 as [ |up|self _ IH|self r r' _ IH Hr Hstep
                  |self a t b _ IH|self fb _ IH|self _ IH|self _ IH].
  - now apply everywhere_new.
  - apply everywhere_new. constructor.
  - apply everywhere_new. apply IH.
  - destruct IH as [Hs Hc]. rewrite Hr in Hc. split; simpl; trivial.
    destruct Hstep; simpl; trivial. now apply dict_del_values.
  - now rewrite classify_state.
  - now apply everywhere_learn.
  - now rewrite stats_state.
  - now apply everywhere_reset.
Qed.
End Everywhere.


(** ** The levels of confidence *)

Lemma app_levels_start : In (raise_app None) app_levels.
Proof. now left. Qed.

Lemma word_levels_start : In (raise_word None) word_levels.
Proof. now left. Qed.

Lemma app_levels_closed (v : float) :
  In v app_levels ->
  In (raise_app (Some v)) app_levels /\ fle v (raise_app (Some v)) = true.
Proof.
  unfold app_levels; simpl.
  intros [<-|[<-|[<-|[<-|[<-|[]]]]]]; vm_compute; intuition.
Qed.

Lemma word_levels_closed (v : float) :
  In v word_levels ->
  In (raise_word (Some v)) word_levels /\ fle v (raise_word (Some v)) = true.
Proof.
  unfold word_levels; simpl.
  intros [<-|[<-|[<-|[<-|[<-|[<-|[<-|[<-|[]]]]]]]]]; vm_compute; intuition.
Qed.

Lemma app_levels_nonneg (v : float) : In v app_levels -> nonneg v = true.
Proof.
  unfold app_levels; simpl.
  intros [<-|[<-|[<-|[<-|[<-|[]]]]]]; reflexivity.
Qed.

Lemma word_levels_nonneg (v : float) : In v word_levels -> nonneg v = true.
Proof.
  unfold word_levels; simpl.
  intros [<-|[<-|[<-|[<-|[<-|[<-|[<-|[<-|[]]]]]]]]]; reflexivity.
Qed.

Lemma raise_app_level (d : dict string float) (k : string) :
  Forall app_entry_ok d -> In (raise_app (sget d k)) app_levels.
Proof.
  intros Hd. destruct (sget d k) as [v|] eqn:E.
  - apply (dict_get_Some String.eqb String.eqb_eq) in E.
    rewrite Forall_forall in Hd. destruct (Hd _ E) as [_ Hv].
    now apply app_levels_closed.
  - apply app_levels_start.
Qed.

Lemma raise_word_level (d : dict string float) (k : string) :
  Forall word_entry_ok d -> In (raise_word (sget d k)) word_levels.
Proof.
  intros Hd. destruct (sget d k) as [v|] eqn:E.
  - apply (dict_get_Some String.eqb String.eqb_eq) in E.
    rewrite Forall_forall in Hd. destruct (Hd _ E) as [_ Hv].
    now apply word_levels_closed.
  - apply word_levels_start.
Qed.

Lemma write_words_tidy (ws : list string) :
  Forall (fun w => (3 <? String.length w)%nat = true) ws ->
  forall d : dict string float,
    NoDup (dict_keys d) -> Forall word_entry_ok d ->
    exists d', fold_left write_word_opt ws (Some d) = Some d' /\
               NoDup (dict_keys d') /\ Forall word_entry_ok d'.
Proof.
  induction 1 as [|w ws Hw _ IH]; intros d Hn Hd; simpl.
  - now exists d.
  - apply IH; unfold write_word, sset.
    + now apply dict_set_NoDup; [apply String.eqb_eq|].
    + apply dict_set_entries; trivial; [apply String.eqb_eq|].
      split; trivial. now apply raise_word_level.
Qed.

Lemma written_tokens_long (content : string) :
  Forall (fun w => (3 <? String.length w)%nat = true)
    (written_tokens content).
Proof. apply filter_Forall. Qed.

Lemma tidy_empty : tidy empty_patterns.
Proof. exists [], []; repeat split; constructor. Qed.

Lemma tidy_learn (p : patterns) (a content : string) :
  tidy p -> tidy (learned_record p a content).
Proof.
  intros (apps & cont & Ha & Hc & Na & Nc & Fa & Fc).
  destruct (write_words_tidy _ (written_tokens_long content) cont Nc Fc)
    as (d' & E & N' & F').
  unfold learned_record, get_apps. rewrite Ha, Hc, E.
  destruct (truthy a) eqn:Ta.
  - eexists _, d'; repeat split; trivial; unfold sset.
    + now apply dict_set_NoDup; [apply String.eqb_eq|].
    + apply dict_set_entries; trivial; [apply String.eqb_eq|].
      split; trivial. now apply raise_app_level.
  - exists apps, d'; repeat split; trivial.
Qed.

Lemma reachable_tidy (self : classifier) :
  reachable self -> everywhere tidy self.
Proof. apply everywhere_reachable; [apply tidy_empty | apply tidy_learn]. Qed.

Lemma reachable_record_tidy (self : classifier) (c : NotificationCategory)
  (p : patterns) :
  reachable self -> cget (learned_patterns self) c = Some p -> tidy p.
Proof.
  intros Hr Hp. destruct (reachable_tidy self Hr) as [Hs _].
  apply dict_get_In in Hp. rewrite Forall_forall in Hs. auto.
Qed.

(** X6.  In every object that can be reached, a stored confidence is one
    of the few values its track passes through: 0.6, 0.7,
    0.7999999999999999, 0.8999999999999999 or 0.95 for an app, and one of
    the eight values from 0.55 up to 0.9 for a content word.  No app name
    in the store is empty, and every stored content word is longer than
    three characters. *)
Theorem stored_confidences_are_levels
  (self : classifier) (c : NotificationCategory) (p : patterns)
  (k : string) (v : float) :
  reachable self ->
  cget (learned_patterns self) c = Some p ->
  (sget (get_apps p) k = Some v -> In v app_levels /\ k <> "") /\
  (sget (get_content p) k = Some v ->
   In v word_levels /\ (3 < String.length k)%nat).
Proof.
  intros Hr Hp.
  destruct (reachable_record_tidy self c p Hr Hp)
    as (apps & cont & Ha & Hc & _ & _ & Fa & Fc).
  unfold get_apps, get_content. rewrite Ha, Hc.
  rewrite Forall_forall in Fa, Fc. split; intros E;
    apply (dict_get_Some String.eqb String.eqb_eq) in E.
  - destruct (Fa _ E) as [Ht Hv]. split; trivial.
    intros ->. discriminate.
  - destruct (Fc _ E) as [Ht Hv]. split; trivial.
    now apply Nat.ltb_lt.
Qed.


Lemma stored_tidy_values (self : classifier) (c : NotificationCategory)
  (p : patterns) :
  reachable self -> cget (learned_patterns self) c = Some p ->
  (forall k v, sget (get_apps p) k = Some v -> In v app_levels) /\
  (forall k v, sget (get_content p) k = Some v -> In v word_levels).
Proof.
  intros Hr Hp.
  destruct (reachable_record_tidy self c p Hr Hp)
    as (apps & cont & Ha & Hc & _ & _ & Fa & Fc).
  unfold get_apps, get_content. rewrite Ha, Hc.
  rewrite Forall_forall in Fa, Fc. split; intros k v E;
    apply (dict_get_Some String.eqb String.eqb_eq) in E.
  - now destruct (Fa _ E).
  - now destruct (Fc _ E).
Qed.

Lemma stored_confidences_are_levels_witness :
  In (raised raise_app 2) app_levels /\ "slack" <> "".
Proof.
  apply (stored_confidences_are_levels taught_personal PERSONAL
           (record_of (learned_patterns taught_personal) PERSONAL)
           "slack" (raised raise_app 2)).
  - unfold taught_personal, teach. repeat apply reach_learn. apply reach_plain.
  - vm_compute. reflexivity.
  - vm_compute. reflexivity.
Defined.

(** ** A feedback only raises *)

Lemma raise_word_iter (n : nat) (v : float) :
  In v word_levels ->
  exists v',
    Nat.iter n (fun o => Some (raise_word o)) (Some v) = Some v' /\
    In v' word_levels /\ fle v v' = true.
Proof.
  intros Hv. induction n as [|n (v' & E & Hin & Hle)].
  - exists v. repeat split; trivial.
    now apply fle_refl, word_levels_nonneg.
  - exists (raise_word (Some v')). rewrite Nat.iter_succ, E.
    destruct (word_levels_closed v' Hin) as [Hin' Hle'].
    repeat split; trivial.
    apply (fle_trans v v'); auto using word_levels_nonneg.
Qed.

(** X7.  A feedback never lowers and never removes a learned confidence,
    in any category: on an object that can be reached, every key of the
    store is still there after [learn_from_feedback], with a confidence
    that is at least what it was.  There is no unlearning short of a
    reset. *)
Theorem feedback_never_lowers
  (self : classifier) (feedback : UserFeedback) (c : NotificationCategory)
  (p : patterns) (k : string) (v : float) :
  reachable self ->
  cget (learned_patterns self) c = Some p ->
  exists p',
    cget (learned_patterns (snd (learn_from_feedback feedback self))) c
      = Some p' /\
    (sget (get_apps p) k = Some v ->
     exists v', sget (get_apps p') k = Some v' /\ fle v v' = true) /\
    (sget (get_content p) k = Some v ->
     exists v', sget (get_content p') k = Some v' /\ fle v v' = true).
Proof.
  intros Hr Hp.
  destruct (stored_tidy_values self c p Hr Hp) as [Ha Hc].
  destruct (learned_of_learn feedback self) as [_ ->].
  unfold learned_after.
  destruct (category_eqb c (actual_category feedback)) eqn:E.
  - apply category_eqb_eq in E; subst c.
    eexists; split; [apply cget_cset_same|].
    unfold record_of; rewrite Hp.
    rewrite learned_record_apps, learned_record_content. split.
    + intros Hv.
      destruct (truthy (strip (lower (app_name feedback))));
        [|exists v; split; trivial;
          apply fle_refl, app_levels_nonneg, (Ha k v Hv)].
      rewrite sget_sset.
      destruct (String.eqb_spec (strip (lower (app_name feedback))) k)
        as [->|Hne].
      * rewrite Hv. eexists; split; [reflexivity|].
        apply app_levels_closed, (Ha k v Hv).
      * exists v; split; trivial.
        apply fle_refl, app_levels_nonneg, (Ha k v Hv).
    + intros Hv. rewrite write_words_lookup, Hv.
      destruct (raise_word_iter
                  (count_occ string_dec
                     (written_tokens
                        (strip (lower (title feedback ++ " " ++ body feedback))))
                     k) v (Hc k v Hv)) as (v' & E & _ & Hle).
      now exists v'.
  - exists p. split.
    + rewrite cget_cset_other; trivial.
      intros ->. destruct (actual_category feedback); discriminate.
    + split; intros Hv; exists v; split; trivial.
      * apply fle_refl, app_levels_nonneg, (Ha k v Hv).
      * apply fle_refl, word_levels_nonneg, (Hc k v Hv).
Qed.


Lemma feedback_never_lowers_witness :
  exists p',
    cget (learned_patterns
            (snd (learn_from_feedback
                    (feedback_on "Slack" "" "" WORK PERSONAL 0)
                    taught_personal))) PERSONAL = Some p' /\
    (sget (get_apps (record_of (learned_patterns taught_personal) PERSONAL))
       "slack" = Some (raised raise_app 2) ->
     exists v', sget (get_apps p') "slack" = Some v' /\
                fle (raised raise_app 2) v' = true) /\
    (sget (get_content (record_of (learned_patterns taught_personal) PERSONAL))
       "slack" = Some (raised raise_app 2) ->
     exists v', sget (get_content p') "slack" = Some v' /\
                fle (raised raise_app 2) v' = true).
Proof.
  apply (feedback_never_lowers taught_personal
           (feedback_on "Slack" "" "" WORK PERSONAL 0) PERSONAL
           (record_of (learned_patterns taught_personal) PERSONAL)
           "slack" (raised raise_app 2)).
  - unfold taught_personal, teach. repeat apply reach_learn. apply reach_plain.
  - vm_compute. reflexivity.
Defined.

(** ** How many corrections it takes *)

Lemma record_of_learned_after (l : learned) (c : NotificationCategory)
  (a content : string) :
  record_of (learned_after l c a content) c =
    learned_record (record_of l c) a content.
Proof.
  unfold learned_after. unfold record_of at 1. now rewrite cget_cset_same.
Qed.

Lemma learn_app_lookup (feedback : UserFeedback) (self : classifier) :
  truthy (strip (lower (app_name feedback))) = true ->
  sget (get_apps
          (record_of
             (learned_patterns (snd (learn_from_feedback feedback self)))
             (actual_category feedback)))
    (strip (lower (app_name feedback))) =
  Some (raise_app
          (sget (get_apps
                   (record_of (learned_patterns self)
                      (actual_category feedback)))
             (strip (lower (app_name feedback))))).
Proof.
  intros Ht. destruct (learned_of_learn feedback self) as [_ ->].
  rewrite record_of_learned_after, learned_record_apps, Ht, sget_sset.
  now rewrite String.eqb_refl.
Qed.

Lemma learn_word_lookup (feedback : UserFeedback) (self : classifier)
  (w : string) :
  sget (get_content
          (record_of
             (learned_patterns (snd (learn_from_feedback feedback self)))
             (actual_category feedback))) w =
  Nat.iter
    (count_occ string_dec
       (written_tokens
          (strip (lower (title feedback ++ " " ++ body feedback)))) w)
    (fun o => Some (raise_word o))
    (sget (get_content
             (record_of (learned_patterns self) (actual_category feedback)))
       w).
Proof.
  destruct (learned_of_learn feedback self) as [_ ->].
  rewrite record_of_learned_after, learned_record_content.
  apply write_words_lookup.
Qed.

Lemma raised_S (raise : option float -> float) (n : nat) :
  raised raise (S n) = raise (Some (raised raise n)).
Proof. reflexivity. Qed.

Lemma raised_app_cap (n : nat) : (4 <= n)%nat -> raised raise_app n = c0_95.
Proof.
  induction 1 as [|n _ IH].
  - vm_compute. reflexivity.
  - rewrite raised_S, IH. vm_compute. reflexivity.
Qed.

Lemma raised_word_cap (n : nat) : (7 <= n)%nat -> raised raise_word n = c0_9.
Proof.
  induction 1 as [|n _ IH].
  - vm_compute. reflexivity.
  - rewrite raised_S, IH. vm_compute. reflexivity.
Qed.

Lemma raised_app_above (n : nat) :
  fgt (raised raise_app n) c0_7 = (2 <=? n)%nat.
Proof.
  do 4 (destruct n as [|n]; [vm_compute; reflexivity|]).
  rewrite raised_app_cap by lia. reflexivity.
Qed.

Lemma raised_word_above (n : nat) :
  fgt (raised raise_word n) c0_7 = (3 <=? n)%nat.
Proof.
  do 7 (destruct n as [|n]; [vm_compute; reflexivity|]).
  rewrite raised_word_cap by lia. reflexivity.
Qed.

(** X8.  An app name that the store of a category does not yet hold gets
    the confidence 0.6 with the first correction to that category, 0.7
    with the second, 0.7999999999999999 with the third, and so on up to
    0.95.  It is above the threshold 0.7 of the learned patterns from the
    third correction on, and not before: the second gives exactly 0.7,
    which is not above the threshold. *)
Theorem third_correction_of_an_app_overrides
  (self : classifier) (feedback : UserFeedback) (n : nat) :
  truthy (strip (lower (app_name feedback))) = true ->
  sget (get_apps
          (record_of (learned_patterns self) (actual_category feedback)))
    (strip (lower (app_name feedback))) = None ->
  sget (get_apps
          (record_of (learned_patterns (teach (S n) feedback self))
             (actual_category feedback)))
    (strip (lower (app_name feedback))) = Some (raised raise_app n) /\
  (fgt (raised raise_app n) c0_7 = true <-> (2 <= n)%nat) /\
  (n = 1%nat -> raised raise_app n = c0_7).
Proof.
  intros Ht Hnone. split; [|split].
  - induction n as [|n IH]; cbn [teach]; rewrite (learn_app_lookup _ _ Ht).
    + cbn [teach]. now rewrite Hnone.
    + cbn [teach] in IH. now rewrite IH.
  - rewrite raised_app_above. apply Nat.leb_le.
  - intros ->. vm_compute. reflexivity.
Qed.

Lemma third_correction_witness :
  sget (get_apps
          (record_of
             (learned_patterns
                (teach 3 (feedback_on "Slack" "" "" WORK PERSONAL 0)
                   (NotificationClassifier None)))
             PERSONAL)) "slack" = Some (raised raise_app 2) /\
  (fgt (raised raise_app 2) c0_7 = true <-> (2 <= 2)%nat) /\
  (2%nat = 1%nat -> raised raise_app 2 = c0_7).
Proof.
  apply (third_correction_of_an_app_overrides (NotificationClassifier None)
           (feedback_on "Slack" "" "" WORK PERSONAL 0) 2).
  - reflexivity.
  - reflexivity.
Defined.

(** X9.  A content word that the store of a category does not yet hold,
    and that the feedback writes once, gets the confidence 0.55 with the
    first correction and 0.05 more with each further one, as floats add,
    up to 0.9.  It is above the threshold 0.7 from the fourth correction
    on, and not before; the fourth gives 0.7000000000000002. *)
Theorem fourth_correction_of_a_word_overrides
  (self : classifier) (feedback : UserFeedback) (w : string) (n : nat) :
  count_occ string_dec
    (written_tokens (strip (lower (title feedback ++ " " ++ body feedback))))
    w = 1%nat ->
  sget (get_content
          (record_of (learned_patterns self) (actual_category feedback)))
    w = None ->
  sget (get_content
          (record_of (learned_patterns (teach (S n) feedback self))
             (actual_category feedback)))
    w = Some (raised raise_word n) /\
  (fgt (raised raise_word n) c0_7 = true <-> (3 <= n)%nat).
Proof.
  intros Hc Hnone. split.
  - induction n as [|n IH]; cbn [teach]; rewrite learn_word_lookup, Hc.
    + cbn [teach]. now rewrite Hnone.
    + cbn [teach] in IH. now rewrite IH.
  - rewrite raised_word_above. apply Nat.leb_le.
Qed.

Lemma fourth_correction_witness :
  sget (get_content
          (record_of
             (learned_patterns
                (teach 4 (feedback_on "App" "Quarterly numbers" "" WORK JUNK 0)
                   (NotificationClassifier None)))
             JUNK)) "quarterly" = Some (raised raise_word 3) /\
  (fgt (raised raise_word 3) c0_7 = true <-> (3 <= 3)%nat).
Proof.
  apply (fourth_correction_of_a_word_overrides (NotificationClassifier None)
           (feedback_on "App" "Quarterly numbers" "" WORK JUNK 0)
           "quarterly" 3).
  - vm_compute. reflexivity.
  - reflexivity.
Defined.


(** ** The keys of the store and of the cache *)

Section DictDel.
Context {K V : Type}.
Variable keq : K -> K -> bool.
Hypothesis keq_eq : forall a b, keq a b = true <-> a = b.

Lemma dict_del_keys_incl (d : dict K V) (k x : K) :
  In x (dict_keys (dict_del keq d k)) -> In x (dict_keys d).
Proof.
  induction d as [|[k' v'] d IH]; simpl; trivial.
  destruct (keq k' k); simpl; tauto.
Qed.

Lemma dict_del_NoDup (d : dict K V) (k : K) :
  NoDup (dict_keys d) -> NoDup (dict_keys (dict_del keq d k)).
Proof.
  induction d as [|[k' v'] d IH]; simpl; trivial.
  intros Hd. inversion Hd; subst.
  destruct (keq k' k); simpl; trivial.
  constructor; auto. intros Hin. now apply dict_del_keys_incl in Hin.
Qed.

Lemma dict_get_del_same (d : dict K V) (k : K) :
  NoDup (dict_keys d) -> dict_get keq (dict_del keq d k) k = None.
Proof.
  induction d as [|[k' v'] d IH]; simpl; trivial.
  intros Hd. inversion Hd; subst.
  destruct (keq k' k) eqn:E; simpl.
  - apply keq_eq in E; subst k'. now apply (dict_get_None keq keq_eq).
  - rewrite E. auto.
Qed.

Lemma dict_get_del_other (d : dict K V) (k k' : K) :
  k' <> k -> dict_get keq (dict_del keq d k) k' = dict_get keq d k'.
Proof.
  intros Hne. induction d as [|[k1 v1] d IH]; simpl; trivial.
  destruct (keq k1 k) eqn:E; simpl.
  - apply keq_eq in E; subst k1.
    destruct (keq k k') eqn:E'; trivial.
    apply keq_eq in E'. congruence.
  - now rewrite IH.
Qed.
End DictDel.

Lemma category_listed (c : NotificationCategory) : In c all_categories.
Proof. destruct c; simpl; tauto. Qed.

Lemma cset_keys (l : learned) (c : NotificationCategory) (p : patterns) :
  dict_keys l = all_categories -> dict_keys (cset l c p) = all_categories.
Proof.
  intros Hl. unfold cset. rewrite dict_set_keys. unfold dict_mem.
  destruct (dict_get category_eqb l c) eqn:E; trivial.
  apply (dict_get_None category_eqb category_eqb_eq) in E.
  rewrite Hl in E. destruct E. apply category_listed.
Qed.

Lemma load_loop_keys (r : redis) (cats : list NotificationCategory) :
  forall l : learned,
    dict_keys l = all_categories ->
    dict_keys (load_loop r cats l) = all_categories.
Proof.
  induction cats as [|c cats IH]; intros l Hl; simpl; trivial.
  destruct (redis_get r (redis_key c)) as [[p|]|]; auto using cset_keys.
Qed.

Lemma save_loop_NoDup (items : list (NotificationCategory * patterns)) :
  forall r : redis,
    NoDup (dict_keys (r_data r)) ->
    NoDup (dict_keys (r_data (save_loop items r))).
Proof.
  induction items as [|[c p] items IH]; intros r Hr; simpl; trivial.
  unfold redis_setex. destruct (r_up r); trivial.
  apply IH. simpl. now apply dict_set_NoDup; [apply String.eqb_eq|].
Qed.

Lemma delete_loop_NoDup (cats : list NotificationCategory) :
  forall r : redis,
    NoDup (dict_keys (r_data r)) ->
    NoDup (dict_keys (r_data (delete_loop cats r))).
Proof.
  induction cats as [|c cats IH]; intros r Hr; simpl; trivial.
  unfold redis_delete. destruct (r_up r); trivial.
  apply IH. simpl. now apply dict_del_NoDup.
Qed.

Lemma well_keyed_new (rc : option redis) :
  match rc with
  | Some r => NoDup (dict_keys (r_data r))
  | None => True
  end ->
  well_keyed (NotificationClassifier rc).
Proof.
  intros Hc. rewrite new_classifier_eq. split; [|exact Hc].
  cbn [learned_patterns]. destruct rc as [r|]; trivial.
  now apply load_loop_keys.
Qed.

Lemma reachable_well_keyed (self : classifier) :
  reachable self -> well_keyed self.
Proof.
  induction 1 as [ |up|self _ IH|self r r' _ IH Hr Hstep
                  |self a t b _ IH|self fb _ IH|self _ IH|self _ IH].
  - now apply well_keyed_new.
  - apply well_keyed_new. constructor.
  - apply well_keyed_new. apply IH.
  - destruct IH as [Hs Hc]. rewrite Hr in Hc. split; simpl; trivial.
    destruct Hstep; simpl; trivial. now apply dict_del_NoDup.
  - now rewrite classify_state.
  - destruct IH as [Hs Hc]. rewrite learn_from_feedback_run, save_run.
    assert (dict_keys
              (learned_after (learned_patterns self) (actual_category fb)
                 (strip (lower (app_name fb)))
                 (strip (lower (title fb ++ " " ++ body fb))))
            = all_categories) as Hs' by now apply cset_keys.
    cbn [redis_client set_learned].
    destruct (redis_client self) as [r|] eqn:E; split; simpl; trivial.
    + now apply save_loop_NoDup.
    + now rewrite E.
  - now rewrite stats_state.
  - destruct IH as [Hs Hc]. rewrite reset_run.
    split; cbn [snd learned_patterns redis_client]; trivial.
    destruct (redis_client self) as [r|]; cbn [option_map]; trivial.
    now apply delete_loop_NoDup.
Qed.

(** ** Saving and loading *)

Lemma redis_key_inj (c c' : NotificationCategory) :
  redis_key c = redis_key c' -> c = c'.
Proof. destruct c, c'; trivial; intros H; discriminate H. Qed.

Lemma save_loop_lookup (c : NotificationCategory)
  (items : list (NotificationCategory * patterns)) :
  forall r : redis,
    r_up r = true -> NoDup (dict_keys items) ->
    r_up (save_loop items r) = true /\
    dict_get String.eqb (r_data (save_loop items r)) (redis_key c) =
      match cget items c with
      | Some p => Some p
      | None => dict_get String.eqb (r_data r) (redis_key c)
      end.
Proof.
  induction items as [|[c1 p1] items IH]; intros r Hup Hn.
  - simpl. auto.
  - cbn [save_loop]. unfold redis_setex. rewrite Hup.
    inversion Hn; subst.
    destruct (IH (mkRedis true
                    (dict_set String.eqb (r_data r) (redis_key c1) p1))
                eq_refl H2) as [Hup' Hget].
    split; trivial. rewrite Hget. cbn [r_data cget dict_get].
    fold (cget items c).
    destruct (category_eqb c1 c) eqn:E.
    + apply category_eqb_eq in E; subst c1.
      apply (dict_get_None category_eqb category_eqb_eq) in H1.
      unfold cget. rewrite H1.
      apply dict_get_set_same, String.eqb_eq.
    + destruct (cget items c); trivial.
      apply dict_get_set_other; [apply String.eqb_eq|].
      intros Hk. apply redis_key_inj in Hk. subst c1.
      destruct c; discriminate.
Qed.

Lemma save_loop_down (items : list (NotificationCategory * patterns))
  (r : redis) :
  r_up r = false -> save_loop items r = r.
Proof.
  intros Hup. destruct items as [|[c p] items]; simpl; trivial.
  unfold redis_setex. now rewrite Hup.
Qed.

Lemma store_of_three (l : learned) :
  dict_keys l = all_categories ->
  exists pw pp pj, l = [(WORK, pw); (PERSONAL, pp); (JUNK, pj)].
Proof.
  destruct l as [|[c1 p1] [|[c2 p2] [|[c3 p3] [|x l]]]]; try discriminate.
  simpl. intros [= -> -> ->]. now exists p1, p2, p3.
Qed.

Lemma load_saved (l : learned) (r : redis) :
  dict_keys l = all_categories -> r_up r = true ->
  load_loop (save_loop l r) all_categories fresh_learned = l.
Proof.
  intros Hk Hup.
  assert (NoDup (dict_keys l)) as Hn
    by (rewrite Hk; repeat constructor; simpl; intuition discriminate).
  destruct (save_loop_lookup WORK l r Hup Hn) as [Hup' Hw].
  destruct (save_loop_lookup PERSONAL l r Hup Hn) as [_ Hp].
  destruct (save_loop_lookup JUNK l r Hup Hn) as [_ Hj].
  destruct (store_of_three l Hk) as (pw & pp & pj & ->).
  cbn [cget dict_get category_eqb] in Hw, Hp, Hj.
  unfold all_categories. cbn [load_loop]. unfold redis_get.
  rewrite Hup', Hw, Hp, Hj. reflexivity.
Qed.

(** X10.  What a feedback teaches survives a restart when the cache
    answers: on an object that can be reached, after
    [learn_from_feedback] with Redis up, a new classifier object created
    over the same cache is the same as the old one, learned patterns and
    rule tables, and so classifies every notification in the same way. *)
Theorem learned_patterns_survive_a_restart
  (self : classifier) (feedback : UserFeedback) (r : redis) :
  reachable self ->
  redis_client self = Some r ->
  r_up r = true ->
  NotificationClassifier
    (redis_client (snd (learn_from_feedback feedback self)))
  = snd (learn_from_feedback feedback self) /\
  forall app_name title body,
    fst (classify app_name title body
           (NotificationClassifier
              (redis_client (snd (learn_from_feedback feedback self)))))
    = fst (classify app_name title body
             (snd (learn_from_feedback feedback self))).
Proof.
  intros Hr Hc Hup.
  assert (NotificationClassifier
            (redis_client (snd (learn_from_feedback feedback self)))
          = snd (learn_from_feedback feedback self)) as E.
  { pose proof (reachable_well_keyed _ (reach_learn self feedback Hr))
      as [Hk _].
    destruct (reachable_sound _ (reach_learn self feedback Hr))
      as [_ (Iw & Ip & Ij)].
    revert Hk Iw Ip Ij. rewrite learn_from_feedback_run, save_run.
    cbn [redis_client set_learned]. rewrite Hc.
    unfold set_redis, set_learned.
    cbn [snd learned_patterns work_keywords personal_keywords
           junk_keywords redis_client].
    intros Hk Iw Ip Ij. rewrite new_classifier_eq.
    rewrite (load_saved _ r Hk Hup). now rewrite Iw, Ip, Ij. }
  split; trivial. intros a t b. now rewrite E.
Qed.


Lemma learned_patterns_survive_witness :
  let self := NotificationClassifier (Some (mkRedis true [])) in
  let feedback := feedback_on "Slack" "Meeting" "" WORK PERSONAL 0 in
  NotificationClassifier
    (redis_client (snd (learn_from_feedback feedback self)))
  = snd (learn_from_feedback feedback self) /\
  forall app_name title body,
    fst (classify app_name title body
           (NotificationClassifier
              (redis_client (snd (learn_from_feedback feedback self)))))
    = fst (classify app_name title body
             (snd (learn_from_feedback feedback self))).
Proof.
  intros self feedback.
  apply (learned_patterns_survive_a_restart self feedback (mkRedis true [])).
  - apply (reach_empty_cache true).
  - reflexivity.
  - reflexivity.
Defined.

(** ** Without the cache *)

Lemma delete_loop_down (cats : list NotificationCategory) (r : redis) :
  r_up r = false -> delete_loop cats r = r.
Proof.
  intros Hup. destruct cats as [|c cats]; simpl; trivial.
  unfold redis_delete. now rewrite Hup.
Qed.

(** X11.  With Redis down, [learn_from_feedback] and
    [reset_learned_patterns] still succeed, working on the store in memory
    only: the cache is left exactly as it was.  So a classifier object
    created over it later starts from the patterns saved last, without the
    feedback, and with the patterns the reset was meant to clear. *)
Theorem cache_down_leaves_the_cache_alone
  (self : classifier) (feedback : UserFeedback) (r : redis) :
  redis_client self = Some r ->
  r_up r = false ->
  fst (learn_from_feedback feedback self) = Ok tt /\
  redis_client (snd (learn_from_feedback feedback self)) = Some r /\
  fst (reset_learned_patterns self) = Ok tt /\
  redis_client (snd (reset_learned_patterns self)) = Some r /\
  learned_patterns (snd (reset_learned_patterns self)) = fresh_learned.
Proof.
  intros Hc Hup.
  rewrite learn_from_feedback_run, save_run, reset_run.
  cbn [redis_client set_learned fst snd learned_patterns]. rewrite Hc.
  cbn [option_map set_redis redis_client].
  rewrite (save_loop_down _ r Hup), (delete_loop_down _ r Hup).
  repeat split.
Qed.

Lemma cache_down_witness :
  let self :=
    mkClassifier (Some (mkRedis false [("learned_patterns:Work",
                                         mkPatterns (Some [("slack", c0_95)])
                                           (Some []))]))
      initial_work_keywords initial_personal_keywords initial_junk_keywords
      fresh_learned in
  let r := mkRedis false [("learned_patterns:Work",
                           mkPatterns (Some [("slack", c0_95)]) (Some []))] in
  redis_client (snd (reset_learned_patterns self)) = Some r /\
  cget (learned_patterns
          (NotificationClassifier (Some (mkRedis true (r_data r))))) WORK
    = Some (mkPatterns (Some [("slack", c0_95)]) (Some [])).
Proof.
  intros self r.
  destruct (cache_down_leaves_the_cache_alone self
              (feedback_on "Slack" "" "" WORK PERSONAL 0) r eq_refl eq_refl)
    as (_ & _ & _ & H & _).
  split; [exact H | reflexivity].
Defined.

(** ** Reset *)

Lemma delete_loop_lookup (c : NotificationCategory) (r : redis) :
  r_up r = true -> NoDup (dict_keys (r_data r)) ->
  r_up (delete_loop all_categories r) = r_up r /\
  dict_get String.eqb (r_data (delete_loop all_categories r)) (redis_key c)
    = None.
Proof.
  intros Hup Hn. unfold all_categories. cbn [delete_loop].
  unfold redis_delete. rewrite Hup. cbn [r_up r_data]. split; trivial.
  pose proof (dict_del_NoDup String.eqb (r_data r) (redis_key WORK) Hn) as H1.
  pose proof (dict_del_NoDup String.eqb _ (redis_key PERSONAL) H1) as H2.
  destruct c.
  - rewrite !(dict_get_del_other String.eqb String.eqb_eq)
      by (intros H; discriminate H).
    now apply dict_get_del_same; [apply String.eqb_eq|].
  - rewrite (dict_get_del_other String.eqb String.eqb_eq)
      by (intros H; discriminate H).
    now apply dict_get_del_same; [apply String.eqb_eq|].
  - now apply dict_get_del_same; [apply String.eqb_eq|].
Qed.

Lemma load_nothing (r : redis) :
  (forall c, dict_get String.eqb (r_data r) (redis_key c) = None) ->
  load_loop r all_categories fresh_learned = fresh_learned.
Proof.
  intros H. unfold all_categories. cbn [load_loop]. unfold redis_get.
  rewrite !H. now destruct (r_up r).
Qed.

Lemma classify_by_tables (self self' : classifier)
  (app_name title body : string) :
  learned_patterns self = learned_patterns self' ->
  work_keywords self = work_keywords self' ->
  personal_keywords self = personal_keywords self' ->
  junk_keywords self = junk_keywords self' ->
  fst (classify app_name title body self)
    = fst (classify app_name title body self').
Proof.
  intros Hl Hw Hp Hj. rewrite !classify_run, Hl. cbn [fst].
  destruct (check_items _ _ _); trivial.
  unfold classify_by_keywords. now rewrite Hw, Hp, Hj.
Qed.

(** X12.  After [reset_learned_patterns] on an object that can be
    reached, with no cache or with Redis up, nothing learned is left: the
    store is the empty one, a classifier object created over the cache
    starts from the empty store as well, and every notification is
    classified as by a brand-new classifier that never had a cache. *)
Theorem reset_forgets_everything (self : classifier) :
  reachable self ->
  (forall r, redis_client self = Some r -> r_up r = true) ->
  fst (reset_learned_patterns self) = Ok tt /\
  learned_patterns (snd (reset_learned_patterns self)) = fresh_learned /\
  learned_patterns
    (NotificationClassifier
       (redis_client (snd (reset_learned_patterns self)))) = fresh_learned /\
  forall app_name title body,
    fst (classify app_name title body (snd (reset_learned_patterns self)))
    = fst (classify app_name title body (NotificationClassifier None)).
Proof.
  intros Hr Hup.
  destruct (reachable_well_keyed self Hr) as [_ Hn].
  destruct (reachable_sound self Hr) as [_ (Iw & Ip & Ij)].
  rewrite reset_run. cbn [fst snd learned_patterns redis_client].
  repeat split.
  - rewrite new_classifier_eq. cbn [learned_patterns].
    destruct (redis_client self) as [r|]; cbn [option_map]; trivial.
    apply load_nothing. intros c.
    now apply delete_loop_lookup; [apply Hup|].
  - intros a t b. apply classify_by_tables; trivial.
Qed.

Lemma reset_forgets_witness :
  learned_patterns
    (snd (reset_learned_patterns
            (snd (learn_from_feedback
                    (feedback_on "Slack" "Meeting" "" WORK PERSONAL 0)
                    (NotificationClassifier (Some (mkRedis true [])))))))
    = fresh_learned /\
  learned_patterns
    (NotificationClassifier
       (redis_client
          (snd (reset_learned_patterns
                  (snd (learn_from_feedback
                          (feedback_on "Slack" "Meeting" "" WORK PERSONAL 0)
                          (NotificationClassifier
                             (Some (mkRedis true [])))))))))
    = fresh_learned.
Proof.
  destruct (reset_forgets_everything
              (snd (learn_from_feedback
                      (feedback_on "Slack" "Meeting" "" WORK PERSONAL 0)
                      (NotificationClassifier (Some (mkRedis true []))))))
    as (_ & H1 & H2 & _).
  - apply reach_learn. apply (reach_empty_cache true).
  - intros r H. vm_compute in H. injection H as <-. reflexivity.
  - split; [exact H1 | exact H2].
Defined.


(** ** Sorting *)

Lemma feq_nonneg_same (a b v : float) :
  nonneg a = true -> nonneg b = true ->
  feq a v = true -> feq b v = true -> a = b.
Proof.
  destruct a as [[|]|[|]| |[|] ma ea]; try discriminate;
    destruct v as [sv|[|]| |[|] mv ev]; try discriminate;
    destruct b as [[|]|[|]| |[|] mb eb]; try discriminate; trivial.
  intros _ _. unfold feq; simpl.
  change (Pos.compare_cont Eq ma mv) with (Pos.compare ma mv).
  change (Pos.compare_cont Eq mb mv) with (Pos.compare mb mv).
  destruct (Z.compare_spec ea ev); try discriminate.
  destruct (Pos.compare_spec ma mv); try discriminate.
  destruct (Z.compare_spec eb ev); try discriminate.
  destruct (Pos.compare_spec mb mv); try discriminate.
  intros _ _. congruence.
Qed.

Lemma flt_irrefl (a : float) : flt a a = false.
Proof.
  destruct (flt a a) eqn:E; trivial.
  pose proof (flt_not_fle a a E) as H. apply flt_fle in E. congruence.
Qed.

Section SortFacts.
Context {A : Type}.
Variable key : A -> float.

Lemma insert_desc_perm (x : A) (l : list A) :
  Permutation (insert_desc key x l) (x :: l).
Proof.
  induction l as [|y l IH]; simpl; trivial.
  destruct (flt (key x) (key y)); trivial.
  apply perm_trans with (y :: x :: l); [now apply perm_skip | apply perm_swap].
Qed.

Lemma sort_desc_perm (l : list A) : Permutation (sort_desc key l) l.
Proof.
  induction l as [|x l IH]; simpl; trivial.
  apply perm_trans with (x :: sort_desc key l);
    [apply insert_desc_perm | now apply perm_skip].
Qed.

Lemma insert_desc_sorted (x : A) (l : list A) :
  (keyed_by key) x -> Forall (keyed_by key) l ->
  StronglySorted (above_by key) l -> StronglySorted (above_by key) (insert_desc key x l).
Proof.
  intros Hx Hl Hs. induction Hs as [|y l Hs IH Hy]; simpl.
  - repeat constructor.
  - inversion Hl; subst. destruct (flt (key x) (key y)) eqn:E.
    + constructor; auto.
      apply Forall_forall. intros z Hz.
      apply (Permutation_in _ (insert_desc_perm x l)) in Hz.
      destruct Hz as [<-|Hz].
      * now apply flt_fle.
      * rewrite Forall_forall in Hy. auto.
    + constructor; [now constructor|].
      constructor; [now apply not_flt_fle|].
      apply Forall_forall. intros z Hz.
      rewrite Forall_forall in Hy, H2.
      apply (fle_trans (key z) (key y) (key x)); auto.
      * now apply H2.
      * now apply Hy.
      * now apply not_flt_fle.
Qed.

Lemma sort_desc_sorted (l : list A) :
  Forall (keyed_by key) l -> StronglySorted (above_by key) (sort_desc key l).
Proof.
  induction 1 as [|x l Hx Hl IH]; simpl; [constructor|].
  apply insert_desc_sorted; trivial.
  apply Forall_forall. intros z Hz.
  apply (Permutation_in _ (sort_desc_perm l)) in Hz.
  rewrite Forall_forall in Hl. auto.
Qed.

Lemma insert_desc_stable (v : float) (x : A) (l : list A) :
  (keyed_by key) x -> Forall (keyed_by key) l ->
  filter (fun e => feq (key e) v) (insert_desc key x l) =
  filter (fun e => feq (key e) v) (x :: l).
Proof.
  intros Hx Hl. induction Hl as [|y l Hy Hl IH]; trivial.
  cbn [insert_desc]. destruct (flt (key x) (key y)) eqn:E; trivial.
  cbn [filter] in *. rewrite IH.
  destruct (feq (key x) v) eqn:Ex; trivial.
  destruct (feq (key y) v) eqn:Ey; trivial.
  rewrite (feq_nonneg_same (key x) (key y) v Hx Hy Ex Ey) in E.
  now rewrite flt_irrefl in E.
Qed.

Lemma sort_desc_stable (v : float) (l : list A) :
  Forall (keyed_by key) l ->
  filter (fun e => feq (key e) v) (sort_desc key l) =
  filter (fun e => feq (key e) v) l.
Proof.
  induction 1 as [|x l Hx Hl IH]; trivial.
  cbn [sort_desc fold_right]. fold (sort_desc key l).
  rewrite insert_desc_stable; trivial.
  - cbn [filter]. now rewrite IH.
  - apply Forall_forall. intros z Hz.
    apply (Permutation_in _ (sort_desc_perm l)) in Hz.
    rewrite Forall_forall in Hl. auto.
Qed.

Lemma sorted_firstn (n : nat) (l : list A) :
  StronglySorted (above_by key) l -> StronglySorted (above_by key) (firstn n l).
Proof.
  intros Hs; revert n. induction Hs as [|y l Hs IH Hy]; intros [|n]; simpl;
    try constructor; auto.
  apply Forall_forall. intros z Hz. rewrite Forall_forall in Hy.
  apply Hy. revert Hz. clear. revert n.
  induction l as [|a l IH]; intros [|n]; simpl; try tauto.
  intros [->|H]; eauto.
Qed.

Lemma sorted_app_above (l1 l2 : list A) :
  StronglySorted (above_by key) (l1 ++ l2) ->
  forall x y, In x l1 -> In y l2 -> (above_by key) x y.
Proof.
  induction l1 as [|a l1 IH]; simpl; [tauto|].
  intros Hs x y [<-|Hx] Hy; inversion Hs; subst.
  - rewrite Forall_forall in H2. apply H2, in_or_app. now right.
  - now apply IH.
Qed.
End SortFacts.

(** ** Statistics *)

Lemma ranking_is_top (n : nat) (d : dict string float) :
  Forall (fun e => nonneg (snd e) = true) d ->
  is_top n d (firstn n (sort_desc snd d)).
Proof.
  intros Hd. pose proof (sort_desc_perm snd d) as Hp.
  pose proof (sort_desc_sorted snd d Hd) as Hs.
  repeat split.
  - rewrite length_firstn. now rewrite (Permutation_length Hp).
  - now apply (sorted_firstn snd).
  - exists (skipn n (sort_desc snd d)). rewrite firstn_skipn. split; trivial.
    intros x y Hx Hy.
    apply (sorted_app_above snd (firstn n (sort_desc snd d))
             (skipn n (sort_desc snd d))); trivial.
    now rewrite firstn_skipn.
  - intros v.
    exists (filter (has_confidence v) (skipn n (sort_desc snd d))).
    rewrite <- filter_app, firstn_skipn.
    symmetry. now apply (sort_desc_stable snd).
Qed.

Lemma stats_run (self : classifier) (pw pp pj : patterns) :
  learned_patterns self = [(WORK, pw); (PERSONAL, pp); (JUNK, pj)] ->
  get_category_stats self =
    (Ok [("Work", stats_of pw); ("Personal", stats_of pp);
         ("Junk", stats_of pj)], self).
Proof.
  intros H. unfold get_category_stats, bindM, get, ret. now rewrite H.
Qed.

Lemma tidy_nonneg (p : patterns) :
  tidy p ->
  Forall (fun e => nonneg (snd e) = true) (get_apps p) /\
  Forall (fun e => nonneg (snd e) = true) (get_content p).
Proof.
  intros (apps & cont & Ha & Hc & _ & _ & Fa & Fc).
  unfold get_apps, get_content. rewrite Ha, Hc. split.
  - apply Forall_impl with (2 := Fa). intros e [_ He].
    now apply app_levels_nonneg.
  - apply Forall_impl with (2 := Fc). intros e [_ He].
    now apply word_levels_nonneg.
Qed.

(** X13.  On an object that can be reached, [get_category_stats] returns
    one entry for each of "Work", "Personal" and "Junk", in this order.
    The entry of a category gives the numbers of learned apps and of
    learned content words, and ranks the best five apps and the best ten
    words: largest confidence first, nothing left out that is better than
    something listed, and equal confidences in the order in which the
    keys were learned. *)
Theorem stats_rank_the_best
  (self : classifier) (c : NotificationCategory) (p : patterns) :
  reachable self ->
  cget (learned_patterns self) c = Some p ->
  exists stats st,
    get_category_stats self = (Ok stats, self) /\
    dict_keys stats = ["Work"; "Personal"; "Junk"] /\
    dict_get String.eqb stats (value c) = Some st /\
    learned_apps st = List.length (get_apps p) /\
    learned_content_patterns st = List.length (get_content p) /\
    is_top 5 (get_apps p) (top_apps st) /\
    is_top 10 (get_content p) (top_content_patterns st).
Proof.
  intros Hr Hp.
  destruct (reachable_well_keyed self Hr) as [Hk _].
  destruct (tidy_nonneg p (reachable_record_tidy self c p Hr Hp)) as [Na Nc].
  destruct (store_of_three _ Hk) as (pw & pp & pj & Hl).
  rewrite (stats_run self pw pp pj Hl).
  exists [("Work", stats_of pw); ("Personal", stats_of pp);
          ("Junk", stats_of pj)], (stats_of p).
  split; trivial. split; trivial.
  split.
  { rewrite Hl in Hp. destruct c; cbn in Hp; injection Hp as ->; reflexivity. }
  cbn [stats_of learned_apps learned_content_patterns top_apps
         top_content_patterns].
  repeat split; trivial; now apply ranking_is_top.
Qed.

Lemma stats_rank_witness :
  exists stats st,
    get_category_stats taught_both = (Ok stats, taught_both) /\
    dict_keys stats = ["Work"; "Personal"; "Junk"] /\
    dict_get String.eqb stats (value WORK) = Some st /\
    learned_apps st
      = List.length
          (get_apps (record_of (learned_patterns taught_both) WORK)) /\
    learned_content_patterns st
      = List.length
          (get_content (record_of (learned_patterns taught_both) WORK)) /\
    is_top 5 (get_apps (record_of (learned_patterns taught_both) WORK))
      (top_apps st) /\
    is_top 10 (get_content (record_of (learned_patterns taught_both) WORK))
      (top_content_patterns st).
Proof.
  apply (stats_rank_the_best taught_both WORK
           (record_of (learned_patterns taught_both) WORK)).
  - unfold taught_both, teach. repeat apply reach_learn. apply reach_plain.
  - vm_compute. reflexivity.
Defined.


(** ** The reasoning text of a scored result *)

Lemma filter_tagged (tag tag' : string) (b : bool) (l : list string) :
  (forall item, startswith (tag' ++ item) tag = b) ->
  filter (fun m => startswith m tag) (tagged tag' l) =
    if b then tagged tag' l else [].
Proof.
  intros H. induction l as [|x l IH]; simpl.
  - now destruct b.
  - rewrite H, IH. now destruct b.
Qed.

Lemma untag (tag : string) (l : list string) :
  (forall item, after_colon (tag ++ item) = Ok item) ->
  map_exn after_colon (tagged tag l) = Ok l.
Proof.
  intros H. induction l as [|x l IH]; trivial.
  cbn [tagged map map_exn]. fold (tagged tag l).
  rewrite H, IH. reflexivity.
Qed.

Lemma tagged_firstn (tag : string) (n : nat) (l : list string) :
  firstn n (tagged tag l) = tagged tag (firstn n l).
Proof. apply firstn_map. Qed.

Lemma nonempty_tagged (tag : string) (l : list string) :
  nonempty (tagged tag l) = nonempty l.
Proof. now destruct l. Qed.

Lemma generate_reasoning_expected (c : NotificationCategory)
  (app_name text content : string) (keywords : profile) :
  _generate_reasoning c (expected_matches app_name content keywords) text =
    Ok (if nonempty (expected_matches app_name content keywords)
        then "Classified as " ++ value c ++ ": "
               ++ join "; "
                    (reasons_of c text
                       (filter (fun k => str_in k app_name) (kw_apps keywords))
                       (filter (fun k => str_in k content)
                          (kw_content keywords))
                       (filter (pattern_found content) (kw_patterns keywords)))
        else "Classified as " ++ value c ++ " based on general patterns").
Proof.
  unfold _generate_reasoning.
  destruct (nonempty (expected_matches app_name content keywords));
    cbn [negb]; trivial.
  cbv zeta. unfold expected_matches.
  set (A := filter (fun k => str_in k app_name) (kw_apps keywords)).
  set (K := filter (fun k => str_in k content) (kw_content keywords)).
  set (P := filter (pattern_found content) (kw_patterns keywords)).
  set (D := filter (fun k => str_in k content) (kw_domains keywords)).
  rewrite !filter_app.
  rewrite (filter_tagged "app:" "app:" true),
    (filter_tagged "app:" "keyword:" false),
    (filter_tagged "app:" "pattern:" false),
    (filter_tagged "app:" "domain:" false),
    (filter_tagged "keyword:" "app:" false),
    (filter_tagged "keyword:" "keyword:" true),
    (filter_tagged "keyword:" "pattern:" false),
    (filter_tagged "keyword:" "domain:" false),
    (filter_tagged "pattern:" "app:" false),
    (filter_tagged "pattern:" "keyword:" false),
    (filter_tagged "pattern:" "pattern:" true),
    (filter_tagged "pattern:" "domain:" false);
    try (intros item; destruct item; reflexivity).
  cbn [app]. rewrite !app_nil_r.
  rewrite !nonempty_tagged, tagged_firstn.
  rewrite !untag by (intros item; reflexivity).
  unfold reasons_of, append.
  destruct (nonempty A), (nonempty K), (nonempty P); reflexivity.
Qed.

Lemma winner_profile (self : classifier) (w p j : float)
  (mw mp mj : list string) (b s t : scored) :
  nonneg w = true -> nonneg p = true -> nonneg j = true ->
  sort_desc score_of [(WORK, w, mw); (PERSONAL, p, mp); (JUNK, j, mj)]
    = [b; s; t] ->
  snd b = match fst (fst b) with WORK => mw | PERSONAL => mp | JUNK => mj end
  /\
  score_of b = match fst (fst b) with WORK => w | PERSONAL => p | JUNK => j end.
Proof.
  intros Nw Np Nj Es.
  destruct (winner_cases _ _ _ _ _ _ _ _ _ Nw Np Nj Es)
    as [(-> & _)|[(-> & _)|(-> & _)]]; split; reflexivity.
Qed.

(** X14.  The reasoning of a result of the scoring path tells what was
    found for the winning category, and nothing else: it is
    "Classified as C: " followed by up to three reasons joined by "; " -
    that the app name matches, the first three keywords found in the order
    of the rule table, and that a pattern matched.  The tags the scoring
    puts on the matches are taken off again. *)
Theorem reasoning_tells_what_was_found
  (self : classifier) (app_name title body : string) (r : ClassificationResult) :
  initialized self ->
  fst (_check_learned_patterns (strip (lower app_name))
         (strip (lower (title ++ " " ++ body))) self) = Ok None ->
  fst (classify app_name title body self) = Ok r ->
  r <> default_result ->
  matched_keywords r =
    expected_matches (strip (lower app_name))
      (strip (lower (title ++ " " ++ body))) (profile_of self (category r)) /\
  reasoning r =
    "Classified as " ++ value (category r) ++ ": "
      ++ join "; "
           (reasons_of (category r) (strip (lower app_name))
              (filter (fun k => str_in k (strip (lower app_name)))
                 (kw_apps (profile_of self (category r))))
              (filter (fun k => str_in k (strip (lower (title ++ " " ++ body))))
                 (kw_content (profile_of self (category r))))
              (filter (pattern_found (strip (lower (title ++ " " ++ body))))
                 (kw_patterns (profile_of self (category r))))).
Proof.
  intros Hi Hnone Hrun Hnd. apply learned_none in Hnone.
  destruct (keywords_run self (strip (lower app_name))
              (strip (lower (title ++ " " ++ body))) Hi)
    as (tw & tp & tj & b & s & t & text & Ew & Ep & Ej & Es & _ & _ & _ & _
        & Ht & Hk).
  rewrite classify_run, Hnone, Hk in Hrun; cbn [fst] in Hrun.
  destruct (feq (score_of b) c0) eqn:Hz.
  { injection Hrun as <-. now destruct Hnd. }
  injection Hrun as <-. cbn [category matched_keywords reasoning].
  destruct initial_weights as (Bw & Bp & Bj).
  destruct (tally_zero _ _ _ _ work_patterns_compile Bw Ew) as [Mw Zw].
  destruct (tally_zero _ _ _ _ personal_patterns_compile Bp Ep) as [Mp Zp].
  destruct (tally_zero _ _ _ _ junk_patterns_compile Bj Ej) as [Mj Zj].
  destruct (score_total (strip (lower app_name))
              (strip (lower (title ++ " " ++ body))) _ work_patterns_compile)
    as (x & Ex & Nw).
  destruct (score_total (strip (lower app_name))
              (strip (lower (title ++ " " ++ body))) _
              personal_patterns_compile) as (y & Ey & Np).
  destruct (score_total (strip (lower app_name))
              (strip (lower (title ++ " " ++ body))) _ junk_patterns_compile)
    as (z & Ez & Nj).
  assert (x = tw) by congruence. assert (y = tp) by congruence.
  assert (z = tj) by congruence. subst x y z.
  destruct (winner_profile self _ _ _ _ _ _ _ _ _ Nw Np Nj Es) as [Hm Hs].
  destruct Hi as (Iw & Ip & Ij).
  assert (snd b =
          expected_matches (strip (lower app_name))
            (strip (lower (title ++ " " ++ body)))
            (profile_of self (fst (fst b))) /\
          nonempty (snd b) = true) as [Hb Hne].
  { rewrite Hm, Hs in *. unfold profile_of. rewrite Iw, Ip, Ij.
    destruct (fst (fst b)).
    - split; trivial. destruct (snd tw); trivial.
      rewrite (proj2 Zw eq_refl) in Hz. discriminate.
    - split; trivial. destruct (snd tp); trivial.
      rewrite (proj2 Zp eq_refl) in Hz. discriminate.
    - split; trivial. destruct (snd tj); trivial.
      rewrite (proj2 Zj eq_refl) in Hz. discriminate. }
  split; trivial.
  rewrite Hb in Ht, Hne. rewrite generate_reasoning_expected, Hne in Ht.
  now injection Ht as <-.
Qed.

Lemma reasoning_tells_witness :
  let r :=
    {| category := WORK;
       confidence := c0_95;
       reasoning :=
         "Classified as Work: app 'slack' matches work apps; "
           ++ "contains work keywords: meeting, project, team";
       matched_keywords :=
         ["app:slack"; "keyword:meeting"; "keyword:project"; "keyword:team";
          "keyword:standup"] |} in
  matched_keywords r =
    expected_matches "slack" "team meeting project standup"
      initial_work_keywords /\
  reasoning r =
    "Classified as " ++ value (category r) ++ ": "
      ++ join "; "
           (reasons_of (category r) "slack"
              (filter (fun k => str_in k "slack")
                 (kw_apps initial_work_keywords))
              (filter (fun k => str_in k "team meeting project standup")
                 (kw_content initial_work_keywords))
              (filter (pattern_found "team meeting project standup")
                 (kw_patterns initial_work_keywords))).
Proof.
  intros r.
  apply (reasoning_tells_what_was_found (NotificationClassifier None)
           " Slack" "Team meeting" "PROJECT standup " r).
  - repeat split.
  - vm_compute. reflexivity.
  - vm_compute. reflexivity.
  - discriminate.
Defined.


(** ** The HTTP service *)

Section ServiceFacts.
Variable repr : string -> string.
Variable message : string -> string.

Lemma or_empty_twice (o : option string) :
  Main.or_empty (Some (Main.or_empty o)) = Main.or_empty o.
Proof. destruct o as [[|c s]|]; reflexivity. Qed.

Lemma category_of_value_ok (s : string) (c : NotificationCategory) :
  Main.category_of_value repr s = Ok c <-> s = value c.
Proof.
  unfold Main.category_of_value. split.
  - destruct (String.eqb_spec s (value WORK)) as [->|_];
      [now intros [= <-]|].
    destruct (String.eqb_spec s (value PERSONAL)) as [->|_];
      [now intros [= <-]|].
    destruct (String.eqb_spec s (value JUNK)) as [->|_];
      [now intros [= <-]|].
    discriminate.
  - intros ->. now destruct c.
Qed.

Lemma category_of_value_raises (s : string) :
  (forall c, s <> value c) ->
  Main.category_of_value repr s =
    Raise (repr s ++ " is not a valid NotificationCategory").
Proof.
  intros H. unfold Main.category_of_value.
  destruct (String.eqb_spec s (value WORK)) as [E|_];
    [now destruct (H WORK)|].
  destruct (String.eqb_spec s (value PERSONAL)) as [E|_];
    [now destruct (H PERSONAL)|].
  destruct (String.eqb_spec s (value JUNK)) as [E|_];
    [now destruct (H JUNK)|].
  reflexivity.
Qed.

(** X15.  On a classifier object that can be reached, the handler of
    POST /classify always replies, and never with an error: the category
    is one of the three names, the confidence lies between 0.5 and 0.95,
    the classifier is left as it was, and a title or body that is absent
    counts as the empty string. *)
Theorem classify_endpoint_always_replies
  (self : classifier) (notification : Main.NotificationData) :
  reachable self ->
  exists reply,
    Main.classify_notification message notification self
      = (Main.Reply reply, self) /\
    In (Main.cr_category reply) ["Work"; "Personal"; "Junk"] /\
    fle c0_5 (Main.cr_confidence reply) = true /\
    fle (Main.cr_confidence reply) c0_95 = true /\
    Main.classify_notification message
      (Main.mkNotificationData (Main.n_app_name notification)
         (Some (Main.or_empty (Main.n_title notification)))
         (Some (Main.or_empty (Main.n_body notification)))) self
      = (Main.Reply reply, self).
Proof.
  intros Hr.
  destruct (classify_confidence self (Main.n_app_name notification)
              (Main.or_empty (Main.n_title notification))
              (Main.or_empty (Main.n_body notification)) Hr)
    as (r & Hrun & Hlo & Hhi & _).
  pose proof (classify_state (Main.n_app_name notification)
                (Main.or_empty (Main.n_title notification))
                (Main.or_empty (Main.n_body notification)) self) as Hst.
  unfold Main.classify_notification. cbn [Main.n_app_name Main.n_title Main.n_body].
  rewrite !or_empty_twice.
  destruct (classify _ _ _ self) as [res self'].
  cbn [fst snd] in Hrun, Hst. subst res self'.
  eexists. split; [reflexivity|].
  cbn [Main.cr_category Main.cr_confidence].
  repeat split; trivial.
  destruct (category r); simpl; tauto.
Qed.

(** X16.  The handler of POST /feedback accepts a request exactly when
    both category texts are one of "Work", "Personal" and "Junk", as
    written.  Then it replies with success, and the classifier has learned
    from the feedback; it never replies with status 500.  Otherwise it
    replies with status 400 and the classifier is left untouched - also
    when only the predicted category is not a category, which the
    learning does not use. *)
Theorem feedback_endpoint_checks_both_categories
  (self : classifier) (now : Z) (feedback : Main.FeedbackRequest) :
  (forall predicted actual,
     Main.f_predicted_category feedback = value predicted ->
     Main.f_actual_category feedback = value actual ->
     Main.submit_feedback repr message now feedback self =
       (Main.Reply
          [ ("status", "success");
            ("message",
             "Feedback received: " ++ Main.f_app_name feedback ++ " → "
               ++ value actual) ],
        snd (learn_from_feedback
               (mkFeedback (Main.f_app_name feedback)
                  (Main.or_empty (Main.f_title feedback))
                  (Main.or_empty (Main.f_body feedback))
                  predicted actual now) self))) /\
  ((forall c, Main.f_predicted_category feedback <> value c) \/
   (forall c, Main.f_actual_category feedback <> value c) ->
   exists detail,
     Main.submit_feedback repr message now feedback self =
       (Main.HTTPException 400 ("Invalid category: " ++ detail), self)).
Proof.
  split.
  - intros predicted actual Hp Ha. unfold Main.submit_feedback.
    rewrite (proj2 (category_of_value_ok _ predicted) Hp),
      (proj2 (category_of_value_ok _ actual) Ha).
    cbn [bind].
    destruct (learned_of_learn
                (mkFeedback (Main.f_app_name feedback)
                   (Main.or_empty (Main.f_title feedback))
                   (Main.or_empty (Main.f_body feedback))
                   predicted actual now) self) as [Hok _].
    destruct (learn_from_feedback _ self) as [res self'].
    cbn [fst] in Hok. subst res. now rewrite Ha.
  - intros [Hp|Ha]; unfold Main.submit_feedback.
    + rewrite (category_of_value_raises _ Hp). cbn [bind]. now eexists.
    + rewrite (category_of_value_raises _ Ha).
      destruct (Main.category_of_value repr
                  (Main.f_predicted_category feedback));
        cbn [bind]; now eexists.
Qed.

Lemma stats_total (pw pp pj : patterns) :
  fold_left
    (fun total cat_stats =>
       (total + (learned_apps cat_stats
                 + learned_content_patterns cat_stats))%nat)
    (dict_values
       [("Work", stats_of pw); ("Personal", stats_of pp);
        ("Junk", stats_of pj)]) 0%nat
  = entries [(WORK, pw); (PERSONAL, pp); (JUNK, pj)].
Proof. unfold entries. simpl. lia. Qed.

(** X17.  On a classifier object that can be reached, the handler of
    GET /stats always replies: with the statistics of the classifier, with
    [total_learned_patterns] the number of entries of the whole store
    (apps and content words of the three categories), and with
    [redis_connected] telling whether the service has a Redis client at
    all - not whether the server answers: with the server down it is still
    true, while GET /health reports "error". *)
Theorem stats_endpoint_counts_the_store (self : classifier) :
  reachable self ->
  exists reply,
    Main.get_stats message self = (Main.Reply reply, self) /\
    fst (get_category_stats self) = Ok (Main.sr_category_stats reply) /\
    Main.total_learned_patterns reply = entries (learned_patterns self) /\
    (Main.redis_connected reply = true <-> redis_client self <> None) /\
    (forall r, redis_client self = Some r -> r_up r = false ->
               Main.redis_connected reply = true /\
               dict_get String.eqb (Main.health_check self) "redis"
                 = Some "error").
Proof.
  intros Hr. destruct (reachable_well_keyed self Hr) as [Hk _].
  destruct (store_of_three _ Hk) as (pw & pp & pj & Hl).
  unfold Main.get_stats. rewrite (stats_run self pw pp pj Hl).
  eexists. split; [reflexivity|].
  cbn [Main.sr_category_stats Main.total_learned_patterns
         Main.redis_connected fst].
  split; trivial. split; [rewrite Hl; apply stats_total|].
  split.
  - destruct (redis_client self); split; congruence.
  - intros r Hc Hup. unfold Main.health_check, Main.redis_ping.
    rewrite Hc, Hup. split; reflexivity.
Qed.

(** X18.  A service that found no Redis when it started (the server did
    not answer the ping, or the port was not a number) never uses one
    later, whatever the classifier is asked to do: it has no client, so
    nothing learned is saved, GET /stats reports [redis_connected] false
    and GET /health "disconnected". *)
Theorem no_redis_at_startup_means_never
  (redis_port : exn Z) (server : redis) (self : classifier) :
  (r_up server = false \/ exists e, redis_port = Raise e) ->
  served (Main.initial_classifier redis_port server) self ->
  redis_client self = None /\
  (exists reply,
     Main.get_stats message self = (Main.Reply reply, self) /\
     Main.redis_connected reply = false) /\
  dict_get String.eqb (Main.health_check self) "redis" = Some "disconnected".
Proof.
  intros Hdown Hs.
  assert (redis_client self = None) as Hc.
  { induction Hs as [|self a t b _ IH|self fb _ IH|self _ IH|self _ IH].
    - unfold Main.initial_classifier. rewrite new_classifier_eq.
      cbn [redis_client]. unfold Main.startup, Main.redis_ping.
      destruct Hdown as [->|[e ->]]; [now destruct redis_port | reflexivity].
    - now rewrite classify_state.
    - rewrite learn_from_feedback_run, save_run.
      cbn [redis_client set_learned]. now rewrite IH.
    - now rewrite stats_state.
    - rewrite reset_run. cbn [snd redis_client]. now rewrite IH. }
  split; trivial. split.
  - unfold Main.get_stats.
    destruct (get_category_stats self) as [res self'] eqn:E.
    assert (self' = self) by (pose proof (stats_state self) as H;
                              now rewrite E in H).
    assert (exists stats, res = Ok stats) as [stats ->].
    { unfold get_category_stats, bindM, get, ret in E.
      injection E as <- _. now eexists. }
    subst self'. eexists. split; [reflexivity|].
    cbn [Main.redis_connected]. now rewrite Hc.
  - unfold Main.health_check. now rewrite Hc.
Qed.
End ServiceFacts.

Lemma classify_endpoint_witness :
  exists reply,
    Main.classify_notification (fun e => e)
      (Main.mkNotificationData "Slack" (Some "Meeting reminder") None)
      taught_personal
      = (Main.Reply reply, taught_personal) /\
    In (Main.cr_category reply) ["Work"; "Personal"; "Junk"] /\
    fle c0_5 (Main.cr_confidence reply) = true /\
    fle (Main.cr_confidence reply) c0_95 = true /\
    Main.classify_notification (fun e => e)
      (Main.mkNotificationData "Slack" (Some "Meeting reminder") (Some ""))
      taught_personal
      = (Main.Reply reply, taught_personal).
Proof.
  apply (classify_endpoint_always_replies (fun e => e) taught_personal
           (Main.mkNotificationData "Slack" (Some "Meeting reminder") None)).
  unfold taught_personal, teach. repeat apply reach_learn. apply reach_plain.
Defined.

Lemma stats_endpoint_witness :
  exists reply,
    Main.get_stats (fun e => e) taught_both
      = (Main.Reply reply, taught_both) /\
    Main.total_learned_patterns reply = 2%nat.
Proof.
  destruct (stats_endpoint_counts_the_store (fun e => e) taught_both)
    as (reply & H1 & _ & H2 & _).
  - unfold taught_both, teach. repeat apply reach_learn. apply reach_plain.
  - exists reply. split; [exact H1|]. rewrite H2. reflexivity.
Defined.

Lemma no_redis_at_startup_witness :
  redis_client
    (snd (learn_from_feedback
            (feedback_on "Slack" "Meeting" "" WORK PERSONAL 0)
            (Main.initial_classifier (Ok 6379%Z) (mkRedis false []))))
    = None.
Proof.
  apply (no_redis_at_startup_means_never (fun e => e) (Ok 6379%Z)
           (mkRedis false [])).
  - left. reflexivity.
  - apply served_learn. apply served_refl.
Defined.


Lemma feedback_endpoint_witness :
  exists detail,
    Main.submit_feedback (fun s => s) (fun e => e) 0
      (Main.mkFeedbackRequest "Slack" None None "work" "Work")
      (NotificationClassifier None) =
    (Main.HTTPException 400 ("Invalid category: " ++ detail),
     NotificationClassifier None).
Proof.
  apply (feedback_endpoint_checks_both_categories (fun s => s) (fun e => e)
           (NotificationClassifier None) 0
           (Main.mkFeedbackRequest "Slack" None None "work" "Work")).
  left. intros c. destruct c; discriminate.
Defined.

(** ** When the learned patterns stay silent *)

Lemma check_content_none (c : NotificationCategory) (content : string)
  (items : dict string float) :
  check_content c content items = None <->
  forall k v, In (k, v) items -> str_in k content = true ->
              fgt v c0_7 = false.
Proof.
  induction items as [|[k v] items IH]; simpl.
  - split; [intros _ k v [] | trivial].
  - destruct (str_in k content) eqn:Es; simpl.
    + destruct (fgt v c0_7) eqn:Ev.
      * split; [discriminate|]. intros H.
        specialize (H k v (or_introl eq_refl) Es). congruence.
      * rewrite IH. split.
        -- intros H k' v' [[= <- <-]|Hin]; eauto.
        -- intros H k' v' Hin. apply H. now right.
    + rewrite IH. split.
      * intros H k' v' [[= <- <-]|Hin]; [congruence | eauto].
      * intros H k' v' Hin. apply H. now right.
Qed.

Lemma check_app_none (c : NotificationCategory) (a : string) (p : patterns) :
  check_app c a p = None <->
  forall v, sget (get_apps p) a = Some v -> fgt v c0_7 = false.
Proof.
  unfold check_app. destruct (sget (get_apps p) a) as [v|].
  - destruct (fgt v c0_7) eqn:E; split; try discriminate; trivial.
    + intros H. specialize (H v eq_refl). congruence.
    + now intros _ v' [= <-].
  - split; [discriminate | trivial].
Qed.

(** X19.  The learned patterns give no result exactly when no entry of
    the store qualifies: in no category the app name has a confidence
    above 0.7, and no learned word with a confidence above 0.7 occurs in
    the content.  A confidence of exactly 0.7 does not qualify. *)
Theorem learned_patterns_silent_iff
  (self : classifier) (a content : string) :
  fst (_check_learned_patterns a content self) = Ok None <->
  forall c p,
    In (c, p) (learned_patterns self) ->
    (forall v, sget (get_apps p) a = Some v -> fgt v c0_7 = false) /\
    (forall k v, In (k, v) (get_content p) -> str_in k content = true ->
                 fgt v c0_7 = false).
Proof.
  unfold _check_learned_patterns, bindM, get, ret. cbn [fst].
  assert (check_items a content (learned_patterns self) = None <->
          forall c p,
            In (c, p) (learned_patterns self) ->
            check_app c a p = None /\
            check_content c content (get_content p) = None) as H.
  { induction (learned_patterns self) as [|[c p] l IH]; simpl.
    - split; [intros _ c p [] | trivial].
    - destruct (check_app c a p) eqn:Ea.
      + split; [discriminate|]. intros H.
        destruct (H c p (or_introl eq_refl)) as [H1 _]. congruence.
      + destruct (check_content c content (get_content p)) eqn:Ec.
        * split; [discriminate|]. intros H.
          destruct (H c p (or_introl eq_refl)) as [_ H1]. congruence.
        * rewrite IH. split.
          -- intros H c' p' [[= <- <-]|Hin]; auto.
          -- intros H c' p' Hin. apply H. now right. }
  split.
  - intros E. assert (check_items a content (learned_patterns self) = None)
      as E' by congruence.
    intros c p Hin. destruct (proj1 H E' c p Hin) as [H1 H2].
    split; [exact (proj1 (check_app_none c a p) H1)
           | exact (proj1 (check_content_none c content _) H2)].
  - intros Hall. f_equal. apply H. intros c p Hin.
    destruct (Hall c p Hin) as [H1 H2].
    split; [exact (proj2 (check_app_none c a p) H1)
           | exact (proj2 (check_content_none c content _) H2)].
Qed.


(** ** A category that matches alone *)

Lemma full_margin_checked :
  forallb full_margin (halves_upto (Z.to_nat score_bound)) = true.
Proof. vm_compute. reflexivity. Qed.

Lemma margin_alone (k : Z) :
  (2 <= k <= score_bound)%Z -> margin_confidence (of_halves k) c0 = c0_95.
Proof.
  intros Hk. pose proof full_margin_checked as H.
  rewrite forallb_forall in H.
  assert (full_margin k = true) as Hf.
  { apply H. unfold halves_upto. apply in_map_iff. exists (Z.to_nat k). split.
    - apply Z2Nat.id; lia.
    - apply in_seq. unfold score_bound in *. lia. }
  unfold full_margin in Hf. apply orb_prop in Hf as [Hf|Hf].
  - apply Z.ltb_lt in Hf. lia.
  - now apply float_same_eq.
Qed.

Lemma nonneg_not_below_zero (x : float) : nonneg x = true -> flt x c0 = false.
Proof. destruct x as [[|]|[|]| |[|] m e]; try discriminate; reflexivity. Qed.

Lemma nonneg_positive (x : float) :
  nonneg x = true -> feq x c0 = false -> flt c0 x = true.
Proof. destruct x as [[|]|[|]| |[|] m e]; try discriminate; reflexivity. Qed.

(** The tally of a profile, as a number of halves. *)
Lemma tally_halves (app_name content : string) (keywords : profile)
  (t : tally) :
  Forall compiles (kw_patterns keywords) ->
  (profile_weight keywords <= score_bound)%Z ->
  _calculate_category_score app_name content keywords = Ok t ->
  snd t = expected_matches app_name content keywords /\
  (snd t = [] -> fst t = c0) /\
  (snd t <> [] ->
   exists k, (2 <= k <= score_bound)%Z /\ fst t = of_halves k /\
             feq (fst t) c0 = false).
Proof.
  intros Hc Hb Ht.
  destruct (tally_zero _ _ _ _ Hc Hb Ht) as [Hm Hz].
  destruct (calculate_exact _ _ _ _ Hc Hb Ht) as (_ & He & Hr).
  split; trivial. split.
  - intros Hn. rewrite He, Hn. reflexivity.
  - intros Hn. exists (half_weights (snd t)).
    assert (feq (fst t) c0 = false) as Hf.
    { destruct (feq (fst t) c0) eqn:E; trivial. destruct Hn. now apply Hz. }
    repeat split; trivial; try lia.
    assert (half_weights (snd t) <> 0%Z) as H0.
    { intros E. rewrite He, E in Hf. discriminate. }
    assert (half_weights (snd t) <> 1%Z) as H1; [|lia].
    rewrite Hm. unfold expected_matches. rewrite !half_weights_app.
    rewrite (half_weights_tagged "app:" 6),
      (half_weights_tagged "keyword:" 2),
      (half_weights_tagged "pattern:" 4), (half_weights_tagged "domain:" 3);
      auto using half_weight_app, half_weight_keyword, half_weight_pattern,
        half_weight_domain.
    lia.
Qed.

(** X20.  When no learned pattern applies and exactly one category has
    matches at all, that category is returned with the highest confidence
    there is, 0.95 - however little matched: one content keyword is
    enough. *)
Theorem lone_category_gets_full_confidence
  (self : classifier) (app_name title body : string)
  (c : NotificationCategory) :
  initialized self ->
  fst (_check_learned_patterns (strip (lower app_name))
         (strip (lower (title ++ " " ++ body))) self) = Ok None ->
  expected_matches (strip (lower app_name))
    (strip (lower (title ++ " " ++ body))) (profile_of self c) <> [] ->
  (forall c', c' <> c ->
     expected_matches (strip (lower app_name))
       (strip (lower (title ++ " " ++ body))) (profile_of self c') = []) ->
  exists r,
    fst (classify app_name title body self) = Ok r /\
    category r = c /\
    confidence r = c0_95 /\
    matched_keywords r =
      expected_matches (strip (lower app_name))
        (strip (lower (title ++ " " ++ body))) (profile_of self c).
Proof.
  intros Hi Hnone Hsome Hothers. apply learned_none in Hnone.
  destruct (keywords_run self (strip (lower app_name))
              (strip (lower (title ++ " " ++ body))) Hi)
    as (tw & tp & tj & b & s & t & text & Ew & Ep & Ej & Es & _ & _ & _ & _
        & Ht & Hrun).
  rewrite classify_run, Hnone, Hrun; cbn [fst].
  destruct Hi as (Iw & Ip & Ij).
  destruct initial_weights as (Bw & Bp & Bj).
  destruct (tally_halves _ _ _ _ work_patterns_compile Bw Ew)
    as (Mw & Zw & Pw).
  destruct (tally_halves _ _ _ _ personal_patterns_compile Bp Ep)
    as (Mp & Zp & Pp).
  destruct (tally_halves _ _ _ _ junk_patterns_compile Bj Ej)
    as (Mj & Zj & Pj).
  assert (flt c0 c0 = false) as H00 by reflexivity.
  destruct (score_total (strip (lower app_name))
              (strip (lower (title ++ " " ++ body))) _ work_patterns_compile)
    as (x & Ex & Nw).
  destruct (score_total (strip (lower app_name))
              (strip (lower (title ++ " " ++ body))) _
              personal_patterns_compile) as (y & Ey & Np).
  destruct (score_total (strip (lower app_name))
              (strip (lower (title ++ " " ++ body))) _ junk_patterns_compile)
    as (z & Ez & Nj).
  assert (x = tw) by congruence. assert (y = tp) by congruence.
  assert (z = tj) by congruence. subst x y z.
  unfold sort_desc in Es.
  cbn [fold_right insert_desc score_of fst snd] in Es.
  destruct c; cbn [profile_of] in Hsome |- *.
  - pose proof (Hothers PERSONAL ltac:(discriminate)) as Op.
    pose proof (Hothers JUNK ltac:(discriminate)) as Oj.
    cbn [profile_of] in Op, Oj.
    rewrite Iw in Hsome |- *. rewrite Ip in Op. rewrite Ij in Oj.
    rewrite <- Mw in Hsome |- *. rewrite <- Mp in Op. rewrite <- Mj in Oj.
    destruct (Pw Hsome) as (k & Hk & Ek & Fk).
    rewrite (Zp Op), (Zj Oj) in Es.
    pose proof (nonneg_not_below_zero _ Nw) as Hneg.
    repeat (first [rewrite H00 in Es | rewrite Hneg in Es];
            cbn [insert_desc score_of fst snd] in Es).
    injection Es as <- <- <-. cbn [score_of fst snd]. rewrite Fk.
    eexists; split; [reflexivity|]. cbn [category confidence matched_keywords].
    repeat split. rewrite Ek. now apply margin_alone.
  - pose proof (Hothers WORK ltac:(discriminate)) as Ow.
    pose proof (Hothers JUNK ltac:(discriminate)) as Oj.
    cbn [profile_of] in Ow, Oj.
    rewrite Ip in Hsome |- *. rewrite Iw in Ow. rewrite Ij in Oj.
    rewrite <- Mp in Hsome |- *. rewrite <- Mw in Ow. rewrite <- Mj in Oj.
    destruct (Pp Hsome) as (k & Hk & Ek & Fk).
    rewrite (Zw Ow), (Zj Oj) in Es.
    pose proof (nonneg_not_below_zero _ Np) as Hneg.
    pose proof (nonneg_positive _ Np Fk) as Hpos.
    repeat (first [rewrite H00 in Es | rewrite Hneg in Es | rewrite Hpos in Es];
            cbn [insert_desc score_of fst snd] in Es).
    injection Es as <- <- <-. cbn [score_of fst snd]. rewrite Fk.
    eexists; split; [reflexivity|]. cbn [category confidence matched_keywords].
    repeat split. rewrite Ek. now apply margin_alone.
  - pose proof (Hothers WORK ltac:(discriminate)) as Ow.
    pose proof (Hothers PERSONAL ltac:(discriminate)) as Op.
    cbn [profile_of] in Ow, Op.
    rewrite Ij in Hsome |- *. rewrite Iw in Ow. rewrite Ip in Op.
    rewrite <- Mj in Hsome |- *. rewrite <- Mw in Ow. rewrite <- Mp in Op.
    destruct (Pj Hsome) as (k & Hk & Ek & Fk).
    rewrite (Zw Ow), (Zp Op) in Es.
    pose proof (nonneg_positive _ Nj Fk) as Hpos.
    repeat (first [rewrite H00 in Es | rewrite Hpos in Es];
            cbn [insert_desc score_of fst snd] in Es).
    injection Es as <- <- <-. cbn [score_of fst snd]. rewrite Fk.
    eexists; split; [reflexivity|]. cbn [category confidence matched_keywords].
    repeat split. rewrite Ek. now apply margin_alone.
Qed.

Lemma lone_category_witness :
  exists r,
    fst (classify "Unknown" "Meeting" "" (NotificationClassifier None))
      = Ok r /\
    category r = WORK /\
    confidence r = c0_95 /\
    matched_keywords r = ["keyword:meeting"].
Proof.
  apply (lone_category_gets_full_confidence (NotificationClassifier None)
           "Unknown" "Meeting" "" WORK).
  - repeat split.
  - vm_compute. reflexivity.
  - vm_compute. discriminate.
  - intros c' Hc'. destruct c'; [now destruct Hc' | | ]; vm_compute; reflexivity.
Defined.


(** ** Three corrections are enough *)

Lemma raised_app_level (n : nat) : In (raised raise_app n) app_levels.
Proof.
  induction n as [|n IH]; [apply app_levels_start|].
  rewrite raised_S. now apply app_levels_closed.
Qed.

Lemma app_levels_mono (u v : float) :
  In u app_levels -> In v app_levels -> fle u v = true ->
  fle (raise_app (Some u)) (raise_app (Some v)) = true.
Proof.
  unfold app_levels; simpl.
  intros [<-|[<-|[<-|[<-|[<-|[]]]]]] [<-|[<-|[<-|[<-|[<-|[]]]]]];
    vm_compute; trivial.
Qed.

Lemma app_levels_floor (v : float) :
  In v app_levels -> fle (raised raise_app 0) v = true.
Proof.
  unfold app_levels; simpl.
  intros [<-|[<-|[<-|[<-|[<-|[]]]]]]; reflexivity.
Qed.

Lemma app_threshold_up (u v : float) :
  In u app_levels -> In v app_levels ->
  fgt u c0_7 = true -> fle u v = true -> fgt v c0_7 = true.
Proof.
  unfold app_levels; simpl.
  intros [<-|[<-|[<-|[<-|[<-|[]]]]]] [<-|[<-|[<-|[<-|[<-|[]]]]]];
    vm_compute; trivial; discriminate.
Qed.

Lemma record_of_tidy (self : classifier) (c : NotificationCategory) :
  reachable self -> tidy (record_of (learned_patterns self) c).
Proof.
  intros Hr. unfold record_of.
  destruct (cget (learned_patterns self) c) as [p|] eqn:E.
  - now apply (reachable_record_tidy self c).
  - apply tidy_empty.
Qed.

Lemma learned_record_present (feedback : UserFeedback) (self : classifier) :
  cget (learned_patterns (snd (learn_from_feedback feedback self)))
    (actual_category feedback) =
  Some (record_of (learned_patterns (snd (learn_from_feedback feedback self)))
          (actual_category feedback)).
Proof.
  destruct (learned_of_learn feedback self) as [_ ->].
  unfold learned_after, record_of. now rewrite cget_cset_same.
Qed.

Lemma teach_app_value (self : classifier) (feedback : UserFeedback) :
  reachable self ->
  truthy (strip (lower (app_name feedback))) = true ->
  forall n,
    exists v,
      sget (get_apps
              (record_of (learned_patterns (teach (S n) feedback self))
                 (actual_category feedback)))
        (strip (lower (app_name feedback))) = Some v /\
      In v app_levels /\ fle (raised raise_app n) v = true.
Proof.
  intros Hr Ht. induction n as [|n (v & Hv & Hin & Hle)].
  - cbn [teach]. rewrite (learn_app_lookup _ _ Ht).
    destruct (record_of_tidy self (actual_category feedback) Hr)
      as (apps & cont & Ha & _ & _ & _ & Fa & _).
    unfold get_apps. rewrite Ha.
    destruct (sget apps (strip (lower (app_name feedback)))) as [v0|] eqn:E.
    + apply (dict_get_Some String.eqb String.eqb_eq) in E.
      rewrite Forall_forall in Fa. destruct (Fa _ E) as [_ H0].
      cbn [snd] in H0. eexists; split; [reflexivity|].
      destruct (app_levels_closed v0 H0). split; trivial.
      now apply app_levels_floor.
    + eexists; split; [reflexivity|]. split; [apply app_levels_start|].
      reflexivity.
  - exists (raise_app (Some v)).
    change (teach (S (S n)) feedback self)
      with (snd (learn_from_feedback feedback (teach (S n) feedback self))).
    rewrite (learn_app_lookup _ _ Ht), Hv.
    split; trivial. split; [now apply app_levels_closed|].
    rewrite raised_S. apply app_levels_mono; trivial. apply raised_app_level.
Qed.

(** X21.  Three corrections are enough: after the same feedback has been
    given three times or more to an object that can be reached, for an
    app name that is not empty, every notification of that app - whatever
    its title and body - is classified from the learned patterns, and as
    the corrected category unless a category that comes before it holds
    a learned pattern that applies. *)
Theorem three_corrections_are_enough
  (self : classifier) (feedback : UserFeedback) (n : nat)
  (title body : string) :
  reachable self ->
  truthy (strip (lower (app_name feedback))) = true ->
  (3 <= n)%nat ->
  exists r v,
    fst (classify (app_name feedback) title body (teach n feedback self))
      = Ok r /\
    startswith (reasoning r) "Learned from user feedback" = true /\
    (check_items (strip (lower (app_name feedback)))
       (strip (lower (title ++ " " ++ body)))
       (before (actual_category feedback)
          (learned_patterns (teach n feedback self))) = None ->
     r = learned_app_result (actual_category feedback)
           (strip (lower (app_name feedback))) v).
Proof.
  intros Hr Ht Hn.
  destruct n as [|n]; [lia|].
  destruct (teach_app_value self feedback Hr Ht n) as (v & Hv & Hin & Hle).
  assert (fgt v c0_7 = true) as Habove.
  { apply (app_threshold_up (raised raise_app n) v); trivial.
    - apply raised_app_level.
    - rewrite raised_app_above. apply Nat.leb_le. lia. }
  pose proof (learned_record_present feedback (teach n feedback self)) as Hp.
  change (snd (learn_from_feedback feedback (teach n feedback self)))
    with (teach (S n) feedback self) in Hp.
  pose proof (check_items_at _ (strip (lower (title ++ " " ++ body)))
                _ _ _ _ Hp Hv Habove) as Hat.
  rewrite classify_run; cbn [fst].
  destruct (check_items _ _ (learned_patterns (teach (S n) feedback self)))
    as [r|] eqn:E.
  - exists r, v. split; trivial.
    destruct (check_items_sound _ _ _ _ E) as (_ & Hs & _).
    split; trivial. intros Hb. rewrite Hb in Hat. congruence.
  - destruct (check_items _ _ (before _ _)); discriminate.
Qed.

Lemma three_corrections_witness :
  exists r v,
    fst (classify "Slack" "Lunch?" "see you at noon"
           (teach 3 (feedback_on "Slack" "" "" WORK PERSONAL 0)
              (NotificationClassifier None))) = Ok r /\
    startswith (reasoning r) "Learned from user feedback" = true /\
    (check_items "slack" "lunch? see you at noon"
       (before PERSONAL
          (learned_patterns
             (teach 3 (feedback_on "Slack" "" "" WORK PERSONAL 0)
                (NotificationClassifier None)))) = None ->
     r = learned_app_result PERSONAL "slack" v).
Proof.
  apply (three_corrections_are_enough (NotificationClassifier None)
           (feedback_on "Slack" "" "" WORK PERSONAL 0) 3
           "Lunch?" "see you at noon").
  - apply reach_plain.
  - reflexivity.
  - apply Nat.leb_le. reflexivity.
Defined.


(** ** Whitespace around the input *)

Lemma string_app_assoc (s t u : string) : (s ++ t) ++ u = s ++ (t ++ u).
Proof. induction s as [|c s IH]; simpl; trivial. now rewrite IH. Qed.

Lemma space_lower (c : ascii) : is_space c = true -> char_lower c = c.
Proof.
  destruct c as [[|] [|] [|] [|] [|] [|] [|] [|]]; intros H;
    vm_compute in H; try discriminate; reflexivity.
Qed.

Lemma blank_lower (ws : string) : blank ws = true -> lower ws = ws.
Proof.
  induction ws as [|c ws IH]; simpl; trivial.
  intros H. apply andb_prop in H as [Hc Hw].
  now rewrite (space_lower c Hc), IH.
Qed.

Lemma lstrip_blank_app (ws s : string) :
  blank ws = true -> lstrip (ws ++ s) = lstrip s.
Proof.
  induction ws as [|c ws IH]; simpl; trivial.
  intros H. apply andb_prop in H as [-> Hw]. auto.
Qed.

Lemma lstrip_blank (ws : string) : blank ws = true -> lstrip ws = "".
Proof.
  induction ws as [|c ws IH]; simpl; trivial.
  intros H. apply andb_prop in H as [-> Hw]. auto.
Qed.

Lemma rstrip_blank (ws : string) : blank ws = true -> rstrip ws = "".
Proof.
  induction ws as [|c ws IH]; simpl; trivial.
  intros H. apply andb_prop in H as [-> Hw]. now rewrite IH.
Qed.

Lemma rstrip_app_blank (s ws : string) :
  blank ws = true -> rstrip (s ++ ws) = rstrip s.
Proof.
  intros H. induction s as [|c s IH].
  - now apply rstrip_blank.
  - cbn [String.append rstrip]. now rewrite IH.
Qed.

Lemma strip_app_blank (s ws : string) :
  blank ws = true -> strip (s ++ ws) = strip s.
Proof.
  intros H. unfold strip. induction s as [|c s IH].
  - cbn [String.append lstrip]. now rewrite (lstrip_blank ws H).
  - cbn [String.append lstrip]. destruct (is_space c); trivial.
    now apply (rstrip_app_blank (String c s)).
Qed.

Lemma strip_blank_app (ws s : string) :
  blank ws = true -> strip (ws ++ s) = strip s.
Proof. intros H. unfold strip. now rewrite lstrip_blank_app. Qed.

Lemma normalize_padded (before_it s after_it : string) :
  blank before_it = true -> blank after_it = true ->
  strip (lower (before_it ++ s ++ after_it)) = strip (lower s).
Proof.
  intros Hb Ha. rewrite !lower_app, (blank_lower _ Hb), (blank_lower _ Ha).
  rewrite strip_blank_app by trivial. now apply strip_app_blank.
Qed.

Lemma normalize_content_padded (before_it title body after_it : string) :
  blank before_it = true -> blank after_it = true ->
  strip (lower ((before_it ++ title) ++ " " ++ (body ++ after_it))) =
  strip (lower (title ++ " " ++ body)).
Proof.
  intros Hb Ha.
  replace ((before_it ++ title) ++ " " ++ (body ++ after_it))
    with (before_it ++ (title ++ " " ++ body) ++ after_it).
  - now apply normalize_padded.
  - now rewrite !string_app_assoc.
Qed.

(** X22.  Whitespace around the input does not count: blanks before and
    after the app name, before the title and after the body change
    neither what [classify] returns nor what [learn_from_feedback]
    learns. *)
Theorem surrounding_whitespace_is_ignored
  (self : classifier) (a t b : string) (w1 w2 w3 w4 : string)
  (predicted actual : NotificationCategory) (time : Z) :
  blank w1 = true -> blank w2 = true -> blank w3 = true -> blank w4 = true ->
  classify (w1 ++ a ++ w2) (w3 ++ t) (b ++ w4) self = classify a t b self /\
  learn_from_feedback
    (mkFeedback (w1 ++ a ++ w2) (w3 ++ t) (b ++ w4) predicted actual time)
    self
  = learn_from_feedback (mkFeedback a t b predicted actual time) self.
Proof.
  intros H1 H2 H3 H4. split.
  - rewrite !classify_run.
    now rewrite normalize_padded, normalize_content_padded.
  - rewrite !learn_from_feedback_run.
    cbn [app_name title body actual_category].
    now rewrite normalize_padded, normalize_content_padded.
Qed.

Lemma surrounding_whitespace_witness :
  classify ("  " ++ "Slack" ++ " ") (" " ++ "Meeting") ("at ten" ++ "  ")
    (NotificationClassifier None)
  = classify "Slack" "Meeting" "at ten" (NotificationClassifier None).
Proof.
  apply (surrounding_whitespace_is_ignored (NotificationClassifier None)
           "Slack" "Meeting" "at ten" "  " " " " " "  " WORK WORK 0);
    reflexivity.
Defined.


(** ** Four corrections are enough for a word *)

Lemma startswith_empty (s : string) : startswith s "" = true.
Proof. now destruct s. Qed.

Lemma str_in_later (sub : string) (c : ascii) (s : string) :
  str_in sub s = true -> str_in sub (String c s) = true.
Proof. intros H. cbn [str_in]. rewrite H. apply orb_true_r. Qed.

Lemma word_runs_inside (s : string) :
  (forall w ws, word_after s = true -> word_runs s = w :: ws ->
                startswith s w = true) /\
  Forall (fun w => str_in w s = true) (word_runs s).
Proof.
  induction s as [|c s [IH1 IH2]].
  - split; [discriminate | constructor].
  - cbn [word_runs word_after]. destruct (is_word c) eqn:Ec.
    + destruct (word_after s) eqn:Ea.
      * destruct (word_runs s) as [|w ws] eqn:Er.
        -- split.
           ++ intros w' ws' _ [= <- <-]. cbn [startswith].
              now rewrite Ascii.eqb_refl, startswith_empty.
           ++ constructor; [|constructor]. cbn [str_in startswith].
              now rewrite Ascii.eqb_refl, startswith_empty.
        -- pose proof (IH1 w ws eq_refl eq_refl) as Hw.
           inversion IH2; subst. split.
           ++ intros w' ws' _ [= <- <-]. cbn [startswith].
              now rewrite Ascii.eqb_refl, Hw.
           ++ constructor.
              ** cbn [str_in startswith]. now rewrite Ascii.eqb_refl, Hw.
              ** apply Forall_impl with (2 := H2). intros x.
                 apply str_in_later.
      * split.
        -- intros w' ws' _ [= <- <-]. cbn [startswith].
           now rewrite Ascii.eqb_refl, startswith_empty.
        -- constructor.
           ++ cbn [str_in startswith].
              now rewrite Ascii.eqb_refl, startswith_empty.
           ++ apply Forall_impl with (2 := IH2). intros x.
              apply str_in_later.
    + split; [discriminate|].
      apply Forall_impl with (2 := IH2). intros x. apply str_in_later.
Qed.

Lemma firstn_incl {A : Type} (n : nat) (l : list A) (x : A) :
  In x (firstn n l) -> In x l.
Proof.
  revert n. induction l as [|a l IH]; intros [|n]; simpl; try tauto.
  intros [->|H]; eauto.
Qed.

Lemma written_token_inside (content w : string) :
  In w (written_tokens content) ->
  str_in w content = true /\ (3 < String.length w)%nat.
Proof.
  unfold written_tokens, taken_tokens, content_tokens. intros H.
  apply filter_In in H as [H Hl]. apply Nat.ltb_lt in Hl. split; trivial.
  apply firstn_incl in H. apply filter_In in H as [H _].
  destruct (word_runs_inside content) as [_ Hall].
  rewrite Forall_forall in Hall. auto.
Qed.

Lemma raised_word_level (n : nat) : In (raised raise_word n) word_levels.
Proof.
  induction n as [|n IH]; [apply word_levels_start|].
  rewrite raised_S. now apply word_levels_closed.
Qed.

Lemma word_levels_mono (u v : float) :
  In u word_levels -> In v word_levels -> fle u v = true ->
  fle (raise_word (Some u)) (raise_word (Some v)) = true.
Proof.
  unfold word_levels; simpl.
  intros [<-|[<-|[<-|[<-|[<-|[<-|[<-|[<-|[]]]]]]]]]
         [<-|[<-|[<-|[<-|[<-|[<-|[<-|[<-|[]]]]]]]]];
    vm_compute; trivial.
Qed.

Lemma word_levels_floor (v : float) :
  In v word_levels -> fle (raised raise_word 0) v = true.
Proof.
  unfold word_levels; simpl.
  intros [<-|[<-|[<-|[<-|[<-|[<-|[<-|[<-|[]]]]]]]]]; reflexivity.
Qed.

Lemma word_threshold_up (u v : float) :
  In u word_levels -> In v word_levels ->
  fgt u c0_7 = true -> fle u v = true -> fgt v c0_7 = true.
Proof.
  unfold word_levels; simpl.
  intros [<-|[<-|[<-|[<-|[<-|[<-|[<-|[<-|[]]]]]]]]]
         [<-|[<-|[<-|[<-|[<-|[<-|[<-|[<-|[]]]]]]]]];
    vm_compute; trivial; discriminate.
Qed.

(** Raising at least once, from no entry or from a level. *)
Lemma raise_word_some (o : option float) (k : nat) :
  (forall v0, o = Some v0 -> In v0 word_levels) ->
  exists v,
    Nat.iter (S k) (fun o => Some (raise_word o)) o = Some v /\
    In v word_levels /\ fle (raise_word o) v = true.
Proof.
  intros Ho.
  assert (In (raise_word o) word_levels) as H0.
  { destruct o as [v0|]; [|apply word_levels_start].
    now apply word_levels_closed, Ho. }
  induction k as [|k (v & E & Hin & Hle)].
  - exists (raise_word o). repeat split; trivial.
    now apply fle_refl, word_levels_nonneg.
  - exists (raise_word (Some v)). rewrite Nat.iter_succ, E.
    destruct (word_levels_closed v Hin) as [Hin' Hle'].
    repeat split; trivial.
    apply (fle_trans _ v); auto using word_levels_nonneg.
Qed.

Lemma teach_word_value (self : classifier) (feedback : UserFeedback)
  (w : string) :
  reachable self ->
  In w (written_tokens
          (strip (lower (title feedback ++ " " ++ body feedback)))) ->
  forall n,
    exists v,
      sget (get_content
              (record_of (learned_patterns (teach (S n) feedback self))
                 (actual_category feedback))) w = Some v /\
      In v word_levels /\ fle (raised raise_word n) v = true.
Proof.
  intros Hr Hw.
  apply (count_occ_In string_dec) in Hw.
  destruct (count_occ string_dec _ w) as [|k] eqn:Ek; [lia|]. clear Hw.
  induction n as [|n (v & Hv & Hin & Hle)].
  - cbn [teach]. rewrite learn_word_lookup, Ek.
    destruct (raise_word_some
                (sget (get_content
                         (record_of (learned_patterns self)
                            (actual_category feedback))) w) k)
      as (v & E & Hin & _).
    + destruct (record_of_tidy self (actual_category feedback) Hr)
        as (apps & cont & _ & Hc & _ & _ & _ & Fc).
      unfold get_content. rewrite Hc. intros v0 E.
      apply (dict_get_Some String.eqb String.eqb_eq) in E.
      rewrite Forall_forall in Fc. now destruct (Fc _ E).
    + exists v. repeat split; trivial. now apply word_levels_floor.
  - change (teach (S (S n)) feedback self)
      with (snd (learn_from_feedback feedback (teach (S n) feedback self))).
    rewrite learn_word_lookup, Ek, Hv.
    destruct (raise_word_some (Some v) k) as (v' & E & Hin' & Hle').
    + now intros v0 [= <-].
    + exists v'. repeat split; trivial.
      apply (fle_trans _ (raise_word (Some v)));
        auto using word_levels_nonneg, raised_word_level.
      * apply word_levels_nonneg. now apply word_levels_closed.
      * rewrite raised_S. apply word_levels_mono; trivial.
        apply raised_word_level.
Qed.

Lemma check_items_found (a content : string) (l : learned)
  (c : NotificationCategory) (p : patterns) (w : string) (v : float) :
  In (c, p) l -> In (w, v) (get_content p) ->
  str_in w content = true -> fgt v c0_7 = true ->
  exists r, check_items a content l = Some r.
Proof.
  intros Hc Hw Hs Hv. induction l as [|[c' p'] l IH]; [destruct Hc|].
  cbn [check_items]. destruct (check_app c' a p'); [now eexists|].
  destruct (check_content c' content (get_content p')) eqn:E; [now eexists|].
  destruct Hc as [[= -> ->]|Hc]; [|now apply IH].
  pose proof (proj1 (check_content_none c content _) E w v Hw Hs). congruence.
Qed.

(** X23.  Four corrections are enough for a word: a token that a
    feedback writes occurs in the content of that feedback, and after the
    same feedback has been given four times or more to an object that can
    be reached, every notification whose content contains the token is
    classified from the learned patterns. *)
Theorem four_corrections_are_enough_for_a_word
  (self : classifier) (feedback : UserFeedback) (w : string) (n : nat)
  (a t b : string) :
  reachable self ->
  In w (written_tokens
          (strip (lower (title feedback ++ " " ++ body feedback)))) ->
  (4 <= n)%nat ->
  str_in w (strip (lower (title feedback ++ " " ++ body feedback))) = true /\
  (str_in w (strip (lower (t ++ " " ++ b))) = true ->
   exists r,
     fst (classify a t b (teach n feedback self)) = Ok r /\
     startswith (reasoning r) "Learned from user feedback" = true).
Proof.
  intros Hr Hw Hn.
  split; [now apply written_token_inside|]. intros Hs.
  destruct n as [|n]; [lia|].
  destruct (teach_word_value self feedback w Hr Hw n) as (v & Hv & Hin & Hle).
  assert (fgt v c0_7 = true) as Habove.
  { apply (word_threshold_up (raised raise_word n) v); trivial.
    - apply raised_word_level.
    - rewrite raised_word_above. apply Nat.leb_le. lia. }
  pose proof (learned_record_present feedback (teach n feedback self)) as Hp.
  change (snd (learn_from_feedback feedback (teach n feedback self)))
    with (teach (S n) feedback self) in Hp.
  apply (dict_get_Some category_eqb category_eqb_eq) in Hp.
  apply (dict_get_Some String.eqb String.eqb_eq) in Hv.
  destruct (check_items_found (strip (lower a)) _ _ _ _ _ _
              Hp Hv Hs Habove) as [r E].
  exists r. rewrite classify_run, E. split; trivial.
  now destruct (check_items_sound _ _ _ _ E) as (_ & H & _).
Qed.

Lemma four_corrections_witness :
  str_in "quarterly" "quarterly numbers" = true /\
  (str_in "quarterly" (strip (lower ("The QUARTERLY report" ++ " " ++ "")))
     = true ->
   exists r,
     fst (classify "Mail" "The QUARTERLY report" ""
            (teach 4 (feedback_on "App" "Quarterly numbers" "" WORK JUNK 0)
               (NotificationClassifier None))) = Ok r /\
     startswith (reasoning r) "Learned from user feedback" = true).
Proof.
  apply (four_corrections_are_enough_for_a_word (NotificationClassifier None)
           (feedback_on "App" "Quarterly numbers" "" WORK JUNK 0)
           "quarterly" 4 "Mail" "The QUARTERLY report" "").
  - apply reach_plain.
  - vm_compute. tauto.
  - apply Nat.leb_le. reflexivity.
Defined.


(** ** How much a feedback adds *)

Lemma dict_set_length {K V : Type} (keq : K -> K -> bool) (d : dict K V)
  (k : K) (v : V) :
  (List.length d <= List.length (dict_set keq d k v) <= S (List.length d))%nat.
Proof.
  induction d as [|[k' v'] d IH]; simpl; [lia|].
  destruct (keq k' k); simpl; lia.
Qed.

Lemma write_words_length (ws : list string) :
  forall d : dict string float,
    (List.length d <= List.length (fold_left write_word ws d)
       <= List.length d + List.length ws)%nat.
Proof.
  induction ws as [|w ws IH]; intros d; simpl; [lia|].
  specialize (IH (write_word d w)).
  pose proof (dict_set_length String.eqb d w (raise_word (sget d w))) as H.
  unfold write_word, sset in *. lia.
Qed.

Lemma written_tokens_count (content : string) :
  (List.length (written_tokens content) <= 5)%nat.
Proof.
  unfold written_tokens, taken_tokens.
  etransitivity; [apply filter_length_le|]. apply firstn_le_length.
Qed.

Lemma learned_record_size (p : patterns) (a content : string) :
  (List.length (get_apps p) + List.length (get_content p)
   <= List.length (get_apps (learned_record p a content))
      + List.length (get_content (learned_record p a content))
   <= List.length (get_apps p) + List.length (get_content p) + 6)%nat.
Proof.
  rewrite learned_record_apps, learned_record_content.
  pose proof (write_words_length (written_tokens content) (get_content p)).
  pose proof (written_tokens_count content).
  destruct (truthy a); [|lia].
  pose proof (dict_set_length String.eqb (get_apps p) a
                (raise_app (sget (get_apps p) a))).
  unfold sset. lia.
Qed.

(** X24.  The store grows slowly and never shrinks by learning: on an
    object that can be reached, one feedback adds at most six entries to
    the learned patterns (one app and five content words) and removes
    none. *)
Theorem feedback_adds_at_most_six_entries
  (self : classifier) (feedback : UserFeedback) :
  reachable self ->
  (entries (learned_patterns self)
   <= entries (learned_patterns (snd (learn_from_feedback feedback self)))
   <= entries (learned_patterns self) + 6)%nat.
Proof.
  intros Hr. destruct (reachable_well_keyed self Hr) as [Hk _].
  destruct (store_of_three _ Hk) as (pw & pp & pj & Hl).
  destruct (learned_of_learn feedback self) as [_ ->].
  unfold learned_after, record_of. rewrite Hl.
  destruct (actual_category feedback);
    cbn [cget cset dict_get dict_set category_eqb entries dict_values map snd
           list_sum fold_right];
    match goal with
    | |- context [learned_record ?p ?a ?c] =>
        pose proof (learned_record_size p a c)
    end; lia.
Qed.

Lemma feedback_adds_witness :
  (entries (learned_patterns taught_personal)
   <= entries
        (learned_patterns
           (snd (learn_from_feedback
                   (feedback_on "Mail" "one two three four five six seven"
                      "eight nine" WORK JUNK 0) taught_personal)))
   <= entries (learned_patterns taught_personal) + 6)%nat.
Proof.
  apply (feedback_adds_at_most_six_entries taught_personal).
  unfold taught_personal, teach. repeat apply reach_learn. apply reach_plain.
Defined.
